(** * Reminder notifications of the daily task reminder app

  A shallow embedding of the two TypeScript modules that drive the
  platform notification scheduler:

  - [lib/notifications/notification-helper.ts]: [checkNotificationPermission],
    [scheduleTaskReminder], [cancelReminder];
  - [hooks/use-task-notifications.ts]: the module-level [notificationMap],
    [syncNotifications], [getNotificationIdForTask],
    [clearNotificationMappings].

  The expo-notifications API, the clock and the [Date] parser are the
  interface [Platform]; every call that crosses it is recorded, in order, in
  the list of [Call]s a computation returns.  [console] output is not
  modelled.  A pass of [syncNotifications] is first modelled run to its
  end, alone; the passes that [useTaskNotifications] starts without awaiting
  them, and that overlap, are the interleavings of [Async].

  Around them: the rest of the helper ([initializeNotifications],
  [requestNotificationPermission], [getScheduledNotifications],
  [cancelAllReminders], the listener of [setupNotificationTapHandler]) over
  the interface [Expo]; the tap listener of [HomeScreen] in
  [app/(tabs)/index.tsx]; [taskReducer] of
  [lib/context/task-context.tsx], whose task list the hook is given; and
  the way a completed task takes from the provider's
  [toggleTaskCompletion] through [lib/repository/task-repository.ts] to
  [lib/storage/task-storage.ts], over the interface [AsyncStorage]. *)

From Stdlib Require Import ZArith QArith List String DecimalString Bool Lia.
From Stdlib Require Import Sorted.
Import ListNotations.
Open Scope string_scope.
Open Scope Z_scope.
Open Scope list_scope.

Set Implicit Arguments.

(** ** JavaScript values *)

(** A JavaScript number that holds an integer, or [NaN].  Instants are
  milliseconds since the epoch and stay far below 2^53, so the arithmetic
  the code does on them is exact. *)
Inductive JsNumber : Type :=
| Num (z : Z)
| NaN.

Module JsNumber.

Definition sub (a b : JsNumber) : JsNumber :=
  match a, b with
  | Num x, Num y => Num (x - y)
  | _, _ => NaN
  end.

Definition add (a b : JsNumber) : JsNumber :=
  match a, b with
  | Num x, Num y => Num (x + y)
  | _, _ => NaN
  end.

(** [Math.floor(a / d)] for a positive integer literal [d]. *)
Definition floor_div (a : JsNumber) (d : Z) : JsNumber :=
  match a with
  | Num x => Num (x / d)
  | NaN => NaN
  end.

(** [a <= b]; a comparison with [NaN] is false. *)
Definition leb (a b : JsNumber) : bool :=
  match a, b with
  | Num x, Num y => x <=? y
  | _, _ => false
  end.

(** [a > b]; a comparison with [NaN] is false. *)
Definition gtb (a b : JsNumber) : bool :=
  match a, b with
  | Num x, Num y => y <? x
  | _, _ => false
  end.

(** [a / d] as a real number, for [hoursUntilReminder]: [None] is [NaN]. *)
Definition divQ (a : JsNumber) (d : Z) : option Q :=
  match a with
  | Num x => Some (inject_Z x / inject_Z d)%Q
  | NaN => None
  end.

(** [h > n] for the quotient above. *)
Definition gtQ (h : option Q) (n : Z) : bool :=
  match h with
  | Some q => negb (Qle_bool q (inject_Z n))
  | None => false
  end.

End JsNumber.

(** Truthiness of a string: every string but the empty one. *)
Definition truthy (s : string) : bool :=
  match s with
  | EmptyString => false
  | String _ _ => true
  end.

(** Truthiness of [string | null | undefined]. *)
Definition truthy_opt (o : option string) : bool :=
  match o with
  | Some s => truthy s
  | None => false
  end.

(** ** The JavaScript [Map<string, string>]

  A [Map] iterates in insertion order, and the order in which
  [syncNotifications] cancels follows it, so the map is an association
  list in insertion order. *)
Module JsMap.

Definition t : Type := list (string * string).

Definition empty : t := [].

Fixpoint get (m : t) (k : string) : option string :=
  match m with
  | [] => None
  | (k', v) :: m' => if String.eqb k k' then Some v else get m' k
  end.

(** [set] keeps the position of a key that is present and appends a new
    one. *)
Fixpoint set (m : t) (k v : string) : t :=
  match m with
  | [] => [(k, v)]
  | (k', v') :: m' =>
      if String.eqb k k' then (k', v) :: m' else (k', v') :: set m' k v
  end.

Definition delete (m : t) (k : string) : t :=
  filter (fun e => negb (String.eqb k (fst e))) m.

Definition clear (m : t) : t := [].

Definition entries (m : t) : list (string * string) := m.

Definition keys (m : t) : list string := map fst m.

(** What every map built by [set] and [delete] from the empty one
    satisfies: a key occurs once. *)
Definition wf (m : t) : Prop := NoDup (keys m).

End JsMap.

(** ** Tasks ([lib/types/task.ts]) *)

(** The fields of [Task] the notification code reads.  [reminderTime] is
  [None] for [undefined]. *)
Record Task : Type := mkTask {
  id : string;
  title : string;
  reminderEnabled : bool;
  reminderTime : option string
}.

(** [t.reminderEnabled && t.reminderTime], as a condition. *)
Definition hasReminder (t : Task) : bool :=
  reminderEnabled t && truthy_opt (reminderTime t).

(** ** Notification requests *)

Inductive AndroidNotificationPriority : Type := DEFAULT | HIGH.

(** The flag set in [content.data]. *)
Inductive ReminderFlag : Type :=
| isAdvanceReminder
| isMainReminder
| isFollowUp.

(** The argument of [scheduleNotificationAsync].  The fields that are the
  same in every request of this program ([sound], [badge], the Android
  vibration pattern and category, [trigger.type], [trigger.channelId]) are
  left out. *)
Record NotificationRequestInput : Type := mkRequest {
  content_title : string;
  content_body : string;
  data_taskId : string;
  data_taskTitle : string;
  data_flag : ReminderFlag;
  content_priority : AndroidNotificationPriority;
  trigger_seconds : JsNumber
}.

Inductive PermissionStatus : Type := granted | denied | undetermined.

Definition PermissionStatus_eqb (a b : PermissionStatus) : bool :=
  match a, b with
  | granted, granted | denied, denied | undetermined, undetermined => true
  | _, _ => false
  end.

(** ** The platform *)

(** What an awaited call gives: a value, or a thrown error (whose content
  the program only logs). *)
Inductive Outcome (A : Type) : Type :=
| Val (a : A)
| Threw.
Arguments Threw {A}.

(** The JavaScript runtime and expo-notifications, over a state [World] of
  their own. *)
Class Platform (World : Type) : Type := {
  (** [new Date(s).getTime()]: [NaN] for an invalid date string. *)
  Date_parse : string -> JsNumber;
  (** [new Date().getTime()]. *)
  Date_now : World -> Z * World;
  getPermissionsAsync : World -> Outcome PermissionStatus * World;
  scheduleNotificationAsync :
    NotificationRequestInput -> World -> Outcome string * World;
  cancelScheduledNotificationAsync : string -> World -> Outcome unit * World
}.

(** A call that crossed the platform boundary, with what it gave. *)
Inductive Call : Type :=
| CallGetPermissions (r : Outcome PermissionStatus)
| CallSchedule (req : NotificationRequestInput) (r : Outcome string)
| CallCancel (notificationId : string) (r : Outcome unit).

(** The requests handed to the scheduler, in order. *)
Fixpoint schedule_requests (cs : list Call) : list NotificationRequestInput :=
  match cs with
  | [] => []
  | CallSchedule req _ :: cs' => req :: schedule_requests cs'
  | _ :: cs' => schedule_requests cs'
  end.

(** The identifiers the scheduler returned, in order. *)
Fixpoint returned_handles (cs : list Call) : list string :=
  match cs with
  | [] => []
  | CallSchedule _ (Val h) :: cs' => h :: returned_handles cs'
  | _ :: cs' => returned_handles cs'
  end.

(** The identifiers whose cancellation was requested, in order. *)
Fixpoint cancel_requests (cs : list Call) : list string :=
  match cs with
  | [] => []
  | CallCancel h _ :: cs' => h :: cancel_requests cs'
  | _ :: cs' => cancel_requests cs'
  end.

Section Program.

Context {World : Type} {P : Platform World}.

(** ** Program state and the monad of asynchronous code *)

(** The platform's state and the module-level [notificationMap]. *)
Record State : Type := mkState {
  world : World;
  notificationMap : JsMap.t
}.

(** An async function: from a state to its outcome, the state it leaves
    (also when it throws) and the platform calls it made. *)
Definition M (A : Type) : Type := State -> Outcome A * State * list Call.

Definition ret {A} (a : A) : M A := fun st => (Val a, st, []).

Definition bind {A B} (m : M A) (k : A -> M B) : M B :=
  fun st =>
    match m st with
    | (Val a, st1, c1) =>
        match k a st1 with
        | (r, st2, c2) => (r, st2, c1 ++ c2)
        end
    | (Threw, st1, c1) => (Threw, st1, c1)
    end.

(** [try { body } catch (error) { handler }]. *)
Definition try_catch {A} (body handler : M A) : M A :=
  fun st =>
    match body st with
    | (Val a, st1, c1) => (Val a, st1, c1)
    | (Threw, st1, c1) =>
        match handler st1 with
        | (r, st2, c2) => (r, st2, c1 ++ c2)
        end
    end.

(** [for (const x of xs) { body x }]. *)
Fixpoint for_of {A} (xs : list A) (body : A -> M unit) : M unit :=
  match xs with
  | [] => ret tt
  | x :: xs' => bind (body x) (fun _ => for_of xs' body)
  end.

Notation "x <- m ;; k" := (bind m (fun x => k))
  (at level 61, m at next level, right associativity).
Notation "m ;;; k" := (bind m (fun _ => k))
  (at level 61, right associativity).

(** ** [notification-helper.ts] *)

(** The awaited platform calls, lifted to the monad and recorded. *)
Definition await_getPermissionsAsync : M PermissionStatus :=
  fun st =>
    let (r, w) := getPermissionsAsync (world st) in
    (r, mkState w (notificationMap st), [CallGetPermissions r]).

Definition await_scheduleNotificationAsync
    (req : NotificationRequestInput) : M string :=
  fun st =>
    let (r, w) := scheduleNotificationAsync req (world st) in
    (r, mkState w (notificationMap st), [CallSchedule req r]).

Definition await_cancelScheduledNotificationAsync
    (notificationId : string) : M unit :=
  fun st =>
    let (r, w) := cancelScheduledNotificationAsync notificationId (world st) in
    (r, mkState w (notificationMap st), [CallCancel notificationId r]).

(** [new Date()], as its [getTime()]. *)
Definition new_Date : M Z :=
  fun st =>
    let (now, w) := Date_now (world st) in
    (Val now, mkState w (notificationMap st), []).

(** [checkNotificationPermission]. *)
Definition checkNotificationPermission : M bool :=
  try_catch
    (status <- await_getPermissionsAsync ;;
     ret (PermissionStatus_eqb status granted))
    (ret false).

(** An element of the array [advanceNotifications]. *)
Record AdvanceNotification : Type := mkAdvance {
  seconds : JsNumber;
  adv_title : string;
  adv_body : string
}.

(** The array [advanceNotifications] once the three [if]s that push to it
    have run. *)
Definition advanceNotifications (taskTitle : string)
    (secondsUntilReminder : JsNumber) : list AdvanceNotification :=
  let hoursUntilReminder := JsNumber.divQ secondsUntilReminder 3600 in
  (if JsNumber.gtQ hoursUntilReminder 24 then
     let advanceSeconds :=
       JsNumber.sub secondsUntilReminder (Num (24 * 3600)) in
     if JsNumber.gtb advanceSeconds (Num 0) then
       [mkAdvance advanceSeconds "📅 Upcoming Task Tomorrow"
          (taskTitle ++ " is scheduled for tomorrow")%string]
     else []
   else [])
  ++
  (if JsNumber.gtQ hoursUntilReminder 12 then
     let advanceSeconds :=
       JsNumber.sub secondsUntilReminder (Num (12 * 3600)) in
     if JsNumber.gtb advanceSeconds (Num 0) then
       [mkAdvance advanceSeconds "⏳ Task in 12 Hours"
          (taskTitle ++ " is coming up in 12 hours")%string]
     else []
   else [])
  ++
  (if JsNumber.gtQ hoursUntilReminder 6 then
     let advanceSeconds :=
       JsNumber.sub secondsUntilReminder (Num (6 * 3600)) in
     if JsNumber.gtb advanceSeconds (Num 0) then
       [mkAdvance advanceSeconds "⏰ Task in 6 Hours"
          (taskTitle ++ " is coming up in 6 hours")%string]
     else []
   else []).

Definition followUpIntervals : list Z := [120; 240; 360; 480; 600].

(** The three shapes of request [scheduleTaskReminder] builds. *)
Definition advanceRequest (taskId taskTitle : string)
    (notification : AdvanceNotification) : NotificationRequestInput :=
  mkRequest (adv_title notification) (adv_body notification)
    taskId taskTitle isAdvanceReminder DEFAULT (seconds notification).

Definition mainRequest (taskId taskTitle : string)
    (secondsUntilReminder : JsNumber) : NotificationRequestInput :=
  mkRequest "⏰ Task Reminder - NOW" taskTitle
    taskId taskTitle isMainReminder HIGH secondsUntilReminder.

Definition followUpRequest (taskId taskTitle : string)
    (secondsUntilReminder : JsNumber) (interval : Z)
    : NotificationRequestInput :=
  mkRequest "🔔 Reminder: Still Pending" taskTitle
    taskId taskTitle isFollowUp HIGH
    (JsNumber.add secondsUntilReminder (Num interval)).

(** [scheduleTaskReminder]: the identifier of the main notification, or
    [None] for [null]. *)
Definition scheduleTaskReminder (taskId taskTitle reminderTime : string)
    : M (option string) :=
  try_catch
    (hasPermission <- checkNotificationPermission ;;
     if negb hasPermission then ret None
     else
       let reminderDate := Date_parse reminderTime in
       now <- new_Date ;;
       if JsNumber.leb reminderDate (Num now) then ret None
       else
         let secondsUntilReminder :=
           JsNumber.floor_div (JsNumber.sub reminderDate (Num now)) 1000 in
         for_of (advanceNotifications taskTitle secondsUntilReminder)
           (fun notification =>
              await_scheduleNotificationAsync
                (advanceRequest taskId taskTitle notification) ;;;
              ret tt) ;;;
         notificationId <-
           await_scheduleNotificationAsync
             (mainRequest taskId taskTitle secondsUntilReminder) ;;
         for_of followUpIntervals
           (fun interval =>
              await_scheduleNotificationAsync
                (followUpRequest taskId taskTitle
                   secondsUntilReminder interval) ;;;
              ret tt) ;;;
         ret (Some notificationId))
    (ret None).

(** [cancelReminder]. *)
Definition cancelReminder (notificationId : string) : M unit :=
  try_catch
    (await_cancelScheduledNotificationAsync notificationId)
    (ret tt).

(** ** [use-task-notifications.ts] *)

Definition notificationMap_get (taskId : string) : M (option string) :=
  fun st => (Val (JsMap.get (notificationMap st) taskId), st, []).

Definition notificationMap_set (taskId notificationId : string) : M unit :=
  fun st =>
    (Val tt,
     mkState (world st) (JsMap.set (notificationMap st) taskId notificationId),
     []).

(** [tasks.find((t) => t.id === taskId)]. *)
Definition find_task (tasks : list Task) (taskId : string) : option Task :=
  find (fun t => String.eqb (id t) taskId) tasks.

(** [!task || !task.reminderEnabled || !task.reminderTime]. *)
Definition toCancel (tasks : list Task) (taskId : string) : bool :=
  match find_task tasks taskId with
  | None => true
  | Some task =>
      negb (reminderEnabled task) || negb (truthy_opt (reminderTime task))
  end.

(** The loop over [notificationMap.entries()]: it awaits nothing, pushes
    the identifier of every entry to cancel to [notificationIdsToCancel]
    and deletes the entry.  Deleting the entry being visited does not
    disturb the iteration of a [Map]. *)
Fixpoint collect_cancellations (tasks : list Task)
    (entries : list (string * string)) (m : JsMap.t)
    : list string * JsMap.t :=
  match entries with
  | [] => ([], m)
  | (taskId, notificationId) :: rest =>
      if toCancel tasks taskId then
        let (ids, m') :=
          collect_cancellations tasks rest (JsMap.delete m taskId) in
        (notificationId :: ids, m')
      else collect_cancellations tasks rest m
  end.

Definition notificationIdsToCancel (tasks : list Task) : M (list string) :=
  fun st =>
    let (ids, m) :=
      collect_cancellations tasks (JsMap.entries (notificationMap st))
        (notificationMap st) in
    (Val ids, mkState (world st) m, []).

(** The body of the first loop of [syncNotifications], for one task. *)
Definition schedule_if_new (task : Task) : M unit :=
  if hasReminder task then
    match reminderTime task with
    | Some reminderTime_ =>
        existingNotificationId <- notificationMap_get (id task) ;;
        if negb (truthy_opt existingNotificationId) then
          notificationId <-
            scheduleTaskReminder (id task) (title task) reminderTime_ ;;
          match notificationId with
          | Some notificationId_ =>
              if truthy notificationId_ then
                notificationMap_set (id task) notificationId_
              else ret tt
          | None => ret tt
          end
        else ret tt
    | None => ret tt
    end
  else ret tt.

(** [syncNotifications].  The sets [taskIdsWithReminders] and [taskIds] it
    builds are never read and are left out. *)
Definition syncNotifications (tasks : list Task) : M unit :=
  try_catch
    (for_of tasks schedule_if_new ;;;
     ids <- notificationIdsToCancel tasks ;;
     for_of ids cancelReminder)
    (ret tt).

(** [getNotificationIdForTask]. *)
Definition getNotificationIdForTask (taskId : string) : M (option string) :=
  notificationMap_get taskId.

(** [clearNotificationMappings]. *)
Definition clearNotificationMappings : M unit :=
  fun st =>
    (Val tt, mkState (world st) (JsMap.clear (notificationMap st)), []).

End Program.

Arguments State World : clear implicits.
Arguments M World A : clear implicits.

(** The notations of the section, for the rest of the file. *)
Notation "x <- m ;; k" := (bind m (fun x => k))
  (at level 61, m at next level, right associativity).
Notation "m ;;; k" := (bind m (fun _ => k))
  (at level 61, right associativity).

(** ** Vocabulary of the statements *)

(** Outcome, final state, final map and calls of a run. *)
Definition value_of {World A} (r : Outcome A * State World * list Call)
    : Outcome A :=
  fst (fst r).

Definition state_of {World A} (r : Outcome A * State World * list Call)
    : State World :=
  snd (fst r).

Definition ledger_of {World A} (r : Outcome A * State World * list Call)
    : JsMap.t :=
  notificationMap (state_of r).

Definition calls_of {World A} (r : Outcome A * State World * list Call)
    : list Call :=
  snd r.

(** Every schedule call recorded in [cs] holds what the scheduler gave for
    its request in some state. *)
Definition from_scheduler {World} {P : Platform World} (cs : list Call)
    : Prop :=
  forall req r, In (CallSchedule req r) cs ->
    exists w : World, r = fst (scheduleNotificationAsync req w).

(** The requests [scheduleTaskReminder] goes through, in its order, for a
    reminder [secondsUntilReminder] away: the advance notifications, the main
    one, the follow-ups. *)
Definition desiredRequests (taskId taskTitle : string)
    (secondsUntilReminder : JsNumber) : list NotificationRequestInput :=
  map (advanceRequest taskId taskTitle)
    (advanceNotifications taskTitle secondsUntilReminder)
  ++ mainRequest taskId taskTitle secondsUntilReminder
  :: map (followUpRequest taskId taskTitle secondsUntilReminder)
       followUpIntervals.

(** [attempted reqs cs completed]: [cs] are the calls of going through
    [reqs] in order up to the first one that throws; [completed] tells
    whether none did. *)
Inductive attempted
  : list NotificationRequestInput -> list Call -> bool -> Prop :=
| attempted_nil : attempted [] [] true
| attempted_accepted req h reqs cs completed :
    attempted reqs cs completed ->
    attempted (req :: reqs) (CallSchedule req (Val h) :: cs) completed
| attempted_threw req reqs :
    attempted (req :: reqs) [CallSchedule req Threw] false.

(** A schedule call that threw. *)
Definition threw (c : Call) : bool :=
  match c with
  | CallSchedule _ Threw => true
  | _ => false
  end.

(** The requests among [reqs] that carry the task identifier [taskId]. *)
Definition requests_of (taskId : string)
    (reqs : list NotificationRequestInput) : list NotificationRequestInput :=
  filter (fun req => String.eqb (data_taskId req) taskId) reqs.

(** The task with its reminder switched off, and with another reminder
    time. *)
Definition disable (t : Task) : Task :=
  mkTask (id t) (title t) false (reminderTime t).

Definition retime (t : Task) (reminderTime_ : string) : Task :=
  mkTask (id t) (title t) (reminderEnabled t) (Some reminderTime_).

(** ** A device to run the program on

    A platform whose scheduler hands out the identifiers [ntf-0], [ntf-1],
    ... and keeps the pending notifications; the schedule calls whose
    number (counted from 0) is in [rejected] throw.  Permission and clock
    stay as they are until the state is changed from outside. *)
Module Device.

Record t : Type := mk {
  clock : Z;
  permission : PermissionStatus;
  scheduleCalls : nat;
  rejected : list nat;
  pending : list (string * NotificationRequestInput)
}.

Definition identifier (n : nat) : string :=
  ("ntf-" ++ NilEmpty.string_of_uint (Nat.to_uint n))%string.

(** The date strings of the examples; every other string is an invalid
    date. *)
Definition parse (s : string) : JsNumber :=
  if String.eqb s "2024-01-15T14:30:00.000Z" then Num 1705329000000
  else if String.eqb s "2024-01-14T13:30:00.500Z" then Num 1705239000500
  else if String.eqb s "2024-01-14T16:30:00.000Z" then Num 1705249800000
  else if String.eqb s "2024-01-14T13:30:00.000Z" then Num 1705239000000
  else if String.eqb s "2024-01-14T09:00:00.000Z" then Num 1705222800000
  else NaN.

Definition schedule (req : NotificationRequestInput) (w : t)
    : Outcome string * t :=
  let n := scheduleCalls w in
  if existsb (Nat.eqb n) (rejected w) then
    (Threw, mk (clock w) (permission w) (S n) (rejected w) (pending w))
  else
    (Val (identifier n),
     mk (clock w) (permission w) (S n) (rejected w)
        (pending w ++ [(identifier n, req)])).

Definition cancel (notificationId : string) (w : t) : Outcome unit * t :=
  (Val tt,
   mk (clock w) (permission w) (scheduleCalls w) (rejected w)
      (filter (fun e => negb (String.eqb notificationId (fst e)))
         (pending w))).

#[global] Instance platform : Platform t := {
  Date_parse := parse;
  Date_now := fun w => (clock w, w);
  getPermissionsAsync := fun w => (Val (permission w), w);
  scheduleNotificationAsync := schedule;
  cancelScheduledNotificationAsync := cancel
}.

(** 2024-01-14T13:30:00.000Z, permission granted, nothing scheduled, and a
    scheduler that accepts everything. *)
Definition fresh : t := mk 1705239000000 granted 0 [] [].

(** The same with a scheduler that throws at the calls listed. *)
Definition rejecting (calls : list nat) : t :=
  mk 1705239000000 granted 0 calls [].

(** The same with permission not granted. *)
Definition without_permission : t := mk 1705239000000 denied 0 [] [].

Definition start (w : t) : State t := mkState w JsMap.empty.

End Device.

(** Tasks of the examples. *)
Definition dentist : Task :=
  mkTask "a1" "Dentist" true (Some "2024-01-15T14:30:00.000Z").

Definition groceries : Task :=
  mkTask "b2" "Groceries" true (Some "2024-01-14T16:30:00.000Z").

Definition standup : Task :=
  mkTask "c3" "Stand-up" true (Some "2024-01-14T13:30:00.500Z").

Definition overdue : Task :=
  mkTask "d4" "Tax return" true (Some "2024-01-14T09:00:00.000Z").

(** ** A platform that cooperates

    Permission is always granted, the clock stands at
    2024-01-14T13:30:00.000Z and the scheduler accepts every request; its
    state is the number of identifiers handed out. *)
Module Steady.

Definition schedule (req : NotificationRequestInput) (n : nat)
    : Outcome string * nat :=
  (Val (Device.identifier n), S n).

#[global] Instance platform : Platform nat := {
  Date_parse := Device.parse;
  Date_now := fun n => (1705239000000, n);
  getPermissionsAsync := fun n => (Val granted, n);
  scheduleNotificationAsync := schedule;
  cancelScheduledNotificationAsync := fun _ n => (Val tt, n)
}.

Definition start : State nat := mkState 0%nat JsMap.empty.

End Steady.

(** ** Runs of the examples *)

(** One pass over the dentist task on a fresh device, then a pass after the
    task was deleted. *)
Definition dentist_pass : Outcome unit * State Device.t * list Call :=
  syncNotifications [dentist] (Device.start Device.fresh).

Definition dentist_deleted_pass : Outcome unit * State Device.t * list Call :=
  syncNotifications [] (state_of dentist_pass).

(** The same first pass on a device whose scheduler throws at its second
    call, then a second pass over the same task. *)
Definition dentist_failing_pass : Outcome unit * State Device.t * list Call :=
  syncNotifications [dentist] (Device.start (Device.rejecting [1%nat])).

Definition dentist_second_pass : Outcome unit * State Device.t * list Call :=
  syncNotifications [dentist] (state_of dentist_failing_pass).

(** A pass over two tasks on a fresh device, and the state it leaves. *)
Definition two_tasks_pass : Outcome unit * State Device.t * list Call :=
  syncNotifications [dentist; groceries] (Device.start Device.fresh).

(** The map that pass left is cleared, and the pass is run again. *)
Definition two_tasks_pass_after_clear
    : Outcome unit * State Device.t * list Call :=
  syncNotifications [dentist; groceries]
    (state_of (clearNotificationMappings (state_of two_tasks_pass))).



(** ** The rest of [notification-helper.ts]

    The functions that set notifications up, list them and cancel them all
    use more of expo-notifications and of React Native: the interface
    [Expo].  They do not see the hook's [notificationMap]; they run on the
    platform state alone, and the calls they make are recorded as
    [ExpoCall]s.  [formatReminderTimeForNotification] formats with [Intl]
    in the device's time zone and is left out. *)

(** [Platform.OS]. *)
Inductive OS : Type := ios | android | windows | macos | web.

(** A scheduled notification as [getAllScheduledNotificationsAsync] lists
    it: its identifier and what was asked for. *)
Definition NotificationRequest : Type :=
  (string * NotificationRequestInput)%type.

Class Expo (World : Type) : Type := {
  Platform_OS : OS;
  setNotificationHandler : World -> Outcome unit * World;
  (** [setNotificationChannelAsync("task-reminders", ...)]. *)
  setNotificationChannelAsync : World -> Outcome unit * World;
  requestPermissionsAsync : World -> Outcome PermissionStatus * World;
  getAllScheduledNotificationsAsync :
    World -> Outcome (list NotificationRequest) * World;
  cancelAllScheduledNotificationsAsync : World -> Outcome unit * World
}.

Inductive ExpoCall : Type :=
| CallSetNotificationHandler (r : Outcome unit)
| CallSetNotificationChannel (r : Outcome unit)
| CallRequestPermissions (r : Outcome PermissionStatus)
| CallGetAllScheduled (r : Outcome (list NotificationRequest))
| CallCancelAllScheduled (r : Outcome unit).

(** The permission requests among the calls. *)
Definition is_permission_request (c : ExpoCall) : bool :=
  match c with
  | CallRequestPermissions _ => true
  | _ => false
  end.

Definition is_channel_setup (c : ExpoCall) : bool :=
  match c with
  | CallSetNotificationChannel _ => true
  | _ => false
  end.

(** A call of the set-up that threw. *)
Definition expo_threw (c : ExpoCall) : bool :=
  match c with
  | CallSetNotificationHandler Threw
  | CallSetNotificationChannel Threw
  | CallRequestPermissions Threw
  | CallGetAllScheduled Threw
  | CallCancelAllScheduled Threw => true
  | _ => false
  end.

Section Setup.

Context {World : Type} {E : Expo World}.

(** An async function of the helper that has the platform state only. *)
Definition HelperM (A : Type) : Type :=
  World -> Outcome A * World * list ExpoCall.

Definition hret {A} (a : A) : HelperM A := fun w => (Val a, w, []).

Definition hbind {A B} (m : HelperM A) (k : A -> HelperM B)
    : HelperM B :=
  fun w =>
    match m w with
    | (Val a, w1, c1) =>
        match k a w1 with
        | (r, w2, c2) => (r, w2, c1 ++ c2)
        end
    | (Threw, w1, c1) => (Threw, w1, c1)
    end.

Definition htry_catch {A} (body handler : HelperM A) : HelperM A :=
  fun w =>
    match body w with
    | (Val a, w1, c1) => (Val a, w1, c1)
    | (Threw, w1, c1) =>
        match handler w1 with
        | (r, w2, c2) => (r, w2, c1 ++ c2)
        end
    end.

Notation "x <~ m ;; k" := (hbind m (fun x => k))
  (at level 61, m at next level, right associativity).
Notation "m ;;~ k" := (hbind m (fun _ => k))
  (at level 61, right associativity).

Definition call_setNotificationHandler : HelperM unit :=
  fun w =>
    let (r, w') := setNotificationHandler w in
    (r, w', [CallSetNotificationHandler r]).

Definition await_setNotificationChannelAsync : HelperM unit :=
  fun w =>
    let (r, w') := setNotificationChannelAsync w in
    (r, w', [CallSetNotificationChannel r]).

Definition await_requestPermissionsAsync : HelperM PermissionStatus :=
  fun w =>
    let (r, w') := requestPermissionsAsync w in
    (r, w', [CallRequestPermissions r]).

Definition await_getAllScheduledNotificationsAsync
    : HelperM (list NotificationRequest) :=
  fun w =>
    let (r, w') := getAllScheduledNotificationsAsync w in
    (r, w', [CallGetAllScheduled r]).

Definition await_cancelAllScheduledNotificationsAsync : HelperM unit :=
  fun w =>
    let (r, w') := cancelAllScheduledNotificationsAsync w in
    (r, w', [CallCancelAllScheduled r]).

Definition OS_eqb (a b : OS) : bool :=
  match a, b with
  | ios, ios | android, android | windows, windows | macos, macos
  | web, web => true
  | _, _ => false
  end.

(** [requestNotificationPermission]. *)
Definition requestNotificationPermission : HelperM bool :=
  htry_catch
    (status <~ await_requestPermissionsAsync ;;
     let granted_ := PermissionStatus_eqb status granted in
     hret granted_)
    (hret false).

(** [initializeNotifications]. *)
Definition initializeNotifications : HelperM unit :=
  htry_catch
    (call_setNotificationHandler ;;~
     (if OS_eqb Platform_OS android then await_setNotificationChannelAsync
      else hret tt) ;;~
     (if OS_eqb Platform_OS android then
        requestNotificationPermission ;;~ hret tt
      else hret tt) ;;~
     (if OS_eqb Platform_OS ios then
        requestNotificationPermission ;;~ hret tt
      else hret tt) ;;~
     hret tt)
    (hret tt).

(** [getScheduledNotifications]. *)
Definition getScheduledNotifications : HelperM (list NotificationRequest) :=
  htry_catch await_getAllScheduledNotificationsAsync (hret []).

(** [cancelAllReminders]. *)
Definition cancelAllReminders : HelperM unit :=
  htry_catch await_cancelAllScheduledNotificationsAsync (hret tt).

End Setup.

(** A helper function run from a state of the program: the map is out of
    its reach. *)
Definition run_helper {World A} (m : World -> Outcome A * World * list ExpoCall)
    (st : State World) : State World :=
  mkState (snd (fst (m (world st)))) (notificationMap st).

(** ** Notification taps

    What comes back when a notification is tapped is its [content.data],
    an object with unknown values. *)
Inductive JsValue : Type :=
| JsUndefined
| JsNull
| JsBoolean (b : bool)
| JsNumberValue (n : JsNumber)
| JsString (s : string)
| JsObject.

(** [content.data]: [None] when it is [undefined] or [null]. *)
Definition NotificationData : Type := option (list (string * JsValue)).

(** [data?.taskId]. *)
Definition data_taskId_of (data : NotificationData) : JsValue :=
  match data with
  | None => JsUndefined
  | Some fields =>
      match find (fun f => String.eqb (fst f) "taskId") fields with
      | Some f => snd f
      | None => JsUndefined
      end
  end.

(** [taskId && typeof taskId === "string"], with the string it holds
    for. *)
Definition truthy_string (v : JsValue) : option string :=
  match v with
  | JsString s => if truthy s then Some s else None
  | _ => None
  end.

(** The listener [setupNotificationTapHandler] registers: the argument it
    calls [onNotificationTap] with, if it calls it. *)
Definition tapHandler (data : NotificationData) : option string :=
  truthy_string (data_taskId_of data).

(** The listener of [HomeScreen] in [app/(tabs)/index.tsx]: the task it
    opens for editing, if any. *)
Definition homeScreenTapListener (tasks : list Task)
    (data : NotificationData) : option string :=
  match truthy_string (data_taskId_of data) with
  | Some taskId =>
      match find (fun t => String.eqb (id t) taskId) tasks with
      | Some task => Some taskId
      | None => None
      end
  | None => None
  end.

(** The name of the flag a request sets in its data. *)
Definition flag_name (f : ReminderFlag) : string :=
  match f with
  | isAdvanceReminder => "isAdvanceReminder"
  | isMainReminder => "isMainReminder"
  | isFollowUp => "isFollowUp"
  end.

(** The [content.data] a request was scheduled with. *)
Definition data_of (req : NotificationRequestInput) : NotificationData :=
  Some [("taskId", JsString (data_taskId req));
        ("taskTitle", JsString (data_taskTitle req));
        (flag_name (data_flag req), JsBoolean true)].

(** ** The task list of [lib/context/task-context.tsx]

    [HomeScreen] hands [state.tasks] of this context to
    [useTaskNotifications]. *)
Module TaskContext.

Inductive TaskPriority : Type := high | medium | low.

Inductive TaskCategory : Type :=
| work | personal | shopping | health | finance | other.

(** The interface [Task] in full: the fields the notification code reads
    are [core]. *)
Record FullTask : Type := mkFullTask {
  core : Task;
  note : option string;
  isCompleted : bool;
  priority : TaskPriority;
  category : TaskCategory;
  createdAt : string;
  updatedAt : string
}.

Record TaskState : Type := mkTaskState {
  tasks : list FullTask;
  loading : bool;
  error : option string;
  selectedTaskId : option string
}.

Inductive TaskAction : Type :=
| SET_TASKS (payload : list FullTask)
| ADD_TASK (payload : FullTask)
| UPDATE_TASK (payload : FullTask)
| DELETE_TASK (payload : string)
| TOGGLE_TASK (payload : string)
| SET_LOADING (payload : bool)
| SET_ERROR (payload : option string)
| SELECT_TASK (payload : option string)
| CLEAR_ERROR.

(** [findIndex]: [None] for -1. *)
Fixpoint findIndex {A} (p : A -> bool) (l : list A) : option nat :=
  match l with
  | [] => None
  | x :: l' => if p x then Some 0%nat else option_map S (findIndex p l')
  end.

(** [l[index] = x] on a copy of [l], for an index [findIndex] gave, which
    is within the list. *)
Fixpoint assign {A} (l : list A) (index : nat) (x : A) : list A :=
  match l, index with
  | [], _ => []
  | _ :: l', O => x :: l'
  | y :: l', S index' => y :: assign l' index' x
  end.

Definition with_tasks (state : TaskState) (tasks_ : list FullTask)
    : TaskState :=
  mkTaskState tasks_ (loading state) (error state) (selectedTaskId state).

Definition toggled (t : FullTask) : FullTask :=
  mkFullTask (core t) (note t) (negb (isCompleted t)) (priority t)
    (category t) (createdAt t) (updatedAt t).

Definition taskReducer (state : TaskState) (action : TaskAction)
    : TaskState :=
  match action with
  | SET_TASKS payload =>
      mkTaskState payload false (error state) (selectedTaskId state)
  | ADD_TASK payload => with_tasks state (payload :: tasks state)
  | UPDATE_TASK payload =>
      match findIndex
              (fun t => String.eqb (id (core t)) (id (core payload)))
              (tasks state)
      with
      | None => state
      | Some index => with_tasks state (assign (tasks state) index payload)
      end
  | DELETE_TASK payload =>
      with_tasks state
        (filter (fun t => negb (String.eqb (id (core t)) payload))
           (tasks state))
  | TOGGLE_TASK payload =>
      match findIndex (fun t => String.eqb (id (core t)) payload)
              (tasks state)
      with
      | None => state
      | Some index =>
          match nth_error (tasks state) index with
          | Some t => with_tasks state (assign (tasks state) index (toggled t))
          | None => state
          end
      end
  | SET_LOADING payload =>
      mkTaskState (tasks state) payload (error state) (selectedTaskId state)
  | SET_ERROR payload =>
      mkTaskState (tasks state) (loading state) payload (selectedTaskId state)
  | SELECT_TASK payload =>
      mkTaskState (tasks state) (loading state) (error state) payload
  | CLEAR_ERROR =>
      mkTaskState (tasks state) (loading state) None (selectedTaskId state)
  end.

Definition initialState : TaskState := mkTaskState [] true None None.

(** What [useTaskNotifications(state.tasks)] reads of the tasks. *)
Definition reminders (state : TaskState) : list Task :=
  map core (tasks state).

End TaskContext.

(** ** The device, set up

    The device is an Android one; its notification handler and channel
    are set without effect on what is pending. *)
#[global] Instance Device_expo : Expo Device.t := {
  Platform_OS := android;
  setNotificationHandler := fun w => (Val tt, w);
  setNotificationChannelAsync := fun w => (Val tt, w);
  requestPermissionsAsync := fun w => (Val (Device.permission w), w);
  getAllScheduledNotificationsAsync := fun w => (Val (Device.pending w), w);
  cancelAllScheduledNotificationsAsync :=
    fun w =>
      (Val tt,
       Device.mk (Device.clock w) (Device.permission w)
         (Device.scheduleCalls w) (Device.rejected w) [])
}.

(** An Android device on which setting the channel up throws; its state
    counts the calls made. *)
Definition no_channel_expo : Expo nat := {|
  Platform_OS := android;
  setNotificationHandler := fun n => (Val tt, S n);
  setNotificationChannelAsync := fun n => (Threw, S n);
  requestPermissionsAsync := fun n => (Val granted, S n);
  getAllScheduledNotificationsAsync := fun n => (Val [], S n);
  cancelAllScheduledNotificationsAsync := fun n => (Val tt, S n)
|}.

(** The example tasks in full, and a task list of the home screen. *)
Definition full (t : Task) : TaskContext.FullTask :=
  TaskContext.mkFullTask t None false TaskContext.medium
    TaskContext.personal "2024-01-14T08:00:00.000Z"
    "2024-01-14T08:00:00.000Z".

Definition home_state : TaskContext.TaskState :=
  TaskContext.mkTaskState [full dentist; full groceries] false None None.


(** ** Passes that overlap

    [useTaskNotifications] calls [syncNotifications(tasks)] in an effect,
    for every new task list, and does not await it.  A pass runs until its
    first [await] when it is called and goes on, one stretch between two
    [await]s at a time, whenever what it awaits is delivered; the stretches
    of the passes under way interleave, all on the one [notificationMap]
    and the one platform. *)
Module Async.

Section Interleaving.

Context {World : Type} {P : Platform World}.

(** An async function under way: settled with its outcome, about to run a
    stretch of synchronous code [m] and go on with what it gave, or
    suspended at an [await]. *)
Inductive Run (A : Type) : Type :=
| Settled (r : Outcome A)
| Step (X : Type) (m : M World X) (k : Outcome X -> Run A)
| Suspended (rest : Run A).

Arguments Settled {A} r.
Arguments Step {A X} m k.
Arguments Suspended {A} rest.

Definition ret {A} (a : A) : Run A := Settled (Val a).

Fixpoint bind {A B} (t : Run A) (k : A -> Run B) : Run B :=
  match t with
  | Settled (Val a) => k a
  | Settled Threw => Settled Threw
  | Step m k' => Step m (fun o => bind (k' o) k)
  | Suspended rest => Suspended (bind rest k)
  end.

(** [try { body } catch (error) { handler }]. *)
Fixpoint try_catch {A} (body handler : Run A) : Run A :=
  match body with
  | Settled (Val a) => Settled (Val a)
  | Settled Threw => handler
  | Step m k => Step m (fun o => try_catch (k o) handler)
  | Suspended rest => Suspended (try_catch rest handler)
  end.

(** [for (const x of xs) { body x }]. *)
Fixpoint for_of {X} (xs : list X) (body : X -> Run unit) : Run unit :=
  match xs with
  | [] => ret tt
  | x :: xs' => bind (body x) (fun _ => for_of xs' body)
  end.

(** Synchronous code: it runs without a break. *)
Definition sync {A} (m : M World A) : Run A :=
  Step m (fun o => Settled o).

(** [await call(...)] for a call of the platform: the call is made, the
    function is suspended, and its outcome (a value, or the error thrown
    at the [await]) is there when the function goes on. *)
Definition await {A} (m : M World A) : Run A :=
  Step m (fun o => Suspended (Settled o)).

(** [await f(...)] for an async function [f] of the program: [f] runs in
    the caller's turn up to its first [await], and the caller goes on one
    turn after [f] has settled. *)
Fixpoint await_async {A} (t : Run A) : Run A :=
  match t with
  | Settled r => Suspended (Settled r)
  | Step m k => Step m (fun o => await_async (k o))
  | Suspended rest => Suspended (await_async rest)
  end.

Notation "x <~ t ;; k" := (bind t (fun x => k))
  (at level 61, t at next level, right associativity).
Notation "t ;;~ k" := (bind t (fun _ => k))
  (at level 61, right associativity).

(** [checkNotificationPermission]. *)
Definition checkNotificationPermission : Run bool :=
  try_catch
    (status <~ await await_getPermissionsAsync ;;
     ret (PermissionStatus_eqb status granted))
    (ret false).

(** [scheduleTaskReminder]. *)
Definition scheduleTaskReminder (taskId taskTitle reminderTime : string)
    : Run (option string) :=
  try_catch
    (hasPermission <~ await_async checkNotificationPermission ;;
     if negb hasPermission then ret None
     else
       let reminderDate := Date_parse reminderTime in
       now <~ sync new_Date ;;
       if JsNumber.leb reminderDate (Num now) then ret None
       else
         let secondsUntilReminder :=
           JsNumber.floor_div (JsNumber.sub reminderDate (Num now)) 1000 in
         for_of (advanceNotifications taskTitle secondsUntilReminder)
           (fun notification =>
              await
                (await_scheduleNotificationAsync
                   (advanceRequest taskId taskTitle notification)) ;;~
              ret tt) ;;~
         notificationId <~
           await
             (await_scheduleNotificationAsync
                (mainRequest taskId taskTitle secondsUntilReminder)) ;;
         for_of followUpIntervals
           (fun interval =>
              await
                (await_scheduleNotificationAsync
                   (followUpRequest taskId taskTitle
                      secondsUntilReminder interval)) ;;~
              ret tt) ;;~
         ret (Some notificationId))
    (ret None).

(** [cancelReminder]. *)
Definition cancelReminder (notificationId : string) : Run unit :=
  try_catch
    (await (await_cancelScheduledNotificationAsync notificationId))
    (ret tt).

(** The body of the first loop of [syncNotifications], for one task. *)
Definition schedule_if_new (task : Task) : Run unit :=
  if hasReminder task then
    match reminderTime task with
    | Some reminderTime_ =>
        existingNotificationId <~ sync (notificationMap_get (id task)) ;;
        if negb (truthy_opt existingNotificationId) then
          notificationId <~
            await_async
              (scheduleTaskReminder (id task) (title task) reminderTime_) ;;
          match notificationId with
          | Some notificationId_ =>
              if truthy notificationId_ then
                sync (notificationMap_set (id task) notificationId_)
              else ret tt
          | None => ret tt
          end
        else ret tt
    | None => ret tt
    end
  else ret tt.

(** [syncNotifications]. *)
Definition syncNotifications (tasks : list Task) : Run unit :=
  try_catch
    (for_of tasks schedule_if_new ;;~
     ids <~ sync (notificationIdsToCancel tasks) ;;
     for_of ids (fun notificationId =>
                   await_async (cancelReminder notificationId)))
    (ret tt).

(** One turn of an async function: it runs up to its next [await], or to
    its end. *)
Fixpoint advance {A} (t : Run A) (st : State World)
    : Run A * State World * list Call :=
  match t with
  | Settled r => (Settled r, st, [])
  | Suspended rest => (rest, st, [])
  | Step m k =>
      match m st with
      | (o, st1, c1) =>
          match advance (k o) st1 with
          | (t', st2, c2) => (t', st2, c1 ++ c2)
          end
      end
  end.

(** An async function that is awaited at once and meets no other: all its
    turns in a row. *)
Fixpoint alone {A} (t : Run A) (st : State World)
    : Outcome A * State World * list Call :=
  match t with
  | Settled r => (r, st, [])
  | Suspended rest => alone rest st
  | Step m k =>
      match m st with
      | (o, st1, c1) =>
          match alone (k o) st1 with
          | (r, st2, c2) => (r, st2, c1 ++ c2)
          end
      end
  end.

(** What happens to the hook: the task list changes and the effect calls
    [syncNotifications] with the new list; what the pass started
    [index]-th awaits is there and the pass has its next turn; or the
    platform changes for another reason ([initializeNotifications], the
    user, the system). *)
Inductive Event : Type :=
| Start (tasks : list Task)
| Resume (index : nat)
| Elsewhere (change : World -> World).

(** [l[index] = x], for an index within [l]. *)
Fixpoint replace {X} (l : list X) (index : nat) (x : X) : list X :=
  match l, index with
  | [], _ => []
  | _ :: l', O => x :: l'
  | y :: l', S index' => y :: replace l' index' x
  end.

(** The passes under way, in the order in which they were started, the
    state they share and the platform calls made so far. *)
Definition Hook : Type :=
  (list (Run unit) * State World * list Call)%type.

Definition happen (h : Hook) (e : Event) : Hook :=
  match h with
  | (passes, st, cs) =>
      match e with
      | Start tasks =>
          match advance (syncNotifications tasks) st with
          | (t, st', c) => (passes ++ [t], st', cs ++ c)
          end
      | Resume index =>
          match nth_error passes index with
          | Some t =>
              match advance t st with
              | (t', st', c) => (replace passes index t', st', cs ++ c)
              end
          | None => h
          end
      | Elsewhere change =>
          (passes, mkState (change (world st)) (notificationMap st), cs)
      end
  end.

Definition interleave (es : list Event) (st : State World) : Hook :=
  fold_left happen es ([], st, []).

(** A number of turns after which [t], taken up from [st] and meeting no
    other, has settled. *)
Fixpoint turns_left {A} (t : Run A) (st : State World) : nat :=
  match t with
  | Settled _ => 0
  | Suspended rest => S (turns_left rest st)
  | Step m k =>
      match m st with
      | (o, st1, _) => S (turns_left (k o) st1)
      end
  end.

(** Every stretch of synchronous code that [t] may still run keeps the
    property [I] of the map. *)
Fixpoint keeps {A} (I : JsMap.t -> Prop) (t : Run A) : Prop :=
  match t with
  | Settled _ => True
  | Suspended rest => keeps I rest
  | Step m k =>
      forall st, I (notificationMap st) ->
        I (notificationMap (snd (fst (m st))))
        /\ keeps I (k (fst (fst (m st))))
  end.

(** [t] cannot settle with an error, whatever its calls give. *)
Fixpoint never_throws {A} (t : Run A) : Prop :=
  match t with
  | Settled (Val _) => True
  | Settled Threw => False
  | Suspended rest => never_throws rest
  | Step m k => forall o, never_throws (k o)
  end.

End Interleaving.

Arguments Settled {World A} r.
Arguments Step {World A X} m k.
Arguments Suspended {World A} rest.
Arguments Run World A : clear implicits.
Arguments Hook World : clear implicits.
Arguments Event World : clear implicits.
Arguments Start {World} tasks.
Arguments Resume {World} index.
Arguments Elsewhere {World} change.

End Async.

(** ** Completing a task

    The check box of a task calls [toggleTaskCompletion] of the provider
    in [task-context.tsx], which goes through [task-repository.ts] to
    [task-storage.ts] and dispatches [UPDATE_TASK] with the task the
    storage gives back. *)

(** What an awaited call of the storage gives: a value, or a thrown
    error, with its [message] when it is an [Error]. *)
Inductive Result (A : Type) : Type :=
| Ok (a : A)
| Err (message : option string).
Arguments Err {A} message.

Module TaskStorage.

(** A task as [JSON.parse(data) as Task[]] gives it: the tasks of older
    versions have no [category], and the other fields are taken to be
    there. *)
Record StoredTask : Type := mkStoredTask {
  task : Task;
  note : option string;
  isCompleted : bool;
  priority : TaskContext.TaskPriority;
  category : option TaskContext.TaskCategory;
  createdAt : string;
  updatedAt : string
}.

(** [UpdateTaskPayload]: [None] for a key that is absent.  A key that is
    there with the value [undefined] is not told apart from one that is
    absent; [toggleTaskCompletion] builds a payload with the one key
    [isCompleted]. *)
Record UpdateTaskPayload : Type := mkUpdateTaskPayload {
  payload_title : option string;
  payload_note : option string;
  payload_priority : option TaskContext.TaskPriority;
  payload_category : option TaskContext.TaskCategory;
  payload_reminderEnabled : option bool;
  payload_reminderTime : option string;
  payload_isCompleted : option bool
}.

(** AsyncStorage, [JSON] and the clock, over a state [Disk] of their
    own. *)
Class AsyncStorage (Disk : Type) : Type := {
  getItem : string -> Disk -> Result (option string) * Disk;
  setItem : string -> string -> Disk -> Result unit * Disk;
  (** [JSON.parse(data) as Task[]]; an error when [data] is no JSON text
      or holds no array. *)
  JSON_parse : string -> Result (list StoredTask);
  JSON_stringify : list TaskContext.FullTask -> string;
  (** [new Date().toISOString()]. *)
  toISOString_now : Disk -> string * Disk
}.

Section Storage.

Context {Disk : Type} {S : AsyncStorage Disk}.

(** An async function of the storage. *)
Definition StorageM (A : Type) : Type := Disk -> Result A * Disk.

Definition ret {A} (a : A) : StorageM A := fun d => (Ok a, d).

Definition throw {A} (message : option string) : StorageM A :=
  fun d => (Err message, d).

Definition bind {A B} (m : StorageM A) (k : A -> StorageM B) : StorageM B :=
  fun d =>
    match m d with
    | (Ok a, d1) => k a d1
    | (Err e, d1) => (Err e, d1)
    end.

(** [try { body } catch (error) { handler error }]. *)
Definition try_catch {A} (body : StorageM A)
    (handler : option string -> StorageM A) : StorageM A :=
  fun d =>
    match body d with
    | (Ok a, d1) => (Ok a, d1)
    | (Err e, d1) => handler e d1
    end.

Notation "x <~ m ;; k" := (bind m (fun x => k))
  (at level 61, m at next level, right associativity).
Notation "m ;;~ k" := (bind m (fun _ => k))
  (at level 61, right associativity).

Definition TASKS_STORAGE_KEY : string := "daily_tasks".

Definition new_Date_toISOString : StorageM string :=
  fun d => let (now, d') := toISOString_now d in (Ok now, d').

(** [{ ...task, category: task.category || "personal" }]. *)
Definition migrated (t : StoredTask) : TaskContext.FullTask :=
  TaskContext.mkFullTask (task t) (note t) (isCompleted t) (priority t)
    (match category t with
     | Some c => c
     | None => TaskContext.personal
     end)
    (createdAt t) (updatedAt t).

(** [!task.category]. *)
Definition lacks_category (t : StoredTask) : bool :=
  match category t with
  | Some _ => false
  | None => true
  end.

(** [getAllTasks]. *)
Definition getAllTasks : StorageM (list TaskContext.FullTask) :=
  try_catch
    (data <~ getItem TASKS_STORAGE_KEY ;;
     match data with
     | None => ret []
     | Some data_ =>
         if negb (truthy data_) then ret []
         else
           tasks <~ (fun d => (JSON_parse data_, d)) ;;
           let migratedTasks := map migrated tasks in
           let needsMigration := existsb lacks_category tasks in
           (if needsMigration then
              setItem TASKS_STORAGE_KEY (JSON_stringify migratedTasks)
            else ret tt) ;;~
           ret migratedTasks
     end)
    (fun _ => ret []).

(** [getTaskById]: [None] for [null]. *)
Definition getTaskById (id_ : string)
    : StorageM (option TaskContext.FullTask) :=
  try_catch
    (tasks <~ getAllTasks ;;
     ret (find (fun t => String.eqb (id (TaskContext.core t)) id_) tasks))
    (fun _ => ret None).

(** [{ ...task, ...payload, updatedAt: now }]. *)
Definition spread (t : TaskContext.FullTask) (payload : UpdateTaskPayload)
    (now : string) : TaskContext.FullTask :=
  let or_else {A} (o : option A) (a : A) : A :=
    match o with
    | Some a' => a'
    | None => a
    end in
  TaskContext.mkFullTask
    (mkTask (id (TaskContext.core t))
       (or_else (payload_title payload) (title (TaskContext.core t)))
       (or_else (payload_reminderEnabled payload)
          (reminderEnabled (TaskContext.core t)))
       (match payload_reminderTime payload with
        | Some s => Some s
        | None => reminderTime (TaskContext.core t)
        end))
    (match payload_note payload with
     | Some s => Some s
     | None => TaskContext.note t
     end)
    (or_else (payload_isCompleted payload) (TaskContext.isCompleted t))
    (or_else (payload_priority payload) (TaskContext.priority t))
    (or_else (payload_category payload) (TaskContext.category t))
    (TaskContext.createdAt t)
    now.

(** [updateTask]. *)
Definition updateTask (id_ : string) (payload : UpdateTaskPayload)
    : StorageM (option TaskContext.FullTask) :=
  try_catch
    (tasks <~ getAllTasks ;;
     match TaskContext.findIndex
             (fun t => String.eqb (id (TaskContext.core t)) id_) tasks
     with
     | None => ret None
     | Some index =>
         match nth_error tasks index with
         | Some task_ =>
             now <~ new_Date_toISOString ;;
             let updatedTask := spread task_ payload now in
             let tasks' := TaskContext.assign tasks index updatedTask in
             setItem TASKS_STORAGE_KEY (JSON_stringify tasks') ;;~
             ret (Some updatedTask)
         | None => ret None
         end
     end)
    (fun error => throw error).

(** [toggleTaskCompletion]. *)
Definition toggleTaskCompletion (id_ : string)
    : StorageM (option TaskContext.FullTask) :=
  try_catch
    (task_ <~ getTaskById id_ ;;
     match task_ with
     | None => ret None
     | Some task_ =>
         updateTask id_
           (mkUpdateTaskPayload None None None None None None
              (Some (negb (TaskContext.isCompleted task_))))
     end)
    (fun error => throw error).

End Storage.

End TaskStorage.

(** [task-repository.ts]. *)
Module TaskRepository.

(** [toggleTaskCompletion]. *)
Definition toggleTaskCompletion {Disk} {S : TaskStorage.AsyncStorage Disk}
    (id_ : string) : Disk -> Result (option TaskContext.FullTask) * Disk :=
  TaskStorage.toggleTaskCompletion id_.

End TaskRepository.

(** The callbacks of [TaskProvider] in [task-context.tsx]. *)
Module TaskProvider.

(** [toggleTaskCompletion] of the context ([toggleTaskCompletionFn]): its
    outcome, the storage it leaves and the actions it dispatched, in
    order. *)
Definition toggleTaskCompletionFn {Disk} {S : TaskStorage.AsyncStorage Disk}
    (id_ : string) (d : Disk)
    : Result unit * Disk * list TaskContext.TaskAction :=
  match TaskRepository.toggleTaskCompletion id_ d with
  | (Ok updated, d') =>
      match updated with
      | Some updated_ =>
          (Ok tt, d',
           [TaskContext.SET_ERROR None; TaskContext.UPDATE_TASK updated_])
      | None => (Ok tt, d', [TaskContext.SET_ERROR None])
      end
  | (Err error, d') =>
      let message :=
        match error with
        | Some message_ => message_
        | None => "Failed to toggle task completion"
        end in
      (Err error, d',
       [TaskContext.SET_ERROR None; TaskContext.SET_ERROR (Some message)])
  end.

End TaskProvider.

(** ** The phone's storage

    A storage that holds the one item of the app.  The texts stand for
    the JSON of the task lists of the examples, a task being written by
    its identifier and a mark for [isCompleted]; the parser knows these
    texts. *)
Module Phone.

Definition t : Type := option string.

Definition stored (t_ : Task) (isCompleted_ : bool) (updatedAt_ : string)
    : TaskStorage.StoredTask :=
  TaskStorage.mkStoredTask t_ None isCompleted_ TaskContext.medium
    (Some TaskContext.personal) "2024-01-14T08:00:00.000Z" updatedAt_.

Definition parse (data : string) : Result (list TaskStorage.StoredTask) :=
  if String.eqb data "[a1-,b2-]" then
    Ok [stored dentist false "2024-01-14T08:00:00.000Z";
        stored groceries false "2024-01-14T08:00:00.000Z"]
  else if String.eqb data "[a1-,b2+]" then
    Ok [stored dentist false "2024-01-14T08:00:00.000Z";
        stored groceries true "2024-01-14T13:30:00.000Z"]
  else if String.eqb data "[]" then Ok []
  else Err (Some "JSON Parse error").

Definition stringify (tasks : list TaskContext.FullTask) : string :=
  ("["
   ++ String.concat ","
        (map (fun t_ =>
                id (TaskContext.core t_)
                ++ (if TaskContext.isCompleted t_ then "+" else "-"))
           tasks)
   ++ "]")%string.

#[global] Instance storage : TaskStorage.AsyncStorage t := {
  TaskStorage.getItem :=
    fun key d =>
      (Ok (if String.eqb key "daily_tasks" then d else None), d);
  TaskStorage.setItem :=
    fun key value d =>
      (Ok tt, if String.eqb key "daily_tasks" then Some value else d);
  TaskStorage.JSON_parse := parse;
  TaskStorage.JSON_stringify := stringify;
  TaskStorage.toISOString_now := fun d => ("2024-01-14T13:30:00.000Z", d)
}.

(** The phone with the two tasks of [home_state] stored. *)
Definition two_tasks : t := Some "[a1-,b2-]".

End Phone.

(** ** Overlapping passes on the device *)

(** The passes started first and second have a turn each, [n] times. *)
Definition turn_about {World} (n : nat) : list (Async.Event World) :=
  List.concat (repeat [Async.Resume 0; Async.Resume 1] n).

(** The task list changes twice before the first pass has gone on: two
    passes over the dentist task, which then go on in turn. *)
Definition overlapping_dentist_passes : Async.Hook Device.t :=
  Async.interleave
    (Async.Start [dentist] :: Async.Start [dentist] :: turn_about 15)
    (Device.start Device.fresh).

(** The dentist task is deleted while the pass that schedules it is under
    way: the pass over the empty list is over before the first one goes
    on. *)
Definition dentist_deleted_meanwhile : Async.Hook Device.t :=
  Async.interleave
    (Async.Start [dentist] :: Async.Start []
     :: repeat (Async.Resume 0) 15)
    (Device.start Device.fresh).

(** The groceries task of the state and of the phone, completed. *)
Definition groceries_completed : TaskContext.FullTask :=
  TaskContext.mkFullTask groceries None true TaskContext.medium
    TaskContext.personal "2024-01-14T08:00:00.000Z"
    "2024-01-14T13:30:00.000Z".

(** ** Proof steps

    The cases of [initializeNotifications]: which call threw, and what
    follows it. *)
Ltac split_failure pre Hcs :=
  destruct pre as [|? [|? [|? pre]]]; simpl in Hcs; inversion Hcs; subst;
  try discriminate;
  try (destruct pre; discriminate);
  (split; [reflexivity | intros; try discriminate; reflexivity]).

Ltac initialize_case :=
  eexists _, _; (split; [reflexivity|]);
  (split; [eexists _, _; split; [reflexivity | simpl; lia]|]);
  (split; [simpl; lia|]);
  (split; [intros; try reflexivity; congruence|]);
  (split; [intros; try reflexivity; congruence|]);
  let pre := fresh "pre" in
  let Hcs := fresh "Hcs" in
  intros pre ? ? Hcs ?; split_failure pre Hcs.

(** * Properties *)

Unset Implicit Arguments.

(** ** Lists of calls *)

Lemma schedule_requests_app (a b : list Call) :
  schedule_requests (a ++ b) = schedule_requests a ++ schedule_requests b.
Proof.
  induction a as [|c a IH]; simpl; [reflexivity|].
  destruct c; simpl; rewrite IH; reflexivity.
Qed.

Lemma cancel_requests_app (a b : list Call) :
  cancel_requests (a ++ b) = cancel_requests a ++ cancel_requests b.
Proof.
  induction a as [|c a IH]; simpl; [reflexivity|].
  destruct c; simpl; rewrite IH; reflexivity.
Qed.

Lemma returned_handles_app (a b : list Call) :
  returned_handles (a ++ b) = returned_handles a ++ returned_handles b.
Proof.
  induction a as [|c a IH]; simpl; [reflexivity|].
  destruct c as [r|req [h|]|h r]; simpl; rewrite IH; reflexivity.
Qed.

Lemma in_schedule_requests (req : NotificationRequestInput) (cs : list Call) :
  In req (schedule_requests cs) <-> exists r, In (CallSchedule req r) cs.
Proof.
  induction cs as [|c cs IH]; simpl.
  - split; [tauto | intros [r []]].
  - destruct c as [r0|req0 r0|h0 r0]; simpl; rewrite ?IH.
    + split; [intros [r H]; eauto | intros [r [H|H]]; [discriminate | eauto]].
    + split.
      * intros [->|[r H]]; eauto.
      * intros [r [H|H]]; [inversion H; auto | eauto].
    + split; [intros [r H]; eauto | intros [r [H|H]]; [discriminate | eauto]].
Qed.

Lemma in_returned_handles (h : string) (cs : list Call) :
  In h (returned_handles cs) <-> exists req, In (CallSchedule req (Val h)) cs.
Proof.
  induction cs as [|c cs IH]; simpl.
  - split; [tauto | intros [r []]].
  - destruct c as [r0|req0 [h0|]|h0 r0]; simpl; rewrite ?IH.
    + split; [intros [r H]; eauto | intros [r [H|H]]; [discriminate | eauto]].
    + split.
      * intros [->|[r H]]; eauto.
      * intros [r [H|H]]; [inversion H; auto | eauto].
    + split; [intros [r H]; eauto | intros [r [H|H]]; [discriminate | eauto]].
    + split; [intros [r H]; eauto | intros [r [H|H]]; [discriminate | eauto]].
Qed.

Lemma filter_twice {A} (f g : A -> bool) (l : list A) :
  filter f (filter g l) = filter (fun x => g x && f x) l.
Proof.
  induction l as [|x l IH]; simpl; [reflexivity|].
  destruct (g x); simpl; [destruct (f x)|]; rewrite IH; reflexivity.
Qed.

(** ** The map *)

Module JsMapFacts.

Lemma get_set_same (m : JsMap.t) (k v : string) :
  JsMap.get (JsMap.set m k v) k = Some v.
Proof.
  induction m as [|[k' v'] m IH]; simpl.
  - rewrite String.eqb_refl. reflexivity.
  - destruct (String.eqb k k') eqn:E; simpl; rewrite E; auto.
Qed.

Lemma get_set_other (m : JsMap.t) (k v k' : string) :
  k <> k' -> JsMap.get (JsMap.set m k v) k' = JsMap.get m k'.
Proof.
  intros Hne. induction m as [|[k0 v0] m IH]; simpl.
  - destruct (String.eqb_spec k' k); [congruence | reflexivity].
  - destruct (String.eqb_spec k k0) as [->|Hk]; simpl.
    + destruct (String.eqb_spec k' k0); [congruence | reflexivity].
    + rewrite IH. reflexivity.
Qed.

(** Entries selected by a condition on keys are not touched by a [set] at
    a key outside the condition. *)
Lemma filter_set (p : string -> bool) (m : JsMap.t) (k v : string) :
  p k = false ->
  filter (fun e => p (fst e)) (JsMap.set m k v) = filter (fun e => p (fst e)) m.
Proof.
  intros Hp. induction m as [|[k0 v0] m IH]; simpl.
  - rewrite Hp. reflexivity.
  - destruct (String.eqb_spec k k0) as [->|Hk]; simpl.
    + rewrite Hp. reflexivity.
    + rewrite IH. reflexivity.
Qed.

Lemma get_filter (p : string -> bool) (m : JsMap.t) (k : string) :
  JsMap.get (filter (fun e => p (fst e)) m) k
  = if p k then JsMap.get m k else None.
Proof.
  induction m as [|[k0 v0] m IH]; simpl.
  - destruct (p k); reflexivity.
  - destruct (p k0) eqn:E0; simpl.
    + destruct (String.eqb_spec k k0) as [->|Hk]; [rewrite E0; reflexivity | exact IH].
    + destruct (String.eqb_spec k k0) as [->|Hk]; [rewrite IH, E0; reflexivity | exact IH].
Qed.

Lemma get_in (m : JsMap.t) (k v : string) :
  JsMap.get m k = Some v -> In (k, v) m.
Proof.
  induction m as [|[k0 v0] m IH]; simpl; [discriminate|].
  destruct (String.eqb_spec k k0) as [->|Hk].
  - intros [= ->]. auto.
  - auto.
Qed.

Lemma in_get (m : JsMap.t) (k v : string) :
  JsMap.wf m -> In (k, v) m -> JsMap.get m k = Some v.
Proof.
  unfold JsMap.wf, JsMap.keys.
  induction m as [|[k0 v0] m IH]; simpl; [tauto|].
  intros Hnd [H|H].
  - inversion H; subst. rewrite String.eqb_refl. reflexivity.
  - inversion Hnd as [|? ? Hnotin Hnd']; subst.
    destruct (String.eqb_spec k k0) as [->|Hk].
    + exfalso. apply Hnotin. apply (in_map fst) in H. exact H.
    + auto.
Qed.

End JsMapFacts.

(** ** Going through a list of requests *)

Lemma attempted_app_completed reqs1 cs1 reqs2 cs2 b :
  attempted reqs1 cs1 true -> attempted reqs2 cs2 b ->
  attempted (reqs1 ++ reqs2) (cs1 ++ cs2) b.
Proof.
  intros H1. remember true as t eqn:Et. revert Et.
  induction H1; intros Et H2; simpl; try discriminate.
  - exact H2.
  - constructor. auto.
Qed.

Lemma attempted_app_threw reqs1 cs1 reqs2 :
  attempted reqs1 cs1 false -> attempted (reqs1 ++ reqs2) cs1 false.
Proof.
  intros H1. remember false as f eqn:Ef. revert Ef.
  induction H1; intros Ef; simpl; try discriminate.
  - constructor. auto.
  - constructor.
Qed.


Lemma attempted_completed_requests reqs cs :
  attempted reqs cs true -> schedule_requests cs = reqs.
Proof.
  intros H. remember true as t eqn:Et. revert Et.
  induction H; intros Et; simpl; try discriminate; auto.
  rewrite IHattempted; auto.
Qed.

Lemma attempted_not_completed reqs cs :
  attempted reqs cs false ->
  exists pre req, cs = pre ++ [CallSchedule req Threw].
Proof.
  intros H. remember false as f eqn:Ef. revert Ef.
  induction H; intros Ef; try discriminate.
  - destruct (IHattempted Ef) as (pre & rq & ->).
    exists (CallSchedule req (Val h) :: pre), rq. reflexivity.
  - exists [], req. reflexivity.
Qed.

(** The requests attempted are an initial segment of the list. *)
Lemma attempted_prefix reqs cs b :
  attempted reqs cs b -> exists rest, reqs = schedule_requests cs ++ rest.
Proof.
  induction 1; simpl.
  - exists []. reflexivity.
  - destruct IHattempted as [rest ->]. exists rest. reflexivity.
  - exists reqs. reflexivity.
Qed.

Lemma attempted_no_cancel reqs cs b :
  attempted reqs cs b -> cancel_requests cs = [].
Proof. induction 1; simpl; auto. Qed.

Lemma attempted_in reqs cs b c :
  attempted reqs cs b -> In c cs -> exists req r, c = CallSchedule req r /\ In req reqs.
Proof.
  induction 1; simpl; intros Hin.
  - contradiction.
  - destruct Hin as [<-|Hin]; [eauto|].
    destruct (IHattempted Hin) as (rq & r & -> & Hr). eauto.
  - destruct Hin as [<-|[]]. eauto.
Qed.

Section Facts.

Context {World : Type} {P : Platform World}.

Lemma from_scheduler_app (a b : list Call) :
  from_scheduler a -> from_scheduler b -> from_scheduler (a ++ b).
Proof.
  intros Ha Hb req r Hin. apply in_app_or in Hin. destruct Hin; eauto.
Qed.

(** ** [scheduleTaskReminder] *)

Lemma for_of_schedule {A} (f : A -> NotificationRequestInput)
    (xs : list A) (st : State World) :
  exists r w cs b,
    for_of xs (fun x => await_scheduleNotificationAsync (f x) ;;; ret tt) st
    = (r, mkState w (notificationMap st), cs)
    /\ attempted (map f xs) cs b
    /\ r = (if b then Val tt else Threw)
    /\ from_scheduler cs.
Proof.
  revert st. induction xs as [|x xs IH]; intros st; simpl.
  - exists (Val tt), (world st), [], true. destruct st; simpl.
    repeat split; [constructor | intros req r []].
  - unfold bind at 1 2, await_scheduleNotificationAsync at 1, ret at 1.
    destruct (scheduleNotificationAsync (f x) (world st)) as [[h|] w] eqn:E.
    + destruct (IH (mkState w (notificationMap st)))
        as (r & w' & cs & b & Hrun & Hatt & Hr & Hfrom).
      simpl in Hrun. rewrite Hrun.
      exists r, w', (CallSchedule (f x) (Val h) :: cs), b.
      repeat split; [constructor; exact Hatt | exact Hr |].
      intros req r' [Heq|Hin]; [|eauto].
      inversion Heq; subst. exists (world st). rewrite E. reflexivity.
    + exists Threw, w, [CallSchedule (f x) Threw], false.
      repeat split; [constructor|].
      intros req r' [Heq|[]].
      inversion Heq; subst. exists (world st). rewrite E. reflexivity.
Qed.

Lemma checkNotificationPermission_run (st : State World) :
  checkNotificationPermission st
  = let (r, w) := getPermissionsAsync (world st) in
    (Val (match r with Val granted => true | _ => false end),
     mkState w (notificationMap st), [CallGetPermissions r]).
Proof.
  unfold checkNotificationPermission, try_catch, bind,
    await_getPermissionsAsync, ret.
  destruct (getPermissionsAsync (world st)) as [[[]|] w]; reflexivity.
Qed.

(** Without permission: one permission query, nothing else. *)
Lemma scheduleTaskReminder_not_granted
    (taskId taskTitle reminderTime : string) (st : State World) :
  fst (getPermissionsAsync (world st)) <> Val granted ->
  scheduleTaskReminder taskId taskTitle reminderTime st
  = (Val None,
     mkState (snd (getPermissionsAsync (world st))) (notificationMap st),
     [CallGetPermissions (fst (getPermissionsAsync (world st)))]).
Proof.
  intros Hden. unfold scheduleTaskReminder, try_catch.
  unfold bind at 1. rewrite checkNotificationPermission_run.
  destruct (getPermissionsAsync (world st)) as [[[]|] w]; simpl in *;
    try reflexivity.
  congruence.
Qed.

(** A reminder that is not after the clock: the permission query, nothing
    else. *)
Lemma scheduleTaskReminder_not_after
    (taskId taskTitle reminderTime : string) (st : State World) w1 now w2 :
  getPermissionsAsync (world st) = (Val granted, w1) ->
  Date_now w1 = (now, w2) ->
  JsNumber.leb (Date_parse reminderTime) (Num now) = true ->
  scheduleTaskReminder taskId taskTitle reminderTime st
  = (Val None, mkState w2 (notificationMap st),
     [CallGetPermissions (Val granted)]).
Proof.
  intros Hperm Hnow Hle. unfold scheduleTaskReminder, try_catch.
  unfold bind at 1. rewrite checkNotificationPermission_run, Hperm.
  cbn [negb]. cbv beta iota.
  unfold bind at 1, new_Date at 1. cbn [world]. rewrite Hnow. cbv beta iota.
  rewrite Hle.
  reflexivity.
Qed.

(** A reminder after the clock, with permission: the requests of
    [desiredRequests] are gone through until one throws; the result is the
    identifier returned for the main request when none does, and [null]
    otherwise. *)
Lemma scheduleTaskReminder_after
    (taskId taskTitle reminderTime : string) (st : State World) w1 now w2 :
  getPermissionsAsync (world st) = (Val granted, w1) ->
  Date_now w1 = (now, w2) ->
  JsNumber.leb (Date_parse reminderTime) (Num now) = false ->
  let secondsUntilReminder :=
    JsNumber.floor_div (JsNumber.sub (Date_parse reminderTime) (Num now)) 1000 in
  exists res w3 cs completed,
    scheduleTaskReminder taskId taskTitle reminderTime st
    = (Val res, mkState w3 (notificationMap st),
       CallGetPermissions (Val granted) :: cs)
    /\ attempted (desiredRequests taskId taskTitle secondsUntilReminder)
         cs completed
    /\ (completed = false -> res = None)
    /\ (completed = true ->
        exists h, res = Some h
          /\ In (CallSchedule
                   (mainRequest taskId taskTitle secondsUntilReminder) (Val h))
                cs)
    /\ from_scheduler cs.
Proof.
  intros Hperm Hnow Hle secs. unfold scheduleTaskReminder, try_catch.
  unfold bind at 1. rewrite checkNotificationPermission_run, Hperm.
  cbn [negb]. cbv beta iota.
  unfold bind at 1, new_Date at 1. cbn [world]. rewrite Hnow. cbv beta iota.
  rewrite Hle.
  fold secs. simpl notificationMap.
  set (st2 := mkState w2 (notificationMap st)).
  unfold bind at 1.
  destruct (for_of_schedule (advanceRequest taskId taskTitle)
              (advanceNotifications taskTitle secs) st2)
    as (r1 & wa & c1 & b1 & Hrun1 & Hatt1 & Hr1 & Hfrom1).
  rewrite Hrun1. destruct b1; subst r1.
  - unfold bind at 1, await_scheduleNotificationAsync at 1. simpl world.
    destruct (scheduleNotificationAsync (mainRequest taskId taskTitle secs) wa)
      as [[h|] wm] eqn:Em.
    + unfold bind at 1.
      destruct (for_of_schedule (followUpRequest taskId taskTitle secs)
                  followUpIntervals (mkState wm (notificationMap st2)))
        as (r3 & wf & c3 & b3 & Hrun3 & Hatt3 & Hr3 & Hfrom3).
      assert (Hfromm : from_scheduler
                [CallSchedule (mainRequest taskId taskTitle secs) (Val h)]).
      { intros req r [Heq|[]]. inversion Heq; subst.
        exists wa. rewrite Em. reflexivity. }
      simpl notificationMap in *. rewrite Hrun3. destruct b3; subst r3.
      * exists (Some h), wf,
          (c1 ++ CallSchedule (mainRequest taskId taskTitle secs) (Val h) :: c3),
          true.
        unfold ret. simpl. rewrite app_nil_r.
        repeat split.
        -- unfold desiredRequests. apply attempted_app_completed; [exact Hatt1|].
           constructor. exact Hatt3.
        -- discriminate.
        -- intros _. exists h. split; [reflexivity|].
           apply in_or_app. right. left. reflexivity.
        -- apply from_scheduler_app; [exact Hfrom1|].
           apply (from_scheduler_app _ _ Hfromm Hfrom3).
      * exists None, wf,
          (c1 ++ CallSchedule (mainRequest taskId taskTitle secs) (Val h) :: c3),
          false.
        unfold ret. simpl. rewrite app_nil_r.
        repeat split.
        -- unfold desiredRequests. apply attempted_app_completed; [exact Hatt1|].
           constructor. exact Hatt3.
        -- discriminate.
        -- apply from_scheduler_app; [exact Hfrom1|].
           apply (from_scheduler_app _ _ Hfromm Hfrom3).
    + exists None, wm,
        (c1 ++ [CallSchedule (mainRequest taskId taskTitle secs) Threw]), false.
      unfold ret. simpl. rewrite app_nil_r.
      repeat split.
      * unfold desiredRequests. apply attempted_app_completed; [exact Hatt1|].
        constructor.
      * discriminate.
      * apply from_scheduler_app; [exact Hfrom1|].
        intros req r [Heq|[]]. inversion Heq; subst.
        exists wa. rewrite Em. reflexivity.
  - exists None, wa, c1, false. unfold ret. simpl. rewrite app_nil_r.
    repeat split.
    + unfold desiredRequests. apply attempted_app_threw. exact Hatt1.
    + discriminate.
    + exact Hfrom1.
Qed.


Lemma desiredRequests_taskId taskId taskTitle secs req :
  In req (desiredRequests taskId taskTitle secs) -> data_taskId req = taskId.
Proof.
  unfold desiredRequests. intros H.
  apply in_app_or in H. destruct H as [H|[<-|H]].
  - apply in_map_iff in H. destruct H as (n & <- & _). reflexivity.
  - reflexivity.
  - apply in_map_iff in H. destruct H as (n & <- & _). reflexivity.
Qed.

(** [scheduleTaskReminder] never throws, leaves the map alone, cancels
    nothing, only schedules for its own task, and what it returns is an
    identifier the scheduler gave. *)
Lemma scheduleTaskReminder_total
    (taskId taskTitle reminderTime : string) (st : State World) :
  exists res w cs,
    scheduleTaskReminder taskId taskTitle reminderTime st
    = (Val res, mkState w (notificationMap st), cs)
    /\ cancel_requests cs = []
    /\ (forall req, In req (schedule_requests cs) -> data_taskId req = taskId)
    /\ (forall h, res = Some h -> In h (returned_handles cs)).
Proof.
  destruct (getPermissionsAsync (world st)) as [r w1] eqn:Hperm.
  assert (Hcases : r = Val granted \/ r <> Val granted).
  { destruct r as [[]|]; auto; right; discriminate. }
  destruct Hcases as [->|Hden].
  - destruct (Date_now w1) as [now w2] eqn:Hnow.
    destruct (JsNumber.leb (Date_parse reminderTime) (Num now)) eqn:Hle.
    + rewrite (scheduleTaskReminder_not_after _ _ _ _ _ _ _ Hperm Hnow Hle).
      eexists _, _, _. split; [reflexivity|].
      simpl. repeat split; [tauto | discriminate].
    + destruct (scheduleTaskReminder_after taskId taskTitle _ _ _ _ _ Hperm Hnow Hle)
        as (res & w3 & cs & b & Hrun & Hatt & Hnone & Hsome & _).
      rewrite Hrun. eexists _, _, _. split; [reflexivity|].
      simpl. repeat split.
      * eapply attempted_no_cancel; eauto.
      * intros req Hin. apply in_schedule_requests in Hin.
        destruct Hin as [r Hin].
        destruct (@attempted_in _ _ _ _ Hatt Hin) as (rq & r' & Heq & Hd).
        inversion Heq; subst. eapply desiredRequests_taskId; eauto.
      * intros h ->. destruct b.
        -- destruct (Hsome eq_refl) as (h' & [= ->] & Hin).
           apply in_returned_handles. eauto.
        -- discriminate (Hnone eq_refl).
  - rewrite scheduleTaskReminder_not_granted by (rewrite Hperm; exact Hden).
    rewrite Hperm. eexists _, _, _. split; [reflexivity|].
    simpl. repeat split; [tauto | discriminate].
Qed.

(** ** One turn of the first loop of [syncNotifications] *)

Lemma schedule_if_new_skip (task : Task) (st : State World) :
  hasReminder task = false
  \/ truthy_opt (JsMap.get (notificationMap st) (id task)) = true ->
  schedule_if_new task st = (Val tt, st, []).
Proof.
  unfold schedule_if_new. intros [H|H].
  - rewrite H. reflexivity.
  - destruct (hasReminder task); [|reflexivity].
    destruct (reminderTime task); [|reflexivity].
    unfold bind, notificationMap_get. rewrite H. reflexivity.
Qed.

Lemma schedule_if_new_new (task : Task) (st : State World) :
  hasReminder task = true ->
  truthy_opt (JsMap.get (notificationMap st) (id task)) = false ->
  exists reminderTime_,
    reminderTime task = Some reminderTime_
    /\ schedule_if_new task st
       = match scheduleTaskReminder (id task) (title task) reminderTime_ st
         with
         | (Val (Some h), st1, cs) =>
             (Val tt,
              if truthy h
              then mkState (world st1)
                     (JsMap.set (notificationMap st1) (id task) h)
              else st1,
              cs)
         | (Val None, st1, cs) => (Val tt, st1, cs)
         | (Threw, st1, cs) => (Threw, st1, cs)
         end.
Proof.
  intros Hrem Hnew. unfold schedule_if_new. rewrite Hrem.
  destruct (reminderTime task) as [rt|] eqn:Hrt.
  - exists rt. split; [reflexivity|].
    unfold bind at 1, notificationMap_get at 1. rewrite Hnew. cbn [negb].
    cbv beta iota. unfold bind.
    destruct (scheduleTaskReminder (id task) (title task) rt st)
      as [[[[h|]|] st1] cs]; simpl.
    + destruct (truthy h); simpl; rewrite app_nil_r; reflexivity.
    + rewrite app_nil_r. reflexivity.
    + reflexivity.
  - unfold hasReminder in Hrem. rewrite Hrt in Hrem. simpl in Hrem.
    rewrite andb_false_r in Hrem. discriminate.
Qed.

(** What one turn does: it never throws and cancels nothing; it schedules
    only for its own task, and only when the task has a reminder and no
    identifier in the map; it leaves the map alone or sets the task's
    entry to an identifier the scheduler returned. *)
Lemma schedule_if_new_run (task : Task) (st : State World) :
  exists w m cs,
    schedule_if_new task st = (Val tt, mkState w m, cs)
    /\ cancel_requests cs = []
    /\ (forall req, In req (schedule_requests cs) ->
        data_taskId req = id task
        /\ hasReminder task = true
        /\ truthy_opt (JsMap.get (notificationMap st) (id task)) = false)
    /\ (m = notificationMap st
        \/ (hasReminder task = true
            /\ truthy_opt (JsMap.get (notificationMap st) (id task)) = false
            /\ exists h, truthy h = true
                 /\ In h (returned_handles cs)
                 /\ m = JsMap.set (notificationMap st) (id task) h)).
Proof.
  destruct (hasReminder task) eqn:Hrem.
  - destruct (truthy_opt (JsMap.get (notificationMap st) (id task))) eqn:Hget.
    + rewrite schedule_if_new_skip by auto.
      exists (world st), (notificationMap st), []. destruct st; simpl.
      repeat split; try tauto; auto.
    + destruct (schedule_if_new_new task st Hrem Hget) as (rt & Hrt & ->).
      destruct (scheduleTaskReminder_total (id task) (title task) rt st)
        as (res & w & cs & -> & Hcan & Hreq & Hres).
      destruct res as [h|].
      * destruct (truthy h) eqn:Hh; simpl.
        -- eexists _, _, _. split; [reflexivity|]. repeat split; auto.
           right. repeat split; auto. exists h. auto.
        -- eexists _, _, _. split; [reflexivity|]. repeat split; auto.
      * eexists _, _, _. split; [reflexivity|]. repeat split; auto.
  - rewrite schedule_if_new_skip by auto.
    exists (world st), (notificationMap st), []. destruct st; simpl.
    repeat split; try tauto; auto.
Qed.


(** ** The first loop of [syncNotifications] *)

Lemma for_of_app {A} (body : A -> M World unit) (xs ys : list A)
    (st : State World) :
  for_of (xs ++ ys) body st
  = match for_of xs body st with
    | (Val _, st1, c1) =>
        match for_of ys body st1 with
        | (r, st2, c2) => (r, st2, c1 ++ c2)
        end
    | (Threw, st1, c1) => (Threw, st1, c1)
    end.
Proof.
  revert st. induction xs as [|x xs IH]; intros st; simpl.
  - destruct (for_of ys body st) as [[r st2] c2]. reflexivity.
  - unfold bind. destruct (body x st) as [[[u|] st1] c1]; [|reflexivity].
    rewrite IH. destruct (for_of xs body st1) as [[[u'|] st2] c2].
    + destruct (for_of ys body st2) as [[r st3] c3].
      rewrite app_assoc. reflexivity.
    + reflexivity.
Qed.

(** The loop never throws and cancels nothing.  An entry that holds an
    identifier keeps it; a request is for a task of the list that has a
    reminder and no identifier yet; an entry that changed holds an
    identifier returned in this loop, for such a task; the entries at keys
    that are no such task are as before. *)
Lemma first_loop_run (tasks : list Task) (st : State World) :
  exists w m cs,
    for_of tasks schedule_if_new st = (Val tt, mkState w m, cs)
    /\ cancel_requests cs = []
    /\ (forall k, truthy_opt (JsMap.get (notificationMap st) k) = true ->
        JsMap.get m k = JsMap.get (notificationMap st) k)
    /\ (forall req, In req (schedule_requests cs) ->
        exists t, In t tasks /\ hasReminder t = true
          /\ data_taskId req = id t
          /\ truthy_opt (JsMap.get (notificationMap st) (id t)) = false)
    /\ (forall k,
        JsMap.get m k = JsMap.get (notificationMap st) k
        \/ exists t h, In t tasks /\ hasReminder t = true /\ id t = k
             /\ JsMap.get m k = Some h /\ truthy h = true
             /\ In h (returned_handles cs))
    /\ (forall p : string -> bool,
        (forall t, In t tasks -> hasReminder t = true -> p (id t) = false) ->
        filter (fun e => p (fst e)) m
        = filter (fun e => p (fst e)) (notificationMap st)).
Proof.
  revert st. induction tasks as [|t tasks IH]; intros st.
  - exists (world st), (notificationMap st), []. destruct st; simpl.
    repeat split; try tauto; auto.
  - simpl for_of. unfold bind.
    destruct (schedule_if_new_run t st) as (w1 & m1 & c1 & -> & Hcan1 & Hreq1 & Hm1).
    destruct (IH (mkState w1 m1)) as (w & m & c2 & -> & Hcan2 & Hkeep2 & Hreq2 & Hnew2 & Hfil2).
    simpl notificationMap in *.
    assert (Hkeep1 : forall k, truthy_opt (JsMap.get (notificationMap st) k) = true ->
                      JsMap.get m1 k = JsMap.get (notificationMap st) k).
    { intros k Hk. destruct Hm1 as [->|(_ & Hnone & h & _ & _ & ->)]; [reflexivity|].
      apply JsMapFacts.get_set_other. intros <-. congruence. }
    exists w, m, (c1 ++ c2). split; [reflexivity|].
    split; [rewrite cancel_requests_app, Hcan1, Hcan2; reflexivity|].
    split; [|split; [|split]].
    + intros k Hk. rewrite Hkeep2; rewrite Hkeep1; auto.
    + intros req Hin. rewrite schedule_requests_app in Hin.
      apply in_app_or in Hin. destruct Hin as [Hin|Hin].
      * destruct (Hreq1 req Hin) as (Hid & Hrem & Hget).
        exists t. simpl. auto.
      * destruct (Hreq2 req Hin) as (t' & Hin' & Hrem & Hid & Hget).
        exists t'. simpl. repeat split; auto.
        destruct (truthy_opt (JsMap.get (notificationMap st) (id t'))) eqn:E;
          [|reflexivity].
        rewrite (Hkeep1 _ E) in Hget. congruence.
    + intros k. rewrite returned_handles_app.
      destruct (Hnew2 k) as [Heq|(t' & h & Hin' & Hrem & Hid & Hget & Hh & Hret)].
      * rewrite Heq.
        destruct Hm1 as [->|(Hrem & Hnone & h & Hh & Hret & ->)]; [auto|].
        destruct (String.eqb_spec (id t) k) as [Hk|Hk].
        -- right. exists t, h. subst k. rewrite JsMapFacts.get_set_same.
           simpl. repeat split; auto. apply in_or_app. auto.
        -- left. apply JsMapFacts.get_set_other. exact Hk.
      * right. exists t', h. simpl. repeat split; auto.
        apply in_or_app. auto.
    + intros p Hp. rewrite Hfil2 by (intros; apply Hp; simpl; auto).
      destruct Hm1 as [->|(Hrem & _ & h & _ & _ & ->)]; [reflexivity|].
      apply JsMapFacts.filter_set. apply Hp; simpl; auto.
Qed.

(** ** The two other loops *)

Lemma cancel_loop_run (ids : list string) (st : State World) :
  exists w cs,
    for_of ids cancelReminder st = (Val tt, mkState w (notificationMap st), cs)
    /\ cancel_requests cs = ids
    /\ schedule_requests cs = []
    /\ returned_handles cs = [].
Proof.
  revert st. induction ids as [|h ids IH]; intros st; simpl.
  - exists (world st), []. destruct st; simpl. auto.
  - unfold bind, cancelReminder at 1, try_catch,
      await_cancelScheduledNotificationAsync, ret.
    destruct (cancelScheduledNotificationAsync h (world st)) as [[u|] w1].
    + destruct (IH (mkState w1 (notificationMap st)))
        as (w & cs & -> & Hc & Hs & Hr).
      exists w, (CallCancel h (Val u) :: cs). simpl.
      rewrite Hc, Hs, Hr. auto.
    + destruct (IH (mkState w1 (notificationMap st)))
        as (w & cs & -> & Hc & Hs & Hr).
      exists w, (CallCancel h Threw :: cs). simpl.
      rewrite Hc, Hs, Hr. auto.
Qed.

Lemma collect_cancellations_gen (tasks : list Task)
    (entries : list (string * string)) (m : JsMap.t) :
  collect_cancellations tasks entries m
  = (map snd (filter (fun e => toCancel tasks (fst e)) entries),
     filter
       (fun e =>
          negb (existsb (String.eqb (fst e))
                  (map fst (filter (fun e => toCancel tasks (fst e)) entries))))
       m).
Proof.
  revert m. induction entries as [|[k v] entries IH]; intros m; simpl.
  - f_equal. symmetry. apply filter_true.
  - destruct (toCancel tasks k) eqn:E; simpl.
    + rewrite IH. f_equal. unfold JsMap.delete.
      rewrite filter_twice. apply filter_ext. intros [k' v']; simpl.
      rewrite negb_orb, (String.eqb_sym k k'). reflexivity.
    + apply IH.
Qed.

(** The middle loop collects the identifiers of the entries to cancel, in
    the map's order, and leaves the other entries. *)
Lemma collect_cancellations_entries (tasks : list Task) (m : JsMap.t) :
  collect_cancellations tasks (JsMap.entries m) m
  = (map snd (filter (fun e => toCancel tasks (fst e)) m),
     filter (fun e => negb (toCancel tasks (fst e))) m).
Proof.
  rewrite collect_cancellations_gen. unfold JsMap.entries. f_equal.
  apply filter_ext_in. intros [k v] Hin. simpl. f_equal.
  destruct (toCancel tasks k) eqn:E.
  - apply existsb_exists. exists k. split; [|apply String.eqb_refl].
    apply in_map_iff. exists (k, v). split; [reflexivity|].
    apply filter_In. auto.
  - destruct (existsb _ _) eqn:Ex; [|reflexivity].
    apply existsb_exists in Ex. destruct Ex as (k' & Hin' & Heq).
    apply String.eqb_eq in Heq. subst k'.
    apply in_map_iff in Hin'. destruct Hin' as ([k'' v''] & Hk & Hf).
    apply filter_In in Hf. simpl in *. subst. destruct Hf. congruence.
Qed.

(** ** A whole pass *)

(** [syncNotifications] never throws.  Its calls are those of the first
    loop followed by one cancellation per entry to cancel of the map the
    first loop leaves; the map it leaves holds the other entries. *)
Lemma syncNotifications_run (tasks : list Task) (st : State World) :
  exists w1 m1 c1 w2 c2,
    for_of tasks schedule_if_new st = (Val tt, mkState w1 m1, c1)
    /\ syncNotifications tasks st
       = (Val tt,
          mkState w2 (filter (fun e => negb (toCancel tasks (fst e))) m1),
          c1 ++ c2)
    /\ cancel_requests c1 = []
    /\ schedule_requests c2 = []
    /\ returned_handles c2 = []
    /\ cancel_requests c2
       = map snd (filter (fun e => toCancel tasks (fst e)) m1).
Proof.
  destruct (first_loop_run tasks st) as (w1 & m1 & c1 & Hrun & Hcan & _).
  set (ids := map snd (filter (fun e => toCancel tasks (fst e)) m1)).
  set (m2 := filter (fun e => negb (toCancel tasks (fst e))) m1).
  destruct (cancel_loop_run ids (mkState w1 m2)) as (w2 & c2 & Hrun2 & Hc2 & Hs2 & Hr2).
  exists w1, m1, c1, w2, c2. split; [exact Hrun|].
  split; [|auto].
  unfold syncNotifications, try_catch. unfold bind at 1. rewrite Hrun.
  unfold bind at 1, notificationIdsToCancel at 1. simpl notificationMap.
  rewrite collect_cancellations_entries. fold ids m2. simpl world.
  rewrite Hrun2. simpl. reflexivity.
Qed.


(** ** Claims about [scheduleTaskReminder] *)

(** C1.  A reminder exactly 25 hours after the clock, with permission
    granted and no schedule call throwing: the requests handed to the
    scheduler are exactly nine, in this order: the advance notifications at
    1 h (the 24-hour one, with body "<title> is scheduled for tomorrow"),
    13 h and 19 h, the main one at 25 h, and the five follow-ups 2, 4, 6, 8
    and 10 minutes after it. *)
Theorem lead_25h_nine_requests
    (taskId taskTitle reminderTime : string) (st : State World)
    (w1 w2 : World) (now reminderDate : Z) :
  getPermissionsAsync (world st) = (Val granted, w1) ->
  Date_now w1 = (now, w2) ->
  Date_parse reminderTime = Num reminderDate ->
  reminderDate - now = 25 * 3600 * 1000 ->
  existsb threw
    (calls_of (scheduleTaskReminder taskId taskTitle reminderTime st))
  = false ->
  schedule_requests
    (calls_of (scheduleTaskReminder taskId taskTitle reminderTime st))
  = [ mkRequest "📅 Upcoming Task Tomorrow"
        (taskTitle ++ " is scheduled for tomorrow")%string
        taskId taskTitle isAdvanceReminder DEFAULT (Num 3600);
      mkRequest "⏳ Task in 12 Hours"
        (taskTitle ++ " is coming up in 12 hours")%string
        taskId taskTitle isAdvanceReminder DEFAULT (Num (13 * 3600));
      mkRequest "⏰ Task in 6 Hours"
        (taskTitle ++ " is coming up in 6 hours")%string
        taskId taskTitle isAdvanceReminder DEFAULT (Num (19 * 3600));
      mkRequest "⏰ Task Reminder - NOW" taskTitle
        taskId taskTitle isMainReminder HIGH (Num (25 * 3600));
      mkRequest "🔔 Reminder: Still Pending" taskTitle
        taskId taskTitle isFollowUp HIGH (Num (25 * 3600 + 2 * 60));
      mkRequest "🔔 Reminder: Still Pending" taskTitle
        taskId taskTitle isFollowUp HIGH (Num (25 * 3600 + 4 * 60));
      mkRequest "🔔 Reminder: Still Pending" taskTitle
        taskId taskTitle isFollowUp HIGH (Num (25 * 3600 + 6 * 60));
      mkRequest "🔔 Reminder: Still Pending" taskTitle
        taskId taskTitle isFollowUp HIGH (Num (25 * 3600 + 8 * 60));
      mkRequest "🔔 Reminder: Still Pending" taskTitle
        taskId taskTitle isFollowUp HIGH (Num (25 * 3600 + 10 * 60)) ].
Proof.
  intros Hperm Hnow Hparse Hlead Hnothrow.
  assert (Hle : JsNumber.leb (Date_parse reminderTime) (Num now) = false).
  { rewrite Hparse. simpl. apply Z.leb_gt. lia. }
  destruct (scheduleTaskReminder_after taskId taskTitle _ _ _ _ _ Hperm Hnow Hle)
    as (res & w3 & cs & b & Hrun & Hatt & _ & _ & _).
  unfold calls_of in *. rewrite Hrun in *. simpl snd in *.
  simpl existsb in Hnothrow.
  rewrite Hparse in Hatt. simpl JsNumber.sub in Hatt. rewrite Hlead in Hatt.
  change (JsNumber.floor_div (Num (25 * 3600 * 1000)) 1000)
    with (Num 90000) in Hatt.
  destruct b.
  - simpl schedule_requests.
    rewrite (attempted_completed_requests _ _ Hatt). reflexivity.
  - destruct (attempted_not_completed _ _ Hatt) as (pre & req & ->).
    rewrite existsb_app in Hnothrow. simpl in Hnothrow.
    rewrite orb_true_r in Hnothrow. discriminate.
Qed.

(** C3.  A reminder at or before the clock: nothing is handed to the
    scheduler, no identifier comes back and the result is [null], whatever
    the permission. *)
Theorem reminder_not_after_now_no_request
    (taskId taskTitle reminderTime : string) (st : State World)
    (reminderDate : Z) :
  Date_parse reminderTime = Num reminderDate ->
  reminderDate
  <= fst (Date_now (snd (getPermissionsAsync (world st)))) ->
  value_of (scheduleTaskReminder taskId taskTitle reminderTime st) = Val None
  /\ schedule_requests
       (calls_of (scheduleTaskReminder taskId taskTitle reminderTime st)) = []
  /\ returned_handles
       (calls_of (scheduleTaskReminder taskId taskTitle reminderTime st)) = [].
Proof.
  intros Hparse Hpast. unfold value_of, calls_of.
  destruct (getPermissionsAsync (world st)) as [r w1] eqn:Hperm.
  assert (Hcases : r = Val granted \/ r <> Val granted).
  { destruct r as [[]|]; auto; right; discriminate. }
  destruct Hcases as [->|Hden].
  - simpl in Hpast. destruct (Date_now w1) as [now w2] eqn:Hnow.
    simpl in Hpast.
    assert (Hle : JsNumber.leb (Date_parse reminderTime) (Num now) = true).
    { rewrite Hparse. simpl. apply Z.leb_le. exact Hpast. }
    rewrite (scheduleTaskReminder_not_after _ _ _ _ _ _ _ Hperm Hnow Hle).
    simpl. auto.
  - rewrite scheduleTaskReminder_not_granted by (rewrite Hperm; exact Hden).
    rewrite Hperm. simpl. auto.
Qed.


(** Beside C6: from a lead of one second on, every request gone through has
    a positive number of seconds. *)
Lemma desiredRequests_positive (taskId taskTitle : string) (s : Z)
    (req : NotificationRequestInput) :
  1 <= s ->
  In req (desiredRequests taskId taskTitle (Num s)) ->
  exists z, trigger_seconds req = Num z /\ 0 < z.
Proof.
  intros Hs Hin. unfold desiredRequests in Hin.
  apply in_app_or in Hin. destruct Hin as [Hin|[<-|Hin]].
  - apply in_map_iff in Hin. destruct Hin as (n & <- & Hn).
    unfold advanceNotifications in Hn. simpl JsNumber.sub in Hn.
    repeat (apply in_app_or in Hn; destruct Hn as [Hn|Hn]);
      match type of Hn with
      | In _ (if ?a then _ else _) =>
          destruct a; [|destruct Hn];
          match type of Hn with
          | In _ (if JsNumber.gtb (Num ?x) _ then _ else _) =>
              destruct (JsNumber.gtb (Num x) (Num 0)) eqn:E; [|destruct Hn];
              destruct Hn as [<-|[]]; simpl; exists x; split; [reflexivity|];
              simpl in E; apply Z.ltb_lt in E; exact E
          end
      end.
  - exists s. simpl. split; [reflexivity | lia].
  - apply in_map_iff in Hin. destruct Hin as (i & <- & Hi).
    exists (s + i). simpl. split; [reflexivity|].
    unfold followUpIntervals in Hi. simpl in Hi.
    repeat (destruct Hi as [<-|Hi]; [lia|]). destruct Hi.
Qed.

(** Beside C6: with permission and a reminder at least one second after
    the clock, every request handed to the scheduler has a positive number
    of seconds. *)
Lemma scheduled_seconds_positive_from_one_second
    (taskId taskTitle reminderTime : string) (st : State World)
    (w1 w2 : World) (now reminderDate : Z) (req : NotificationRequestInput) :
  getPermissionsAsync (world st) = (Val granted, w1) ->
  Date_now w1 = (now, w2) ->
  Date_parse reminderTime = Num reminderDate ->
  1000 <= reminderDate - now ->
  In req
    (schedule_requests
       (calls_of (scheduleTaskReminder taskId taskTitle reminderTime st))) ->
  exists z, trigger_seconds req = Num z /\ 0 < z.
Proof.
  intros Hperm Hnow Hparse Hlead Hin.
  assert (Hle : JsNumber.leb (Date_parse reminderTime) (Num now) = false).
  { rewrite Hparse. simpl. apply Z.leb_gt. lia. }
  destruct (scheduleTaskReminder_after taskId taskTitle _ _ _ _ _
              Hperm Hnow Hle)
    as (res & w3 & cs & b & Hrun & Hatt & _ & _ & _).
  unfold calls_of in Hin. rewrite Hrun in Hin. simpl in Hin.
  apply in_schedule_requests in Hin. destruct Hin as (r & Hin).
  destruct (attempted_in _ _ _ _ Hatt Hin) as (req' & r' & Heq & Hdes).
  inversion Heq; subst req' r'. rewrite Hparse in Hdes. simpl in Hdes.
  apply (desiredRequests_positive taskId taskTitle
           ((reminderDate - now) / 1000)); [|exact Hdes].
  apply Z.div_le_lower_bound; lia.
Qed.

(** ** Which entries a pass cancels *)

Lemma toCancel_find (tasks : list Task) (k : string) :
  toCancel tasks k
  = match find_task tasks k with
    | None => true
    | Some t => negb (hasReminder t)
    end.
Proof.
  unfold toCancel, hasReminder. destruct (find_task tasks k); [|reflexivity].
  rewrite negb_andb. reflexivity.
Qed.

Lemma find_task_app (a b : list Task) (k : string) :
  find_task (a ++ b) k
  = match find_task a k with
    | Some t => Some t
    | None => find_task b k
    end.
Proof.
  unfold find_task. induction a as [|t a IH]; simpl; [reflexivity|].
  destruct (String.eqb (id t) k); [reflexivity | exact IH].
Qed.

Lemma find_task_absent (tasks : list Task) (k : string) :
  ~ In k (map id tasks) -> find_task tasks k = None.
Proof.
  unfold find_task. induction tasks as [|t tasks IH]; simpl; [reflexivity|].
  intros Hnot. destruct (String.eqb_spec (id t) k) as [Heq|Hne].
  - exfalso. apply Hnot. auto.
  - apply IH. intros Hin. apply Hnot. auto.
Qed.

Lemma NoDup_ids_split (pre post : list Task) (t : Task) :
  NoDup (map id (pre ++ t :: post)) ->
  ~ In (id t) (map id pre) /\ ~ In (id t) (map id post)
  /\ NoDup (map id (pre ++ post)).
Proof.
  rewrite !map_app. simpl. intros Hnd.
  pose proof (NoDup_remove_1 _ _ _ Hnd) as Hnd'.
  pose proof (NoDup_remove_2 _ _ _ Hnd) as Hnot.
  repeat split; [| |exact Hnd'];
    intros Hin; apply Hnot; apply in_or_app; auto.
Qed.

Lemma find_task_unique (tasks : list Task) (t : Task) :
  NoDup (map id tasks) -> In t tasks -> find_task tasks (id t) = Some t.
Proof.
  intros Hnd Hin. apply in_split in Hin. destruct Hin as (pre & post & ->).
  destruct (NoDup_ids_split _ _ _ Hnd) as (Hpre & _ & _).
  rewrite find_task_app, (find_task_absent _ _ Hpre).
  unfold find_task. simpl. rewrite String.eqb_refl. reflexivity.
Qed.

(** With distinct identifiers, the entry of a task that has a reminder is
    not one to cancel. *)
Lemma toCancel_active (tasks : list Task) (t : Task) :
  NoDup (map id tasks) -> In t tasks -> hasReminder t = true ->
  toCancel tasks (id t) = false.
Proof.
  intros Hnd Hin Hrem.
  rewrite toCancel_find, (find_task_unique _ _ Hnd Hin), Hrem. reflexivity.
Qed.

Lemma toCancel_absent (tasks : list Task) (k : string) :
  ~ In k (map id tasks) -> toCancel tasks k = true.
Proof.
  intros Hnot. rewrite toCancel_find, (find_task_absent _ _ Hnot). reflexivity.
Qed.

(** The decision for a key, in a list split around one task. *)
Lemma toCancel_around (pre post : list Task) (t : Task) (k : string) :
  toCancel (pre ++ t :: post) k
  = match find_task pre k with
    | Some u => negb (hasReminder u)
    | None =>
        if String.eqb (id t) k then negb (hasReminder t) else toCancel post k
    end.
Proof.
  rewrite toCancel_find, find_task_app.
  destruct (find_task pre k); [reflexivity|].
  unfold find_task at 1. simpl.
  destruct (String.eqb (id t) k); [reflexivity|].
  rewrite toCancel_find. reflexivity.
Qed.

Lemma toCancel_app (pre post : list Task) (k : string) :
  toCancel (pre ++ post) k
  = match find_task pre k with
    | Some u => negb (hasReminder u)
    | None => toCancel post k
    end.
Proof.
  rewrite toCancel_find, find_task_app.
  destruct (find_task pre k); [reflexivity|].
  rewrite toCancel_find. reflexivity.
Qed.

(** ** Facts about a whole pass, in terms of its run *)

Lemma syncNotifications_facts (tasks : list Task) (st : State World) :
  exists w1 m1 c1,
    for_of tasks schedule_if_new st = (Val tt, mkState w1 m1, c1)
    /\ value_of (syncNotifications tasks st) = Val tt
    /\ ledger_of (syncNotifications tasks st)
       = filter (fun e => negb (toCancel tasks (fst e))) m1
    /\ schedule_requests (calls_of (syncNotifications tasks st))
       = schedule_requests c1
    /\ returned_handles (calls_of (syncNotifications tasks st))
       = returned_handles c1
    /\ cancel_requests (calls_of (syncNotifications tasks st))
       = map snd (filter (fun e => toCancel tasks (fst e)) m1)
    /\ (forall c, In c c1 -> In c (calls_of (syncNotifications tasks st))).
Proof.
  destruct (syncNotifications_run tasks st)
    as (w1 & m1 & c1 & w2 & c2 & Hloop & Hrun & Hcan1 & Hs2 & Hr2 & Hcan2).
  exists w1, m1, c1. unfold value_of, ledger_of, state_of, calls_of.
  rewrite Hrun. simpl.
  rewrite schedule_requests_app, returned_handles_app, cancel_requests_app.
  rewrite Hs2, Hr2, Hcan1, Hcan2, !app_nil_r. simpl.
  repeat split; auto. intros c Hin. apply in_or_app. auto.
Qed.

(** With distinct task identifiers, what a pass cancels is decided by the
    map it starts from: the first loop adds or changes entries of tasks
    with a reminder only. *)
Lemma syncNotifications_cancels (tasks : list Task) (st : State World) :
  NoDup (map id tasks) ->
  cancel_requests (calls_of (syncNotifications tasks st))
  = map snd (filter (fun e => toCancel tasks (fst e)) (notificationMap st)).
Proof.
  intros Hnd.
  destruct (syncNotifications_facts tasks st)
    as (w1 & m1 & c1 & Hloop & _ & _ & _ & _ & -> & _).
  destruct (first_loop_run tasks st)
    as (w1' & m1' & c1' & Hloop' & _ & _ & _ & _ & Hfil).
  rewrite Hloop in Hloop'. inversion Hloop'; subst.
  rewrite (Hfil (toCancel tasks)); [reflexivity|].
  intros t Hin Hrem. apply toCancel_active; auto.
Qed.

(** A first loop in which every task is without reminder or already holds
    an identifier does nothing. *)
Lemma first_loop_idle (tasks : list Task) (st : State World) :
  (forall t, In t tasks -> hasReminder t = true ->
     truthy_opt (JsMap.get (notificationMap st) (id t)) = true) ->
  for_of tasks schedule_if_new st = (Val tt, st, []).
Proof.
  induction tasks as [|t tasks IH]; intros Hall; simpl; [reflexivity|].
  unfold bind. rewrite schedule_if_new_skip.
  - rewrite IH by (intros; apply Hall; simpl; auto). reflexivity.
  - destruct (hasReminder t) eqn:E; [right; apply Hall; simpl; auto | auto].
Qed.

(** ** Claims about a pass of [syncNotifications] *)

(** C5, as the code has it.  When after a pass every task with a reminder
    holds an identifier in the map, a second pass over the same tasks, from
    the map the first one left and any state of the platform, makes no call
    at all (none to schedule, none to cancel), and leaves map and platform
    as they are. *)
Theorem second_pass_idle_when_all_recorded
    (tasks : list Task) (st : State World) (w : World) :
  (forall t, In t tasks -> hasReminder t = true ->
     truthy_opt
       (JsMap.get (ledger_of (syncNotifications tasks st)) (id t)) = true) ->
  syncNotifications tasks
    (mkState w (ledger_of (syncNotifications tasks st)))
  = (Val tt, mkState w (ledger_of (syncNotifications tasks st)), []).
Proof.
  intros Hall.
  destruct (syncNotifications_facts tasks st)
    as (w1 & m1 & c1 & _ & _ & Hled & _).
  set (m := ledger_of (syncNotifications tasks st)) in *.
  unfold syncNotifications, try_catch. unfold bind at 1.
  rewrite first_loop_idle by exact Hall.
  unfold bind at 1, notificationIdsToCancel at 1. simpl notificationMap.
  rewrite collect_cancellations_entries. simpl world.
  assert (Hnone : filter (fun e => toCancel tasks (fst e)) m = []).
  { rewrite Hled, filter_twice. 
    erewrite filter_ext; [apply filter_false|].
    intros e. simpl. apply andb_negb_l. }
  assert (Hsame : filter (fun e => negb (toCancel tasks (fst e))) m = m).
  { rewrite Hled, filter_twice. apply filter_ext. intros e.
    apply andb_diag. }
  rewrite Hnone, Hsame. reflexivity.
Qed.

(** C9.  While permission is not granted ([Denied] holds of the platform
    state and permission queries keep it), a pass hands nothing to the
    scheduler and creates no entry: the map it leaves is the one it started
    from without the entries it cancelled.  A task with a reminder and no
    identifier before the pass has none after it, and so its turn in a
    later pass that finds this map makes the calls of
    [scheduleTaskReminder] again. *)
Theorem no_permission_no_schedule_no_entry
    (Denied : World -> Prop) (tasks : list Task) (st : State World) :
  (forall w, Denied w ->
     fst (getPermissionsAsync w) <> Val granted
     /\ Denied (snd (getPermissionsAsync w))) ->
  Denied (world st) ->
  schedule_requests (calls_of (syncNotifications tasks st)) = []
  /\ ledger_of (syncNotifications tasks st)
     = filter (fun e => negb (toCancel tasks (fst e))) (notificationMap st)
  /\ (forall t, In t tasks -> hasReminder t = true ->
      truthy_opt (JsMap.get (notificationMap st) (id t)) = false ->
      truthy_opt
        (JsMap.get (ledger_of (syncNotifications tasks st)) (id t)) = false
      /\ forall w', exists reminderTime_,
           reminderTime t = Some reminderTime_
           /\ calls_of
                (schedule_if_new t
                   (mkState w' (ledger_of (syncNotifications tasks st))))
              = calls_of
                  (scheduleTaskReminder (id t) (title t) reminderTime_
                     (mkState w' (ledger_of (syncNotifications tasks st))))).
Proof.
  intros Hden Hst.
  assert (Hloop : exists w cs,
             for_of tasks schedule_if_new st
             = (Val tt, mkState w (notificationMap st), cs)
             /\ schedule_requests cs = []).
  { clear - Hden Hst. revert st Hst.
    induction tasks as [|t tasks IH]; intros st Hst.
    - exists (world st), []. destruct st. auto.
    - simpl for_of. unfold bind.
      destruct (hasReminder t) eqn:Hrem;
        [destruct (truthy_opt (JsMap.get (notificationMap st) (id t))) eqn:Hget|].
      + rewrite schedule_if_new_skip by auto.
        destruct (IH st Hst) as (w & cs & -> & Hs). eauto.
      + destruct (schedule_if_new_new t st Hrem Hget) as (rt & _ & ->).
        destruct (Hden _ Hst) as (Hno & Hnext).
        rewrite scheduleTaskReminder_not_granted by exact Hno.
        destruct (IH (mkState (snd (getPermissionsAsync (world st)))
                        (notificationMap st)) Hnext)
          as (w & cs & -> & Hs).
        exists w, (CallGetPermissions (fst (getPermissionsAsync (world st))) :: cs).
        simpl. auto.
      + rewrite schedule_if_new_skip by auto.
        destruct (IH st Hst) as (w & cs & -> & Hs). eauto. }
  destruct Hloop as (w & cs & Hloop & Hs).
  destruct (syncNotifications_facts tasks st)
    as (w1 & m1 & c1 & Hloop' & _ & Hled & Hreq & _).
  rewrite Hloop in Hloop'. inversion Hloop'; subst.
  rewrite Hreq, Hled. split; [exact Hs|]. split; [reflexivity|].
  intros t Hin Hrem Hget.
  assert (Hafter : truthy_opt
            (JsMap.get
               (filter (fun e => negb (toCancel tasks (fst e)))
                  (notificationMap st))
               (id t)) = false).
  { rewrite (JsMapFacts.get_filter (fun k => negb (toCancel tasks k))).
    destruct (negb (toCancel tasks (id t))); [exact Hget | reflexivity]. }
  split; [exact Hafter|]. intros w'.
  destruct (schedule_if_new_new t
              (mkState w'
                 (filter (fun e => negb (toCancel tasks (fst e)))
                    (notificationMap st)))
              Hrem Hafter)
    as (rt & Hrt & Heq).
  exists rt. split; [exact Hrt|]. rewrite Heq. unfold calls_of.
  destruct (scheduleTaskReminder _ _ _ _) as [[[[h|]|] st1] cs]; reflexivity.
Qed.

(** A task that is without reminder, or holds an identifier when the loop
    starts, could as well not be in the list. *)
Lemma first_loop_without (pre post : list Task) (t : Task)
    (st : State World) :
  hasReminder t = false
  \/ truthy_opt (JsMap.get (notificationMap st) (id t)) = true ->
  for_of (pre ++ t :: post) schedule_if_new st
  = for_of (pre ++ post) schedule_if_new st.
Proof.
  intros Hskip. rewrite !for_of_app.
  destruct (first_loop_run pre st)
    as (w1 & m1 & c1 & -> & _ & Hkeep & _).
  simpl for_of. unfold bind. rewrite schedule_if_new_skip.
  - destruct (for_of post schedule_if_new (mkState w1 m1)) as [[r st2] c2].
    reflexivity.
  - destruct Hskip as [H|H]; [auto|]. right. simpl.
    rewrite Hkeep; exact H.
Qed.

(** A pass depends on the tasks through its first loop and through the
    decision which entries to cancel. *)
Lemma syncNotifications_ext (tasks tasks' : list Task) (st : State World) :
  for_of tasks schedule_if_new st = for_of tasks' schedule_if_new st ->
  (forall k, toCancel tasks k = toCancel tasks' k) ->
  syncNotifications tasks st = syncNotifications tasks' st.
Proof.
  intros Hloop Hcan.
  assert (Hrest : forall st1,
            (ids <- notificationIdsToCancel tasks ;; for_of ids cancelReminder)
              st1
            = (ids <- notificationIdsToCancel tasks' ;;
               for_of ids cancelReminder) st1).
  { intros st1. unfold bind, notificationIdsToCancel.
    rewrite !collect_cancellations_entries.
    rewrite (filter_ext (fun e => toCancel tasks (fst e))
               (fun e => toCancel tasks' (fst e)))
      by (intros e; apply Hcan).
    rewrite (filter_ext (fun e => negb (toCancel tasks (fst e)))
               (fun e => negb (toCancel tasks' (fst e))))
      by (intros e; rewrite Hcan; reflexivity).
    reflexivity. }
  unfold syncNotifications, try_catch.
  set (rest := ids <- notificationIdsToCancel tasks ;;
               for_of ids cancelReminder) in *.
  set (rest' := ids <- notificationIdsToCancel tasks' ;;
                for_of ids cancelReminder) in *.
  unfold bind. rewrite Hloop.
  destruct (for_of tasks' schedule_if_new st) as [[[u|] st1] c1];
    [|reflexivity].
  rewrite Hrest. reflexivity.
Qed.

(** C7.  A task [t] with a reminder whose identifier [h] is in the map,
    and the same task with [reminderEnabled] false, [t_off] (whatever
    became of its reminder time): with identifiers distinct, the pass over
    the tasks with [t_off] in the place of [t] is the very pass over the
    tasks without [t] (same calls, same final state); it requests the
    cancellation of [h] and removes [t]'s entry; the entry of every other
    key is what the pass leaves with [t] untouched, and an entry that holds
    an identifier for another task with a reminder is kept as it is. *)
Theorem disabling_is_deleting
    (pre post : list Task) (t t_off : Task) (h : string)
    (st : State World) :
  NoDup (map id (pre ++ t :: post)) ->
  hasReminder t = true ->
  id t_off = id t ->
  reminderEnabled t_off = false ->
  JsMap.get (notificationMap st) (id t) = Some h ->
  truthy h = true ->
  syncNotifications (pre ++ t_off :: post) st
  = syncNotifications (pre ++ post) st
  /\ In h (cancel_requests
             (calls_of (syncNotifications (pre ++ t_off :: post) st)))
  /\ JsMap.get (ledger_of (syncNotifications (pre ++ t_off :: post) st))
       (id t)
     = None
  /\ (forall k, k <> id t ->
      JsMap.get (ledger_of (syncNotifications (pre ++ t_off :: post) st)) k
      = JsMap.get (ledger_of (syncNotifications (pre ++ t :: post) st)) k)
  /\ (forall k v, k <> id t ->
      JsMap.get (notificationMap st) k = Some v -> truthy v = true ->
      toCancel (pre ++ t :: post) k = false ->
      JsMap.get (ledger_of (syncNotifications (pre ++ t_off :: post) st)) k
      = Some v).
Proof.
  intros Hnd Hrem Hid Hoff Hget Hh.
  assert (Hrem_off : hasReminder t_off = false)
    by (unfold hasReminder; rewrite Hoff; reflexivity).
  destruct (NoDup_ids_split _ _ _ Hnd) as (Hpre & Hpost & Hnd').
  assert (Hloop_off : for_of (pre ++ t_off :: post) schedule_if_new st
                      = for_of (pre ++ post) schedule_if_new st).
  { apply first_loop_without. left. exact Hrem_off. }
  assert (Hloop_on : for_of (pre ++ t :: post) schedule_if_new st
                     = for_of (pre ++ post) schedule_if_new st).
  { apply first_loop_without. right. rewrite Hget. exact Hh. }
  assert (Hoff_t : toCancel (pre ++ t_off :: post) (id t) = true).
  { rewrite toCancel_around, (find_task_absent _ _ Hpre), Hid.
    rewrite String.eqb_refl, Hrem_off. reflexivity. }
  assert (Hoff_other : forall k, k <> id t ->
            toCancel (pre ++ t_off :: post) k
            = toCancel (pre ++ t :: post) k).
  { intros k Hk. rewrite !toCancel_around, Hid.
    destruct (find_task pre k); [reflexivity|].
    destruct (String.eqb_spec (id t) k); [congruence | reflexivity]. }
  destruct (syncNotifications_facts (pre ++ t_off :: post) st)
    as (w1 & m1 & c1 & Hrun_off & _ & Hled_off & _ & _ & Hcan_off & _).
  destruct (syncNotifications_facts (pre ++ t :: post) st)
    as (w1' & m1' & c1' & Hrun_on & _ & Hled_on & _).
  rewrite Hloop_off in Hrun_off. rewrite Hloop_on, Hrun_off in Hrun_on.
  inversion Hrun_on; subst w1' m1' c1'. clear Hrun_on.
  destruct (first_loop_run (pre ++ post) st)
    as (w0 & m0 & c0 & Hrun0 & _ & Hkeep & _).
  rewrite Hrun_off in Hrun0. inversion Hrun0; subst w0 m0 c0. clear Hrun0.
  assert (Hget1 : JsMap.get m1 (id t) = Some h).
  { rewrite Hkeep; [exact Hget | rewrite Hget; exact Hh]. }
  split; [|split; [|split; [|split]]].
  - apply syncNotifications_ext; [exact Hloop_off|].
    intros k. rewrite toCancel_around, toCancel_app, Hid.
    destruct (find_task pre k); [reflexivity|].
    destruct (String.eqb_spec (id t) k) as [<-|Hk]; [|reflexivity].
    rewrite (toCancel_absent _ _ Hpost), Hrem_off. reflexivity.
  - rewrite Hcan_off.
    apply in_map_iff. exists (id t, h). split; [reflexivity|].
    apply filter_In. split; [apply JsMapFacts.get_in; exact Hget1|].
    exact Hoff_t.
  - rewrite Hled_off.
    rewrite (JsMapFacts.get_filter
               (fun k => negb (toCancel (pre ++ t_off :: post) k))).
    rewrite Hoff_t. reflexivity.
  - intros k Hk. rewrite Hled_off, Hled_on.
    rewrite (JsMapFacts.get_filter
               (fun k => negb (toCancel (pre ++ t_off :: post) k))).
    rewrite (JsMapFacts.get_filter
               (fun k => negb (toCancel (pre ++ t :: post) k))).
    rewrite (Hoff_other k Hk). reflexivity.
  - intros k v Hk Hgetk Hv Hlive. rewrite Hled_off.
    rewrite (JsMapFacts.get_filter
               (fun k => negb (toCancel (pre ++ t_off :: post) k))).
    rewrite (Hoff_other k Hk), Hlive. simpl.
    rewrite Hkeep; [exact Hgetk | rewrite Hgetk; exact Hv].
Qed.

(** C8.  A task [t] with a reminder whose identifier [h] is in the map (and
    in no other entry), identifiers distinct: the pass hands no request for
    [t] to the scheduler, does not request the cancellation of [h], and
    leaves [t]'s entry as it is.  The reminder time plays no part: the pass
    over the tasks with [t] given any other reminder time is the same
    pass. *)
Theorem scheduled_task_left_alone
    (pre post : list Task) (t : Task) (h : string) (st : State World) :
  NoDup (map id (pre ++ t :: post)) ->
  hasReminder t = true ->
  JsMap.get (notificationMap st) (id t) = Some h ->
  truthy h = true ->
  (forall k v, In (k, v) (notificationMap st) -> v = h -> k = id t) ->
  requests_of (id t)
    (schedule_requests
       (calls_of (syncNotifications (pre ++ t :: post) st))) = []
  /\ ~ In h (cancel_requests
               (calls_of (syncNotifications (pre ++ t :: post) st)))
  /\ JsMap.get (ledger_of (syncNotifications (pre ++ t :: post) st)) (id t)
     = Some h
  /\ (forall reminderTime_, truthy reminderTime_ = true ->
      syncNotifications (pre ++ retime t reminderTime_ :: post) st
      = syncNotifications (pre ++ t :: post) st).
Proof.
  intros Hnd Hrem Hget Hh Honly.
  assert (Hin : In t (pre ++ t :: post)) by (apply in_or_app; simpl; auto).
  pose proof (toCancel_active _ _ Hnd Hin Hrem) as Hlive.
  destruct (syncNotifications_facts (pre ++ t :: post) st)
    as (w1 & m1 & c1 & Hrun & _ & Hled & Hreq & _ & _ & _).
  destruct (first_loop_run (pre ++ t :: post) st)
    as (w0 & m0 & c0 & Hrun0 & _ & Hkeep & Hfor & _).
  rewrite Hrun in Hrun0. inversion Hrun0; subst w0 m0 c0. clear Hrun0.
  split; [|split; [|split]].
  - rewrite Hreq. unfold requests_of.
    destruct (filter _ (schedule_requests c1)) as [|req l] eqn:E;
      [reflexivity|].
    assert (Hreq_in : In req (filter
              (fun req => String.eqb (data_taskId req) (id t))
              (schedule_requests c1))) by (rewrite E; simpl; auto).
    apply filter_In in Hreq_in. destruct Hreq_in as (Hin_req & Hid).
    apply String.eqb_eq in Hid.
    destruct (Hfor req Hin_req) as (u & _ & _ & Hu & Hnone).
    rewrite <- Hu, Hid, Hget in Hnone. simpl in Hnone. congruence.
  - rewrite (syncNotifications_cancels _ _ Hnd). intros Hcancel.
    apply in_map_iff in Hcancel. destruct Hcancel as ([k v] & Hv & Hf).
    simpl in Hv. subst v. apply filter_In in Hf. destruct Hf as (Hkv & Hstale).
    simpl in Hstale. rewrite (Honly k h Hkv eq_refl) in Hstale. congruence.
  - rewrite Hled.
    rewrite (JsMapFacts.get_filter
               (fun k => negb (toCancel (pre ++ t :: post) k))).
    rewrite Hlive. simpl. rewrite Hkeep; [exact Hget | rewrite Hget; exact Hh].
  - intros rt' Hrt'. apply syncNotifications_ext.
    + rewrite !first_loop_without; [reflexivity | |];
        right; simpl; rewrite Hget; exact Hh.
    + intros k. rewrite !toCancel_around. simpl id.
      destruct (find_task pre k); [reflexivity|].
      destruct (String.eqb (id t) k); [|reflexivity].
      rewrite Hrem. unfold hasReminder in *. simpl.
      apply andb_true_iff in Hrem. destruct Hrem as (-> & _).
      rewrite Hrt'. reflexivity.
Qed.

(** ** A task the pass schedules *)

Lemma find_task_some (tasks : list Task) (k : string) (u : Task) :
  find_task tasks k = Some u -> In u tasks /\ id u = k.
Proof.
  unfold find_task. intros H. apply find_some in H.
  destruct H as (Hin & Heq). apply String.eqb_eq in Heq. auto.
Qed.

Lemma requests_of_app (k : string) (a b : list NotificationRequestInput) :
  requests_of k (a ++ b) = requests_of k a ++ requests_of k b.
Proof. apply filter_app. Qed.

Lemma requests_of_none (k : string) (l : list NotificationRequestInput) :
  (forall req, In req l -> data_taskId req <> k) -> requests_of k l = [].
Proof.
  unfold requests_of. induction l as [|req l IH]; intros H; simpl;
    [reflexivity|].
  destruct (String.eqb_spec (data_taskId req) k) as [Heq|Hne].
  - exfalso. apply (H req); simpl; auto.
  - apply IH. intros; apply H; simpl; auto.
Qed.

Lemma requests_of_all (k : string) (l : list NotificationRequestInput) :
  (forall req, In req l -> data_taskId req = k) -> requests_of k l = l.
Proof.
  unfold requests_of. induction l as [|req l IH]; intros H; simpl;
    [reflexivity|].
  rewrite (H req) by (simpl; auto). rewrite String.eqb_refl.
  rewrite IH by (intros; apply H; simpl; auto). reflexivity.
Qed.

(** On a platform that always grants permission and whose scheduler
    accepts every request with a non-empty identifier, a task with a
    reminder after every reading of the clock and without identifier in
    the map is scheduled by the pass: the requests the pass hands over for
    it are those of [desiredRequests], and its entry becomes the identifier
    returned for the main one. *)
Lemma new_task_scheduled
    (pre post : list Task) (t : Task) (reminderTime_ : string)
    (st : State World) :
  NoDup (map id (pre ++ t :: post)) ->
  hasReminder t = true ->
  reminderTime t = Some reminderTime_ ->
  truthy_opt (JsMap.get (notificationMap st) (id t)) = false ->
  (forall w, fst (getPermissionsAsync w) = Val granted) ->
  (forall req w, exists h,
      fst (scheduleNotificationAsync req w) = Val h /\ truthy h = true) ->
  (forall w,
      JsNumber.leb (Date_parse reminderTime_) (Num (fst (Date_now w)))
      = false) ->
  exists now h,
    requests_of (id t)
      (schedule_requests
         (calls_of (syncNotifications (pre ++ t :: post) st)))
    = desiredRequests (id t) (title t)
        (JsNumber.floor_div
           (JsNumber.sub (Date_parse reminderTime_) (Num now)) 1000)
    /\ In (CallSchedule
             (mainRequest (id t) (title t)
                (JsNumber.floor_div
                   (JsNumber.sub (Date_parse reminderTime_) (Num now)) 1000))
             (Val h))
          (calls_of (syncNotifications (pre ++ t :: post) st))
    /\ truthy h = true
    /\ JsMap.get (ledger_of (syncNotifications (pre ++ t :: post) st)) (id t)
       = Some h.
Proof.
  intros Hnd Hrem Hrt Hnew Hgranted Haccept Hfuture.
  destruct (NoDup_ids_split _ _ _ Hnd) as (Hpre & Hpost & _).
  assert (Hin : In t (pre ++ t :: post)) by (apply in_or_app; simpl; auto).
  pose proof (toCancel_active _ _ Hnd Hin Hrem) as Hlive.
  destruct (syncNotifications_facts (pre ++ t :: post) st)
    as (w1 & m1 & c1 & Hrun & _ & Hled & Hreq & _ & _ & Hcalls).
  rewrite for_of_app in Hrun.
  (* the tasks before [t] *)
  destruct (first_loop_run pre st)
    as (wa & ma & ca & Hrun_a & _ & _ & Hfor_a & Hnew_a & _).
  rewrite Hrun_a in Hrun.
  assert (Hget_a : truthy_opt (JsMap.get ma (id t)) = false).
  { destruct (Hnew_a (id t)) as [->|(u & h & Hu & _ & Hid & _)]; [exact Hnew|].
    exfalso. apply Hpre. rewrite <- Hid. apply in_map. exact Hu. }
  (* the turn of [t] *)
  simpl for_of in Hrun. unfold bind at 1 in Hrun.
  destruct (schedule_if_new_new t (mkState wa ma) Hrem Hget_a)
    as (rt & Hrt' & Hturn).
  rewrite Hrt in Hrt'. inversion Hrt'; subst rt. clear Hrt'.
  rewrite Hturn in Hrun. clear Hturn.
  destruct (getPermissionsAsync wa) as [r wp] eqn:Hperm.
  pose proof (Hgranted wa) as Hg. rewrite Hperm in Hg. simpl in Hg. subst r.
  destruct (Date_now wp) as [now wn] eqn:Hnow.
  pose proof (Hfuture wp) as Hle. rewrite Hnow in Hle. simpl in Hle.
  destruct (scheduleTaskReminder_after (id t) (title t) reminderTime_
              (mkState wa ma) _ _ _ Hperm Hnow Hle)
    as (res & w3 & cs & b & Hsched & Hatt & _ & Hsome & Hfrom).
  rewrite Hsched in Hrun. clear Hsched.
  assert (Hb : b = true).
  { destruct b; [reflexivity|].
    destruct (attempted_not_completed _ _ Hatt) as (pre' & req & ->).
    destruct (Hfrom req Threw) as (w & Hw); [apply in_or_app; simpl; auto|].
    destruct (Haccept req w) as (h & Hh & _). congruence. }
  subst b. destruct (Hsome eq_refl) as (h & -> & Hmain).
  assert (Hh : truthy h = true).
  { destruct (Hfrom _ _ Hmain) as (w & Hw).
    destruct (Haccept (mainRequest (id t) (title t)
                (JsNumber.floor_div
                   (JsNumber.sub (Date_parse reminderTime_) (Num now)) 1000)) w)
      as (h' & Hh' & Htr).
    rewrite Hh' in Hw. inversion Hw; subst. exact Htr. }
  rewrite Hh in Hrun. simpl world in Hrun. simpl notificationMap in Hrun.
  (* the tasks after [t] *)
  destruct (first_loop_run post (mkState w3 (JsMap.set ma (id t) h)))
    as (wc & mc & cc & Hrun_c & _ & Hkeep_c & Hfor_c & _).
  rewrite Hrun_c in Hrun. inversion Hrun; subst w1 m1 c1. clear Hrun.
  simpl notificationMap in *.
  exists now, h. split; [|split; [|split]].
  - rewrite Hreq, schedule_requests_app. simpl schedule_requests.
    rewrite schedule_requests_app, !requests_of_app.
    rewrite (@requests_of_none (id t) (schedule_requests ca)).
    + rewrite (@requests_of_none (id t) (schedule_requests cc)).
      * rewrite (attempted_completed_requests _ _ Hatt), app_nil_r. simpl.
        apply requests_of_all. intros req Hr.
        eapply desiredRequests_taskId; eauto.
      * intros req Hr Heq. destruct (Hfor_c req Hr) as (u & Hu & _ & Hid & _).
        apply Hpost. rewrite <- Heq, Hid. apply in_map. exact Hu.
    + intros req Hr Heq. destruct (Hfor_a req Hr) as (u & Hu & _ & Hid & _).
      apply Hpre. rewrite <- Heq, Hid. apply in_map. exact Hu.
  - apply Hcalls. apply in_or_app. right. simpl. right.
    apply in_or_app. left. exact Hmain.
  - exact Hh.
  - rewrite Hled.
    rewrite (JsMapFacts.get_filter
               (fun k => negb (toCancel (pre ++ t :: post) k))).
    rewrite Hlive. simpl.
    rewrite Hkeep_c; rewrite JsMapFacts.get_set_same; [reflexivity|exact Hh].
Qed.

(** ** Well-formed maps stay well-formed *)

Lemma in_keys_set (m : JsMap.t) (k v k' : string) :
  In k' (JsMap.keys (JsMap.set m k v)) <-> In k' (JsMap.keys m) \/ k' = k.
Proof.
  unfold JsMap.keys. induction m as [|[k0 v0] m IH]; simpl.
  - split; intros [H|H]; auto; contradiction.
  - destruct (String.eqb_spec k k0) as [->|Hne]; simpl.
    + split; [tauto | intros [H|H]; auto].
    + rewrite IH. tauto.
Qed.

Lemma wf_set (m : JsMap.t) (k v : string) :
  JsMap.wf m -> JsMap.wf (JsMap.set m k v).
Proof.
  unfold JsMap.wf. induction m as [|[k0 v0] m IH]; simpl; intros Hwf.
  - repeat constructor. intros [].
  - destruct (String.eqb_spec k k0) as [->|Hne]; simpl; [exact Hwf|].
    inversion Hwf as [|? ? Hnot Hwf']; subst.
    constructor; [|apply IH; exact Hwf'].
    intros Hin. apply (in_keys_set m k v k0) in Hin.
    destruct Hin as [Hin|Heq]; [apply Hnot; exact Hin | congruence].
Qed.

Lemma wf_filter (f : string * string -> bool) (m : JsMap.t) :
  JsMap.wf m -> JsMap.wf (filter f m).
Proof.
  unfold JsMap.wf, JsMap.keys.
  induction m as [|e m IH]; simpl; intros Hwf; [exact Hwf|].
  inversion Hwf as [|? ? Hnot Hwf']; subst.
  destruct (f e); simpl; [|auto].
  constructor; [|auto].
  intros Hin. apply Hnot. apply in_map_iff in Hin.
  destruct Hin as (e' & He & Hf). apply filter_In in Hf.
  rewrite <- He. apply in_map. tauto.
Qed.

Lemma first_loop_wf (tasks : list Task) (st : State World) :
  JsMap.wf (notificationMap st) ->
  JsMap.wf (ledger_of (for_of tasks schedule_if_new st)).
Proof.
  revert st. induction tasks as [|t tasks IH]; intros st Hwf.
  - exact Hwf.
  - simpl for_of. unfold bind, ledger_of, state_of.
    destruct (schedule_if_new_run t st) as (w1 & m1 & c1 & -> & _ & _ & Hm1).
    assert (Hwf1 : JsMap.wf m1).
    { destruct Hm1 as [->|(_ & _ & h & _ & _ & ->)];
        [exact Hwf | apply wf_set; exact Hwf]. }
    specialize (IH (mkState w1 m1) Hwf1).
    unfold ledger_of, state_of in IH.
    destruct (for_of tasks schedule_if_new (mkState w1 m1)) as [[r st2] c2].
    exact IH.
Qed.

Lemma syncNotifications_wf (tasks : list Task) (st : State World) :
  JsMap.wf (notificationMap st) ->
  JsMap.wf (ledger_of (syncNotifications tasks st)).
Proof.
  intros Hwf.
  destruct (syncNotifications_facts tasks st)
    as (w1 & m1 & c1 & Hrun & _ & -> & _).
  apply wf_filter. pose proof (first_loop_wf tasks st Hwf) as H.
  unfold ledger_of, state_of in H. rewrite Hrun in H. exact H.
Qed.

(** In a well-formed map, the entries at a key are the one [get] finds. *)
Lemma filter_key (m : JsMap.t) (k v : string) :
  JsMap.wf m -> JsMap.get m k = Some v ->
  filter (fun e => String.eqb k (fst e)) m = [(k, v)].
Proof.
  unfold JsMap.wf, JsMap.keys.
  induction m as [|[k0 v0] m IH]; simpl; intros Hwf Hget; [discriminate|].
  inversion Hwf as [|? ? Hnot Hwf']; subst.
  destruct (String.eqb_spec k k0) as [->|Hne].
  - inversion Hget; subst. f_equal.
    rewrite <- (filter_false m). apply filter_ext_in.
    intros [k1 v1] Hin. simpl.
    destruct (String.eqb_spec k0 k1) as [->|]; [|reflexivity].
    exfalso. apply Hnot. apply (in_map fst) in Hin. exact Hin.
  - auto.
Qed.

(** The identifier a pass records for a new task, and what is cancelled
    when the task is gone.  On a platform that always grants permission
    and whose scheduler accepts every request with a non-empty identifier,
    take a task [t] with a reminder after every reading of the clock and no
    entry in the (well-formed) map, among tasks with distinct identifiers.
    One pass hands every request of [desiredRequests] for [t] to the
    scheduler and records, of the identifiers returned for them, the one of
    the main request only.  The next pass, over the tasks without [t] and
    from any state of the platform, requests exactly one cancellation, of
    that identifier, and removes the entry. *)
Theorem new_task_records_main_identifier_only
    (pre post : list Task) (t : Task) (reminderTime_ : string)
    (st : State World) (w' : World) :
  NoDup (map id (pre ++ t :: post)) ->
  hasReminder t = true ->
  reminderTime t = Some reminderTime_ ->
  JsMap.get (notificationMap st) (id t) = None ->
  JsMap.wf (notificationMap st) ->
  (forall w, fst (getPermissionsAsync w) = Val granted) ->
  (forall req w, exists h,
      fst (scheduleNotificationAsync req w) = Val h /\ truthy h = true) ->
  (forall w,
      JsNumber.leb (Date_parse reminderTime_) (Num (fst (Date_now w)))
      = false) ->
  exists now h,
    requests_of (id t)
      (schedule_requests
         (calls_of (syncNotifications (pre ++ t :: post) st)))
    = desiredRequests (id t) (title t)
        (JsNumber.floor_div
           (JsNumber.sub (Date_parse reminderTime_) (Num now)) 1000)
    /\ In (CallSchedule
             (mainRequest (id t) (title t)
                (JsNumber.floor_div
                   (JsNumber.sub (Date_parse reminderTime_) (Num now)) 1000))
             (Val h))
          (calls_of (syncNotifications (pre ++ t :: post) st))
    /\ JsMap.get (ledger_of (syncNotifications (pre ++ t :: post) st)) (id t)
       = Some h
    /\ cancel_requests
         (calls_of
            (syncNotifications (pre ++ post)
               (mkState w'
                  (ledger_of (syncNotifications (pre ++ t :: post) st)))))
       = [h]
    /\ JsMap.get
         (ledger_of
            (syncNotifications (pre ++ post)
               (mkState w'
                  (ledger_of (syncNotifications (pre ++ t :: post) st)))))
         (id t)
       = None.
Proof.
  intros Hnd Hrem Hrt Hnone Hwf Hgranted Haccept Hfuture.
  assert (Hnew : truthy_opt (JsMap.get (notificationMap st) (id t)) = false)
    by (rewrite Hnone; reflexivity).
  destruct (new_task_scheduled pre post t reminderTime_ st
              Hnd Hrem Hrt Hnew Hgranted Haccept Hfuture)
    as (now & h & Hreqs & Hmain & Hh & Hget).
  exists now, h. split; [exact Hreqs|]. split; [exact Hmain|].
  split; [exact Hget|].
  destruct (NoDup_ids_split _ _ _ Hnd) as (Hpre & Hpost & Hnd').
  set (ledger := ledger_of (syncNotifications (pre ++ t :: post) st)) in *.
  assert (Hgone : toCancel (pre ++ post) (id t) = true).
  { apply toCancel_absent. rewrite map_app. intros Hin.
    apply in_app_or in Hin. tauto. }
  split.
  - rewrite (syncNotifications_cancels _ _ Hnd'). simpl notificationMap.
    assert (Hwf1 : JsMap.wf ledger) by (apply syncNotifications_wf; exact Hwf).
    rewrite (@filter_ext_in _ (fun e => toCancel (pre ++ post) (fst e))
               (fun e => String.eqb (id t) (fst e))).
    + rewrite (filter_key ledger (id t) h Hwf1 Hget). reflexivity.
    + intros [k v] Hin. simpl.
      assert (Hlive : toCancel (pre ++ t :: post) k = false).
      { unfold ledger in Hin.
        destruct (syncNotifications_facts (pre ++ t :: post) st)
          as (w1 & m1 & c1 & _ & _ & Hled & _).
        rewrite Hled in Hin. apply filter_In in Hin. simpl in Hin.
        destruct Hin as (_ & Hin). apply negb_true_iff in Hin. exact Hin. }
      rewrite toCancel_around in Hlive. rewrite toCancel_app.
      destruct (find_task pre k) as [u|] eqn:Hfind.
      * rewrite Hlive. symmetry. apply String.eqb_neq. intros Heq.
        apply find_task_some in Hfind. destruct Hfind as (Hu & Hid).
        apply Hpre. rewrite Heq, <- Hid. apply in_map. exact Hu.
      * destruct (String.eqb_spec (id t) k) as [<-|Hne].
        -- apply toCancel_absent. exact Hpost.
        -- exact Hlive.
  - destruct (syncNotifications_facts (pre ++ post) (mkState w' ledger))
      as (w1 & m1 & c1 & _ & _ & Hled & _).
    rewrite Hled.
    rewrite (JsMapFacts.get_filter
               (fun k => negb (toCancel (pre ++ post) k))).
    rewrite Hgone. reflexivity.
Qed.


End Facts.

(** * The claims on the example platforms *)

(** C1 on the fresh device: the dentist reminder is exactly 25 hours
    away. *)
Lemma lead_25h_nine_requests_witness :
  getPermissionsAsync (world (Device.start Device.fresh))
  = (Val granted, Device.fresh)
  /\ Date_now Device.fresh = (1705239000000, Device.fresh)
  /\ Date_parse "2024-01-15T14:30:00.000Z" = Num 1705329000000
  /\ 1705329000000 - 1705239000000 = 25 * 3600 * 1000
  /\ existsb threw
       (calls_of
          (scheduleTaskReminder "a1" "Dentist" "2024-01-15T14:30:00.000Z"
             (Device.start Device.fresh)))
     = false
  /\ schedule_requests
       (calls_of
          (scheduleTaskReminder "a1" "Dentist" "2024-01-15T14:30:00.000Z"
             (Device.start Device.fresh)))
     = desiredRequests "a1" "Dentist" (Num 90000).
Proof.
  do 5 (split; [reflexivity|]).
  exact (lead_25h_nine_requests "a1" "Dentist" "2024-01-15T14:30:00.000Z"
           (Device.start Device.fresh) Device.fresh Device.fresh
           1705239000000 1705329000000
           eq_refl eq_refl eq_refl eq_refl eq_refl).
Defined.

(** C3 on the fresh device: the tax return was due in the morning. *)
Lemma reminder_not_after_now_no_request_witness :
  Date_parse "2024-01-14T09:00:00.000Z" = Num 1705222800000
  /\ 1705222800000
     <= fst (Date_now
               (snd (getPermissionsAsync (world (Device.start Device.fresh)))))
  /\ schedule_requests
       (calls_of
          (scheduleTaskReminder "d4" "Tax return" "2024-01-14T09:00:00.000Z"
             (Device.start Device.fresh)))
     = [].
Proof.
  assert (H1 : Date_parse "2024-01-14T09:00:00.000Z" = Num 1705222800000)
    by reflexivity.
  assert (H2 : 1705222800000
               <= fst (Date_now
                         (snd (getPermissionsAsync
                                 (world (Device.start Device.fresh))))))
    by (vm_compute; discriminate).
  split; [exact H1|]. split; [exact H2|].
  exact (proj1 (proj2
    (reminder_not_after_now_no_request "d4" "Tax return"
       "2024-01-14T09:00:00.000Z" (Device.start Device.fresh) 1705222800000 H1 H2))).
Defined.

(** C6 (every request handed to the scheduler has a positive number of
    seconds, a request whose seconds are zero or less being dropped) does
    not hold of the code.  A reminder half a second after the clock passes
    the test on the instants, its whole seconds are 0, and the main request
    is handed to the scheduler, and accepted, with 0 seconds. *)
Theorem subsecond_lead_scheduled_at_zero :
  schedule_requests
    (calls_of
       (scheduleTaskReminder "c3" "Stand-up" "2024-01-14T13:30:00.500Z"
          (Device.start Device.fresh)))
  = mainRequest "c3" "Stand-up" (Num 0)
    :: map (followUpRequest "c3" "Stand-up" (Num 0)) followUpIntervals
  /\ In ("ntf-0", mainRequest "c3" "Stand-up" (Num 0))
       (Device.pending
          (world
             (state_of
                (scheduleTaskReminder "c3" "Stand-up"
                   "2024-01-14T13:30:00.500Z" (Device.start Device.fresh)))))
  /\ trigger_seconds (mainRequest "c3" "Stand-up" (Num 0)) = Num 0.
Proof.
  split; [reflexivity|]. split; [|reflexivity].
  vm_compute. left. reflexivity.
Qed.

(** An invalid date string passes the same test ([NaN <= now] is false):
    every request is handed over with [NaN] seconds. *)
Example invalid_date_scheduled_at_NaN :
  map trigger_seconds
    (schedule_requests
       (calls_of
          (scheduleTaskReminder "e5" "Call back" "tomorrow"
             (Device.start Device.fresh))))
  = [NaN; NaN; NaN; NaN; NaN; NaN].
Proof. reflexivity. Qed.

(** C2 (every identifier the scheduler returned for a task is recorded,
    and each is cancelled when the task is gone) does not hold of the
    code, which is to cancel the notifications of a deleted task.  On the
    fresh device the scheduler returns nine identifiers for the dentist
    task; the map records [ntf-3], the one of the main request, alone.
    When the task is deleted, the next pass requests the cancellation of
    [ntf-3] only, and the eight other notifications stay scheduled. *)
Lemma returned_identifiers_not_all_recorded :
  returned_handles (calls_of dentist_pass)
  = ["ntf-0"; "ntf-1"; "ntf-2"; "ntf-3"; "ntf-4"; "ntf-5"; "ntf-6"; "ntf-7";
     "ntf-8"]
  /\ ledger_of dentist_pass = [("a1", "ntf-3")]
  /\ cancel_requests (calls_of dentist_deleted_pass) = ["ntf-3"]
  /\ ledger_of dentist_deleted_pass = []
  /\ map fst (Device.pending (world (state_of dentist_deleted_pass)))
     = ["ntf-0"; "ntf-1"; "ntf-2"; "ntf-4"; "ntf-5"; "ntf-6"; "ntf-7";
        "ntf-8"]
  /\ ~ (forall h, In h (returned_handles (calls_of dentist_pass)) ->
        In h (map snd (ledger_of dentist_pass))
        /\ In h (cancel_requests (calls_of dentist_deleted_pass))).
Proof.
  do 5 (split; [vm_compute; reflexivity|]).
  intros H. destruct (H "ntf-0") as (_ & Hin).
  - vm_compute. left. reflexivity.
  - vm_compute in Hin. destruct Hin as [Hin|[]]. discriminate Hin.
Qed.

(** The same on the cooperating platform, for the groceries task next to
    the dentist task. *)
Lemma new_task_records_main_identifier_only_witness :
  NoDup (map id ([dentist] ++ groceries :: []))
  /\ hasReminder groceries = true
  /\ reminderTime groceries = Some "2024-01-14T16:30:00.000Z"
  /\ JsMap.get (notificationMap Steady.start) (id groceries) = None
  /\ JsMap.wf (notificationMap Steady.start)
  /\ (forall w : nat, fst (getPermissionsAsync w) = Val granted)
  /\ (forall req (w : nat), exists h,
        fst (scheduleNotificationAsync req w) = Val h /\ truthy h = true)
  /\ (forall w : nat,
        JsNumber.leb (Date_parse "2024-01-14T16:30:00.000Z")
          (Num (fst (Date_now w))) = false)
  /\ exists h,
       JsMap.get
         (ledger_of
            (syncNotifications ([dentist] ++ groceries :: []) Steady.start))
         (id groceries)
       = Some h
       /\ cancel_requests
            (calls_of
               (syncNotifications ([dentist] ++ [])
                  (mkState 15%nat
                     (ledger_of
                        (syncNotifications ([dentist] ++ groceries :: [])
                           Steady.start)))))
          = [h].
Proof.
  assert (H1 : NoDup (map id ([dentist] ++ groceries :: []))).
  { simpl. repeat constructor; simpl; intuition discriminate. }
  assert (H5 : JsMap.wf (notificationMap Steady.start)) by constructor.
  assert (H6 : forall w : nat, fst (getPermissionsAsync w) = Val granted)
    by reflexivity.
  assert (H7 : forall req (w : nat), exists h,
             fst (scheduleNotificationAsync req w) = Val h
             /\ truthy h = true).
  { intros req w. eexists. split; reflexivity. }
  assert (H8 : forall w : nat,
             JsNumber.leb (Date_parse "2024-01-14T16:30:00.000Z")
               (Num (fst (Date_now w))) = false) by reflexivity.
  split; [exact H1|]. do 3 (split; [vm_compute; reflexivity|]).
  split; [exact H5|]. split; [exact H6|]. split; [exact H7|].
  split; [exact H8|].
  destruct (new_task_records_main_identifier_only [dentist] [] groceries
              "2024-01-14T16:30:00.000Z" Steady.start 15%nat
              H1 eq_refl eq_refl eq_refl H5 H6 H7 H8)
    as (now & h & _ & _ & Hget & Hcancel & _).
  exists h. split; [exact Hget | exact Hcancel].
Defined.



(** C5 as stated fails on the same device: the first pass leaves no entry
    for the dentist task, and the second pass, over the same task and from
    the map the first one left, hands all nine requests to the scheduler. *)
Lemma second_pass_schedules_again :
  ledger_of dentist_failing_pass = []
  /\ List.length (schedule_requests (calls_of dentist_second_pass)) = 9%nat
  /\ ~ (schedule_requests (calls_of dentist_second_pass) = []
        /\ cancel_requests (calls_of dentist_second_pass) = []).
Proof.
  do 2 (split; [vm_compute; reflexivity|]).
  intros (H & _). vm_compute in H. discriminate H.
Qed.

(** C5 on the fresh device, where both tasks are recorded by the first
    pass. *)
Lemma second_pass_idle_when_all_recorded_witness :
  (forall t, In t [dentist; groceries] -> hasReminder t = true ->
     truthy_opt
       (JsMap.get
          (ledger_of
             (syncNotifications [dentist; groceries]
                (Device.start Device.fresh)))
          (id t))
     = true)
  /\ syncNotifications [dentist; groceries]
       (mkState Device.fresh
          (ledger_of
             (syncNotifications [dentist; groceries]
                (Device.start Device.fresh))))
     = (Val tt,
        mkState Device.fresh
          (ledger_of
             (syncNotifications [dentist; groceries]
                (Device.start Device.fresh))),
        []).
Proof.
  assert (H : forall t, In t [dentist; groceries] -> hasReminder t = true ->
            truthy_opt
              (JsMap.get
                 (ledger_of
                    (syncNotifications [dentist; groceries]
                       (Device.start Device.fresh)))
                 (id t))
            = true).
  { intros t [<-|[<-|[]]] _; vm_compute; reflexivity. }
  split; [exact H|].
  exact (second_pass_idle_when_all_recorded [dentist; groceries]
           (Device.start Device.fresh) Device.fresh H).
Defined.

(** C7 on the state the pass over both tasks leaves: the groceries
    reminder is switched off. *)
Lemma disabling_is_deleting_witness :
  NoDup (map id ([dentist] ++ groceries :: []))
  /\ hasReminder groceries = true
  /\ id (disable groceries) = id groceries
  /\ reminderEnabled (disable groceries) = false
  /\ JsMap.get (notificationMap (state_of two_tasks_pass)) (id groceries)
     = Some "ntf-9"
  /\ truthy "ntf-9" = true
  /\ syncNotifications ([dentist] ++ disable groceries :: [])
       (state_of two_tasks_pass)
     = syncNotifications ([dentist] ++ []) (state_of two_tasks_pass)
  /\ In "ntf-9"
       (cancel_requests
          (calls_of
             (syncNotifications ([dentist] ++ disable groceries :: [])
                (state_of two_tasks_pass))))
  /\ JsMap.get
       (ledger_of
          (syncNotifications ([dentist] ++ disable groceries :: [])
             (state_of two_tasks_pass)))
       (id groceries)
     = None.
Proof.
  assert (H1 : NoDup (map id ([dentist] ++ groceries :: []))).
  { simpl. repeat constructor; simpl; intuition discriminate. }
  assert (H5 : JsMap.get (notificationMap (state_of two_tasks_pass))
                 (id groceries) = Some "ntf-9")
    by (vm_compute; reflexivity).
  split; [exact H1|]. do 3 (split; [reflexivity|]).
  split; [exact H5|]. split; [reflexivity|].
  destruct (disabling_is_deleting [dentist] [] groceries (disable groceries)
              "ntf-9" (state_of two_tasks_pass)
              H1 eq_refl eq_refl eq_refl H5 eq_refl)
    as (Hsame & Hcancel & Hgone & _).
  split; [exact Hsame|]. split; [exact Hcancel | exact Hgone].
Defined.

(** C8 on the same state: the groceries task is left alone. *)
Lemma scheduled_task_left_alone_witness :
  NoDup (map id ([dentist] ++ groceries :: []))
  /\ hasReminder groceries = true
  /\ JsMap.get (notificationMap (state_of two_tasks_pass)) (id groceries)
     = Some "ntf-9"
  /\ truthy "ntf-9" = true
  /\ (forall k v, In (k, v) (notificationMap (state_of two_tasks_pass)) ->
      v = "ntf-9" -> k = id groceries)
  /\ requests_of (id groceries)
       (schedule_requests
          (calls_of
             (syncNotifications ([dentist] ++ groceries :: [])
                (state_of two_tasks_pass))))
     = []
  /\ JsMap.get
       (ledger_of
          (syncNotifications ([dentist] ++ groceries :: [])
             (state_of two_tasks_pass)))
       (id groceries)
     = Some "ntf-9".
Proof.
  assert (H1 : NoDup (map id ([dentist] ++ groceries :: []))).
  { simpl. repeat constructor; simpl; intuition discriminate. }
  assert (H5 : forall k v,
             In (k, v) (notificationMap (state_of two_tasks_pass)) ->
             v = "ntf-9" -> k = id groceries).
  { intros k v Hin Hv. vm_compute in Hin.
    destruct Hin as [Hin|[Hin|[]]]; inversion Hin as [[Hk Hv']].
    - rewrite <- Hv' in Hv. discriminate Hv.
    - reflexivity. }
  split; [exact H1|]. do 3 (split; [vm_compute; reflexivity|]). split; [exact H5|].
  destruct (scheduled_task_left_alone [dentist] [] groceries "ntf-9"
              (state_of two_tasks_pass) H1 eq_refl eq_refl eq_refl H5)
    as (Hnone & _ & Hkept & _).
  split; [exact Hnone | exact Hkept].
Defined.

(** C9 on the device without permission. *)
Lemma no_permission_no_schedule_no_entry_witness :
  (forall w : Device.t, Device.permission w = denied ->
     fst (getPermissionsAsync w) <> Val granted
     /\ Device.permission (snd (getPermissionsAsync w)) = denied)
  /\ Device.permission (world (Device.start Device.without_permission))
     = denied
  /\ schedule_requests
       (calls_of
          (syncNotifications [dentist; groceries]
             (Device.start Device.without_permission)))
     = []
  /\ ledger_of
       (syncNotifications [dentist; groceries]
          (Device.start Device.without_permission))
     = filter
         (fun e => negb (toCancel [dentist; groceries] (fst e)))
         (notificationMap (Device.start Device.without_permission)).
Proof.
  assert (H1 : forall w : Device.t, Device.permission w = denied ->
             fst (getPermissionsAsync w) <> Val granted
             /\ Device.permission (snd (getPermissionsAsync w)) = denied).
  { intros w Hw. simpl. rewrite Hw. split; [discriminate | reflexivity]. }
  split; [exact H1|]. split; [reflexivity|].
  destruct (no_permission_no_schedule_no_entry
              (fun w => Device.permission w = denied)
              [dentist; groceries] (Device.start Device.without_permission)
              H1 eq_refl)
    as (Hnone & Hledger & _).
  split; [exact Hnone | exact Hledger].
Defined.


(** ** More runs *)

(** Beside C6, in a pass: the stand-up reminder, half a second away, is
    handed over with 0 seconds and its identifier is recorded. *)
Example standup_pass_schedules_at_zero :
  map trigger_seconds
    (schedule_requests
       (calls_of (syncNotifications [standup] (Device.start Device.fresh))))
  = [Num 0; Num 120; Num 240; Num 360; Num 480; Num 600]
  /\ ledger_of (syncNotifications [standup] (Device.start Device.fresh))
     = [("c3", "ntf-0")].
Proof. split; vm_compute; reflexivity. Qed.

(** Beside C3, in a pass: nothing is scheduled or recorded for the overdue
    tax return. *)
Example overdue_pass_schedules_nothing :
  schedule_requests
    (calls_of (syncNotifications [overdue] (Device.start Device.fresh)))
  = []
  /\ ledger_of (syncNotifications [overdue] (Device.start Device.fresh))
     = [].
Proof. split; vm_compute; reflexivity. Qed.

(** Beside C10, on the device: after the map is cleared nothing is
    cancelled, the next pass schedules both tasks once more, and the
    device holds every notification twice. *)
Example clear_then_pass_duplicates :
  List.length (Device.pending (world (state_of two_tasks_pass))) = 15%nat
  /\ cancel_requests (calls_of two_tasks_pass_after_clear) = []
  /\ List.length (schedule_requests (calls_of two_tasks_pass_after_clear))
     = 15%nat
  /\ map snd (Device.pending (world (state_of two_tasks_pass_after_clear)))
     = map snd (Device.pending (world (state_of two_tasks_pass)))
       ++ map snd (Device.pending (world (state_of two_tasks_pass)))
  /\ ledger_of two_tasks_pass_after_clear = [("a1", "ntf-18"); ("b2", "ntf-24")].
Proof. repeat split; vm_compute; reflexivity. Qed.

(** * Further properties *)

Section MoreFacts.

Context {World : Type} {P : Platform World}.

(** ** The advance notifications *)

(** [hoursUntilReminder > n], for whole seconds. *)
Lemma gtQ_divQ_3600 (s n : Z) :
  JsNumber.gtQ (JsNumber.divQ (Num s) 3600) n = (n * 3600 <? s).
Proof.
  unfold JsNumber.gtQ, JsNumber.divQ, Qle_bool. simpl.
  rewrite Z.mul_1_r.
  destruct (Z.leb_spec (s * 1) (n * 3600)); destruct (Z.ltb_spec (n * 3600) s);
    simpl; try reflexivity; lia.
Qed.

(** The three [if]s of [advanceNotifications], for whole seconds. *)
Lemma advance_notifications_by_threshold_aux (taskTitle : string) (s : Z) :
  advanceNotifications taskTitle (Num s)
  = (if 24 * 3600 <? s then
       [mkAdvance (Num (s - 24 * 3600)) "📅 Upcoming Task Tomorrow"
          (taskTitle ++ " is scheduled for tomorrow")%string]
     else [])
    ++ (if 12 * 3600 <? s then
          [mkAdvance (Num (s - 12 * 3600)) "⏳ Task in 12 Hours"
             (taskTitle ++ " is coming up in 12 hours")%string]
        else [])
    ++ (if 6 * 3600 <? s then
          [mkAdvance (Num (s - 6 * 3600)) "⏰ Task in 6 Hours"
             (taskTitle ++ " is coming up in 6 hours")%string]
        else []).
Proof.
  unfold advanceNotifications. rewrite !gtQ_divQ_3600.
  cbn [JsNumber.sub JsNumber.gtb].
  destruct (Z.ltb_spec (24 * 3600) s) as [H24|H24];
    destruct (Z.ltb_spec (12 * 3600) s) as [H12|H12];
    destruct (Z.ltb_spec (6 * 3600) s) as [H6|H6];
    repeat match goal with
           | |- context [0 <? ?x] =>
               replace (0 <? x) with true by (symmetry; apply Z.ltb_lt; lia)
           end;
    reflexivity.
Qed.

(** X1.  For a reminder [s] whole seconds away, the advance notifications
    are those of the thresholds of 24, 12 and 6 hours that [s] strictly
    exceeds, each at [s] less its threshold; the inner test
    [advanceSeconds > 0] never drops one. *)
Theorem advance_notifications_by_threshold (taskTitle : string) (s : Z) :
  advanceNotifications taskTitle (Num s)
  = (if 24 * 3600 <? s then
       [mkAdvance (Num (s - 24 * 3600)) "📅 Upcoming Task Tomorrow"
          (taskTitle ++ " is scheduled for tomorrow")%string]
     else [])
    ++ (if 12 * 3600 <? s then
          [mkAdvance (Num (s - 12 * 3600)) "⏳ Task in 12 Hours"
             (taskTitle ++ " is coming up in 12 hours")%string]
        else [])
    ++ (if 6 * 3600 <? s then
          [mkAdvance (Num (s - 6 * 3600)) "⏰ Task in 6 Hours"
             (taskTitle ++ " is coming up in 6 hours")%string]
        else []).
Proof. apply advance_notifications_by_threshold_aux. Qed.


(** ** More about [scheduleTaskReminder] *)

Lemma attempted_length reqs cs b :
  attempted reqs cs b ->
  (List.length (schedule_requests cs) <= List.length reqs)%nat.
Proof. induction 1; simpl; lia. Qed.


(** With permission, a reminder after the clock and no call that threw,
    the requests handed over are those of [desiredRequests]. *)
Lemma scheduleTaskReminder_complete
    (taskId taskTitle reminderTime : string) (st : State World)
    (w1 w2 : World) (now : Z) :
  getPermissionsAsync (world st) = (Val granted, w1) ->
  Date_now w1 = (now, w2) ->
  JsNumber.leb (Date_parse reminderTime) (Num now) = false ->
  existsb threw
    (calls_of (scheduleTaskReminder taskId taskTitle reminderTime st))
  = false ->
  schedule_requests
    (calls_of (scheduleTaskReminder taskId taskTitle reminderTime st))
  = desiredRequests taskId taskTitle
      (JsNumber.floor_div
         (JsNumber.sub (Date_parse reminderTime) (Num now)) 1000).
Proof.
  intros Hperm Hnow Hle Hnothrow.
  destruct (scheduleTaskReminder_after taskId taskTitle _ _ _ _ _
              Hperm Hnow Hle)
    as (res & w3 & cs & b & Hrun & Hatt & _ & _ & _).
  unfold calls_of in *. rewrite Hrun in *. simpl snd in *.
  simpl existsb in Hnothrow. simpl schedule_requests.
  destruct b.
  - apply (attempted_completed_requests _ _ Hatt).
  - destruct (attempted_not_completed _ _ Hatt) as (pre & req & ->).
    rewrite existsb_app in Hnothrow. simpl in Hnothrow.
    rewrite orb_true_r in Hnothrow. discriminate.
Qed.

Lemma advance_tiers_length (taskTitle : string) (s : Z) :
  List.length (advanceNotifications taskTitle (Num s))
  = ((if (24 * 3600 <? s)%Z then 1 else 0)
     + (if (12 * 3600 <? s)%Z then 1 else 0)
     + (if (6 * 3600 <? s)%Z then 1 else 0))%nat.
Proof.
  rewrite advance_notifications_by_threshold_aux.
  destruct (24 * 3600 <? s); destruct (12 * 3600 <? s);
    destruct (6 * 3600 <? s); reflexivity.
Qed.

Lemma desiredRequests_length (taskId taskTitle : string) (s : Z) :
  List.length (desiredRequests taskId taskTitle (Num s))
  = ((if (24 * 3600 <? s)%Z then 1 else 0)
     + (if (12 * 3600 <? s)%Z then 1 else 0)
     + (if (6 * 3600 <? s)%Z then 1 else 0) + 6)%nat.
Proof.
  unfold desiredRequests.
  rewrite length_app, length_map, advance_tiers_length. simpl. lia.
Qed.

(** X2.  With permission granted, a reminder after the clock and no
    schedule call throwing, [scheduleTaskReminder] hands over six requests
    (the main one and five follow-ups) and one more for each of the
    thresholds of 6, 12 and 24 hours that the whole seconds to the
    reminder strictly exceed: six up to 6 hours, nine beyond 24. *)
Theorem request_count_by_lead
    (taskId taskTitle reminderTime : string) (st : State World)
    (w1 w2 : World) (now reminderDate : Z) :
  getPermissionsAsync (world st) = (Val granted, w1) ->
  Date_now w1 = (now, w2) ->
  Date_parse reminderTime = Num reminderDate ->
  now < reminderDate ->
  existsb threw
    (calls_of (scheduleTaskReminder taskId taskTitle reminderTime st))
  = false ->
  List.length
    (schedule_requests
       (calls_of (scheduleTaskReminder taskId taskTitle reminderTime st)))
  = ((if (24 * 3600 <? (reminderDate - now) / 1000)%Z then 1 else 0)
     + (if (12 * 3600 <? (reminderDate - now) / 1000)%Z then 1 else 0)
     + (if (6 * 3600 <? (reminderDate - now) / 1000)%Z then 1 else 0)
     + 6)%nat.
Proof.
  intros Hperm Hnow Hparse Hlt Hnothrow.
  assert (Hle : JsNumber.leb (Date_parse reminderTime) (Num now) = false).
  { rewrite Hparse. simpl. apply Z.leb_gt. exact Hlt. }
  rewrite (scheduleTaskReminder_complete _ _ _ _ _ _ _ Hperm Hnow Hle Hnothrow).
  rewrite Hparse. simpl JsNumber.floor_div.
  apply desiredRequests_length.
Qed.

(** The seconds of the requests of [desiredRequests], in increasing
    order. *)
Lemma desiredRequests_seconds (taskId taskTitle : string) (s : Z) :
  exists zs,
    map trigger_seconds (desiredRequests taskId taskTitle (Num s))
    = map Num zs
    /\ StronglySorted Z.lt zs.
Proof.
  exists ((if 24 * 3600 <? s then [s - 24 * 3600] else [])
          ++ (if 12 * 3600 <? s then [s - 12 * 3600] else [])
          ++ (if 6 * 3600 <? s then [s - 6 * 3600] else [])
          ++ [s; s + 120; s + 240; s + 360; s + 480; s + 600]).
  unfold desiredRequests. rewrite advance_notifications_by_threshold_aux.
  destruct (24 * 3600 <? s); destruct (12 * 3600 <? s);
    destruct (6 * 3600 <? s); simpl;
    (split; [reflexivity|]);
    repeat (apply SSorted_cons || apply SSorted_nil || apply Forall_cons
            || apply Forall_nil || lia).
Qed.

Lemma StronglySorted_firstn (n : nat) (zs : list Z) :
  StronglySorted Z.lt zs -> StronglySorted Z.lt (firstn n zs).
Proof.
  revert n. induction zs as [|z zs IH]; intros n Hs.
  - rewrite firstn_nil. constructor.
  - destruct n as [|n]; simpl; [constructor|].
    inversion Hs as [|? ? Hs' Hall]; subst. constructor; [auto|].
    apply Forall_forall. intros x Hx.
    rewrite Forall_forall in Hall. apply Hall.
    rewrite <- (firstn_skipn n zs). apply in_or_app. left. exact Hx.
Qed.

(** X3.  With permission and a reminder after the clock, the requests
    [scheduleTaskReminder] hands over come in the order in which they are
    to fire: their seconds are whole numbers that strictly increase. *)
Theorem requests_in_firing_order
    (taskId taskTitle reminderTime : string) (st : State World)
    (w1 w2 : World) (now reminderDate : Z) :
  getPermissionsAsync (world st) = (Val granted, w1) ->
  Date_now w1 = (now, w2) ->
  Date_parse reminderTime = Num reminderDate ->
  now < reminderDate ->
  exists zs,
    map trigger_seconds
      (schedule_requests
         (calls_of (scheduleTaskReminder taskId taskTitle reminderTime st)))
    = map Num zs
    /\ StronglySorted Z.lt zs.
Proof.
  intros Hperm Hnow Hparse Hlt.
  assert (Hle : JsNumber.leb (Date_parse reminderTime) (Num now) = false).
  { rewrite Hparse. simpl. apply Z.leb_gt. exact Hlt. }
  destruct (scheduleTaskReminder_after taskId taskTitle _ _ _ _ _
              Hperm Hnow Hle)
    as (res & w3 & cs & b & Hrun & Hatt & _ & _ & _).
  unfold calls_of. rewrite Hrun. simpl snd. simpl schedule_requests.
  rewrite Hparse in Hatt. simpl in Hatt.
  destruct (attempted_prefix _ _ _ Hatt) as (rest & Hrest).
  destruct (desiredRequests_seconds taskId taskTitle
              ((reminderDate - now) / 1000))
    as (zs & Hzs & Hsorted).
  exists (firstn (List.length (schedule_requests cs)) zs). split.
  - rewrite <- firstn_map, <- Hzs, Hrest, map_app.
    rewrite <- (length_map trigger_seconds (schedule_requests cs)).
    rewrite firstn_app, firstn_all, Nat.sub_diag. simpl.
    rewrite app_nil_r. reflexivity.
  - apply StronglySorted_firstn. exact Hsorted.
Qed.

(** X4.  An invalid date string is not stopped by the test on the
    instants: with permission granted and no schedule call throwing, the
    main request and the five follow-ups are handed to the scheduler, each
    with [NaN] seconds. *)
Theorem invalid_date_scheduled_with_NaN
    (taskId taskTitle reminderTime : string) (st : State World)
    (w1 : World) :
  getPermissionsAsync (world st) = (Val granted, w1) ->
  Date_parse reminderTime = NaN ->
  existsb threw
    (calls_of (scheduleTaskReminder taskId taskTitle reminderTime st))
  = false ->
  schedule_requests
    (calls_of (scheduleTaskReminder taskId taskTitle reminderTime st))
  = mainRequest taskId taskTitle NaN
    :: map (followUpRequest taskId taskTitle NaN) followUpIntervals
  /\ Forall (fun req => trigger_seconds req = NaN)
       (schedule_requests
          (calls_of (scheduleTaskReminder taskId taskTitle reminderTime st))).
Proof.
  intros Hperm Hparse Hnothrow.
  destruct (Date_now w1) as [now w2] eqn:Hnow.
  assert (Hle : JsNumber.leb (Date_parse reminderTime) (Num now) = false).
  { rewrite Hparse. reflexivity. }
  rewrite (scheduleTaskReminder_complete _ _ _ _ _ _ _ Hperm Hnow Hle Hnothrow).
  rewrite Hparse. split; [reflexivity|].
  repeat constructor.
Qed.

(** X5.  A reminder less than a second after the clock: with permission
    granted, the first request handed to the scheduler is the main one,
    with 0 seconds. *)
Theorem subsecond_lead_main_request_at_zero
    (taskId taskTitle reminderTime : string) (st : State World)
    (w1 w2 : World) (now reminderDate : Z) :
  getPermissionsAsync (world st) = (Val granted, w1) ->
  Date_now w1 = (now, w2) ->
  Date_parse reminderTime = Num reminderDate ->
  now < reminderDate < now + 1000 ->
  exists r rest,
    calls_of (scheduleTaskReminder taskId taskTitle reminderTime st)
    = CallGetPermissions (Val granted)
      :: CallSchedule (mainRequest taskId taskTitle (Num 0)) r :: rest.
Proof.
  intros Hperm Hnow Hparse Hlead.
  assert (Hle : JsNumber.leb (Date_parse reminderTime) (Num now) = false).
  { rewrite Hparse. simpl. apply Z.leb_gt. lia. }
  destruct (scheduleTaskReminder_after taskId taskTitle _ _ _ _ _
              Hperm Hnow Hle)
    as (res & w3 & cs & b & Hrun & Hatt & _ & _ & _).
  unfold calls_of. rewrite Hrun. simpl snd.
  rewrite Hparse in Hatt. simpl in Hatt.
  replace ((reminderDate - now) / 1000) with 0 in Hatt
    by (symmetry; apply Z.div_small; lia).
  inversion Hatt; subst; eauto.
Qed.

Lemma advanceNotifications_at_most_three (taskTitle : string)
    (secs : JsNumber) :
  (List.length (advanceNotifications taskTitle secs) <= 3)%nat.
Proof.
  unfold advanceNotifications. rewrite !length_app.
  repeat match goal with
         | |- context [if ?c then _ else _] => destruct c
         end; simpl; lia.
Qed.

Lemma desiredRequests_taskTitle taskId taskTitle secs req :
  In req (desiredRequests taskId taskTitle secs) ->
  data_taskTitle req = taskTitle.
Proof.
  unfold desiredRequests. intros H.
  apply in_app_or in H. destruct H as [H|[<-|H]].
  - apply in_map_iff in H. destruct H as (n & <- & _). reflexivity.
  - reflexivity.
  - apply in_map_iff in H. destruct H as (n & <- & _). reflexivity.
Qed.

(** X6.  Whatever the platform does (the permission query or a schedule
    call may throw), [scheduleTaskReminder] returns normally, cancels
    nothing, hands at most nine requests to the scheduler, and each of them
    carries the identifier and the title of the task it was called for. *)
Theorem scheduleTaskReminder_never_throws
    (taskId taskTitle reminderTime : string) (st : State World) :
  (exists res,
      value_of (scheduleTaskReminder taskId taskTitle reminderTime st)
      = Val res)
  /\ cancel_requests
       (calls_of (scheduleTaskReminder taskId taskTitle reminderTime st))
     = []
  /\ (List.length
        (schedule_requests
           (calls_of
              (scheduleTaskReminder taskId taskTitle reminderTime st)))
      <= 9)%nat
  /\ Forall
       (fun req =>
          data_taskId req = taskId /\ data_taskTitle req = taskTitle)
       (schedule_requests
          (calls_of (scheduleTaskReminder taskId taskTitle reminderTime st))).
Proof.
  unfold value_of, calls_of.
  destruct (getPermissionsAsync (world st)) as [r w1] eqn:Hperm.
  assert (Hcases : r = Val granted \/ r <> Val granted).
  { destruct r as [[]|]; auto; right; discriminate. }
  destruct Hcases as [->|Hden].
  - destruct (Date_now w1) as [now w2] eqn:Hnow.
    destruct (JsNumber.leb (Date_parse reminderTime) (Num now)) eqn:Hle.
    + rewrite (scheduleTaskReminder_not_after _ _ _ _ _ _ _ Hperm Hnow Hle).
      simpl. repeat split; eauto. lia.
    + destruct (scheduleTaskReminder_after taskId taskTitle _ _ _ _ _
                  Hperm Hnow Hle)
        as (res & w3 & cs & b & Hrun & Hatt & _ & _ & _).
      rewrite Hrun. simpl. repeat split; eauto.
      * eapply attempted_no_cancel; eauto.
      * pose proof (attempted_length _ _ _ Hatt) as Hlen.
        unfold desiredRequests in Hlen.
        rewrite length_app, length_map in Hlen. simpl in Hlen.
        pose proof (advanceNotifications_at_most_three taskTitle
                      (JsNumber.floor_div
                         (JsNumber.sub (Date_parse reminderTime) (Num now))
                         1000)).
        lia.
      * apply Forall_forall. intros req Hin.
        apply in_schedule_requests in Hin. destruct Hin as (r & Hin).
        destruct (attempted_in _ _ _ _ Hatt Hin) as (rq & r' & Heq & Hd).
        inversion Heq; subst. split.
        -- eapply desiredRequests_taskId; eauto.
        -- eapply desiredRequests_taskTitle; eauto.
  - rewrite scheduleTaskReminder_not_granted by (rewrite Hperm; exact Hden).
    rewrite Hperm. simpl. repeat split; eauto. lia.
Qed.


End MoreFacts.

Section PassFacts.

Context {World : Type} {P : Platform World}.

(** ** More about a pass *)

(** X8.  Whatever the platform does, [syncNotifications] returns normally,
    and every entry of the map it leaves is at the identifier of a task of
    the list that has a reminder (the first task with that identifier): no
    entry of a deleted task or of a task without reminder survives a
    pass. *)
Theorem pass_leaves_entries_of_reminder_tasks_only
    (tasks : list Task) (st : State World) :
  value_of (syncNotifications tasks st) = Val tt
  /\ forall k v, In (k, v) (ledger_of (syncNotifications tasks st)) ->
       exists t, find_task tasks k = Some t /\ In t tasks /\ id t = k
         /\ hasReminder t = true.
Proof.
  destruct (syncNotifications_facts tasks st)
    as (w1 & m1 & c1 & _ & Hval & Hled & _).
  split; [exact Hval|]. intros k v Hin. rewrite Hled in Hin.
  apply filter_In in Hin. destruct Hin as (_ & Hlive). simpl in Hlive.
  apply negb_true_iff in Hlive. rewrite toCancel_find in Hlive.
  destruct (find_task tasks k) as [t|] eqn:Hfind; [|discriminate].
  exists t. destruct (find_task_some _ _ _ Hfind) as (Hin & Hid).
  repeat split; auto. apply negb_false_iff. exact Hlive.
Qed.

(** X9.  A pass hands requests to the scheduler only for tasks of the list
    that have a reminder and held no identifier when the pass began: never
    for a task without reminder, never for one already recorded, never for
    a task that is not in the list. *)
Theorem pass_schedules_for_unrecorded_reminders_only
    (tasks : list Task) (st : State World) :
  Forall
    (fun req =>
       exists t, In t tasks /\ hasReminder t = true
         /\ data_taskId req = id t
         /\ truthy_opt (JsMap.get (notificationMap st) (id t)) = false)
    (schedule_requests (calls_of (syncNotifications tasks st))).
Proof.
  destruct (syncNotifications_facts tasks st)
    as (w1 & m1 & c1 & Hrun & _ & _ & Hreq & _).
  destruct (first_loop_run tasks st)
    as (w0 & m0 & c0 & Hrun0 & _ & _ & Hfor & _).
  rewrite Hrun in Hrun0. inversion Hrun0; subst w0 m0 c0.
  rewrite Hreq. apply Forall_forall. exact Hfor.
Qed.

(** What the map holds at a key after a pass was there before or is an
    identifier returned in the pass. *)
Lemma pass_entry_origin (tasks : list Task) (st : State World)
    (k h : string) :
  JsMap.get (ledger_of (syncNotifications tasks st)) k = Some h ->
  JsMap.get (notificationMap st) k = Some h
  \/ (truthy h = true
      /\ In h (returned_handles (calls_of (syncNotifications tasks st)))).
Proof.
  destruct (syncNotifications_facts tasks st)
    as (w1 & m1 & c1 & Hrun & _ & Hled & _ & Hret & _).
  destruct (first_loop_run tasks st)
    as (w0 & m0 & c0 & Hrun0 & _ & _ & _ & Hnew & _).
  rewrite Hrun in Hrun0. inversion Hrun0; subst w0 m0 c0.
  rewrite Hled, Hret.
  rewrite (JsMapFacts.get_filter (fun k => negb (toCancel tasks k))).
  destruct (negb (toCancel tasks k)); [|discriminate].
  intros Hget. destruct (Hnew k) as [Heq|(t & h' & _ & _ & _ & Hget' & Hh & Hin)].
  - left. rewrite <- Heq. exact Hget.
  - right. rewrite Hget in Hget'. inversion Hget'; subst. auto.
Qed.

(** X10.  An identifier found in the map after a pass was in the map, at
    the same key, before the pass, or is a non-empty identifier that the
    scheduler returned during the pass: the pass invents none and moves
    none to another task. *)
Theorem pass_records_scheduler_identifiers
    (tasks : list Task) (st : State World) (k h : string) :
  JsMap.get (ledger_of (syncNotifications tasks st)) k = Some h ->
  JsMap.get (notificationMap st) k = Some h
  \/ (truthy h = true
      /\ In h (returned_handles (calls_of (syncNotifications tasks st)))).
Proof. apply pass_entry_origin. Qed.

(** X11.  A pass over no task at all asks for the cancellation of the
    identifier of every entry, in the order of the map, schedules nothing
    and leaves the map empty. *)
Theorem pass_over_no_task_cancels_all (st : State World) :
  cancel_requests (calls_of (syncNotifications [] st))
  = map snd (notificationMap st)
  /\ schedule_requests (calls_of (syncNotifications [] st)) = []
  /\ ledger_of (syncNotifications [] st) = [].
Proof.
  destruct (syncNotifications_facts [] st)
    as (w1 & m1 & c1 & Hrun & _ & Hled & Hreq & _ & Hcan & _).
  destruct st as [w m]. simpl in Hrun. unfold ret in Hrun.
  inversion Hrun; subst w1 m1 c1.
  rewrite Hcan, Hreq, Hled. simpl notificationMap. repeat split.
  - f_equal. apply filter_true.
  - apply filter_false.
Qed.

(** X12.  With distinct task identifiers, the cancellations a pass asks
    for are those of the entries that the map held when the pass began and
    whose task is gone or without reminder, one for each and in the order
    of the map, also when cancellations throw; none of these entries is
    left. *)
Theorem pass_cancels_stale_entries
    (tasks : list Task) (st : State World) :
  NoDup (map id tasks) ->
  cancel_requests (calls_of (syncNotifications tasks st))
  = map snd
      (filter (fun e => toCancel tasks (fst e)) (notificationMap st))
  /\ forall k, toCancel tasks k = true ->
       JsMap.get (ledger_of (syncNotifications tasks st)) k = None.
Proof.
  intros Hnd. split; [apply syncNotifications_cancels; exact Hnd|].
  intros k Hk.
  destruct (syncNotifications_facts tasks st)
    as (w1 & m1 & c1 & _ & _ & Hled & _).
  rewrite Hled.
  rewrite (JsMapFacts.get_filter (fun k => negb (toCancel tasks k))).
  rewrite Hk. reflexivity.
Qed.

(** ** A reminder switched off and on *)


End PassFacts.

Section SetupFacts.

Context {World : Type} {P : Platform World} {E : Expo World}.

(** ** The rest of the helper *)

(** A pass that finds every task with a reminder recorded and no entry to
    cancel does nothing. *)
Lemma syncNotifications_idle (tasks : list Task) (st : State World) :
  (forall t, In t tasks -> hasReminder t = true ->
     truthy_opt (JsMap.get (notificationMap st) (id t)) = true) ->
  (forall k v, In (k, v) (notificationMap st) -> toCancel tasks k = false) ->
  syncNotifications tasks st = (Val tt, st, []).
Proof.
  intros Hall Hlive. unfold syncNotifications, try_catch. unfold bind at 1.
  rewrite first_loop_idle by exact Hall.
  unfold bind at 1, notificationIdsToCancel at 1.
  rewrite collect_cancellations_entries. simpl world.
  assert (Hnone : filter (fun e => toCancel tasks (fst e)) (notificationMap st)
                  = []).
  { rewrite <- (filter_false (notificationMap st)). apply filter_ext_in.
    intros [k v] Hin. simpl. eapply Hlive; eauto. }
  assert (Hsame : filter (fun e => negb (toCancel tasks (fst e)))
                    (notificationMap st)
                  = notificationMap st).
  { rewrite <- (filter_true (notificationMap st)) at 2. apply filter_ext_in.
    intros [k v] Hin. simpl. rewrite (Hlive k v Hin). reflexivity. }
  rewrite Hnone, Hsame. destruct st. reflexivity.
Qed.

(** X15.  [cancelAllReminders] never throws and cannot reach the map of
    the hook.  So when every task with a reminder is recorded and no entry
    is to be cancelled, the pass that follows [cancelAllReminders] makes no
    call at all: the reminders it cancelled are not scheduled again. *)
Theorem cancelAllReminders_then_pass_schedules_nothing
    (tasks : list Task) (st : State World) :
  (forall t, In t tasks -> hasReminder t = true ->
     truthy_opt (JsMap.get (notificationMap st) (id t)) = true) ->
  (forall k v, In (k, v) (notificationMap st) -> toCancel tasks k = false) ->
  fst (fst (cancelAllReminders (world st))) = Val tt
  /\ (exists r,
        snd (cancelAllReminders (world st)) = [CallCancelAllScheduled r])
  /\ syncNotifications tasks (run_helper cancelAllReminders st)
     = (Val tt, run_helper cancelAllReminders st, []).
Proof.
  intros Hall Hlive. split; [|split].
  - unfold cancelAllReminders, htry_catch,
      await_cancelAllScheduledNotificationsAsync, hret.
    destruct (cancelAllScheduledNotificationsAsync (world st)) as [[u|] w'];
      [destruct u|]; reflexivity.
  - unfold cancelAllReminders, htry_catch,
      await_cancelAllScheduledNotificationsAsync, hret.
    destruct (cancelAllScheduledNotificationsAsync (world st)) as [[u|] w'];
      simpl; eauto.
  - apply syncNotifications_idle; assumption.
Qed.

(** What [initializeNotifications] does, by system and by what the calls
    give. *)
Lemma initializeNotifications_run (w : World) :
  exists w' cs,
    initializeNotifications w = (Val tt, w', cs)
    /\ (exists r rest,
          cs = CallSetNotificationHandler r :: rest
          /\ (List.length rest <= 2)%nat)
    /\ (List.length (filter is_permission_request cs) <= 1)%nat
    /\ (Platform_OS <> android -> filter is_channel_setup cs = [])
    /\ (Platform_OS <> android -> Platform_OS <> ios ->
        filter is_permission_request cs = [])
    /\ (forall pre c post,
          cs = pre ++ c :: post -> expo_threw c = true ->
          post = []
          /\ (is_permission_request c = false ->
              filter is_permission_request cs = [])).
Proof.
  unfold initializeNotifications, requestNotificationPermission, htry_catch,
    hbind, call_setNotificationHandler, await_setNotificationChannelAsync,
    await_requestPermissionsAsync, hret.
  destruct (setNotificationHandler w) as [[u0|] w0];
    [destruct Platform_OS eqn:Hos; simpl|].
  - destruct (requestPermissionsAsync w0) as [[s|] w1]; simpl;
      initialize_case.
  - destruct (setNotificationChannelAsync w0) as [[u1|] w1]; simpl;
      [destruct (requestPermissionsAsync w1) as [[s|] w2]; simpl|];
      initialize_case.
  - initialize_case.
  - initialize_case.
  - initialize_case.
  - initialize_case.
Qed.

(** X16.  Whatever the platform does, [initializeNotifications] returns
    normally.  It sets the notification handler first and makes at most
    two more calls; it asks for permission at most once, and not at all on
    a system that is neither Android nor iOS; it sets the channel up on
    Android only. *)
Theorem initializeNotifications_never_throws (w : World) :
  fst (fst (initializeNotifications w)) = Val tt
  /\ (exists r rest,
        snd (initializeNotifications w)
        = CallSetNotificationHandler r :: rest
        /\ (List.length rest <= 2)%nat)
  /\ (List.length
        (filter is_permission_request (snd (initializeNotifications w)))
      <= 1)%nat
  /\ (Platform_OS <> android ->
      filter is_channel_setup (snd (initializeNotifications w)) = [])
  /\ (Platform_OS <> android -> Platform_OS <> ios ->
      filter is_permission_request (snd (initializeNotifications w)) = []).
Proof.
  destruct (initializeNotifications_run w)
    as (w' & cs & -> & Hfirst & Hone & Hchan & Hperm & _).
  simpl. auto.
Qed.

(** X17.  A call of [initializeNotifications] that throws is the last one
    it makes; when the call is not the permission request itself (the
    handler or, on Android, the channel could not be set), the permission
    is not asked for at all. *)
Theorem initializeNotifications_stops_at_failure
    (w : World) (pre post : list ExpoCall) (c : ExpoCall) :
  snd (initializeNotifications w) = pre ++ c :: post ->
  expo_threw c = true ->
  post = []
  /\ (is_permission_request c = false ->
      filter is_permission_request (snd (initializeNotifications w)) = []).
Proof.
  destruct (initializeNotifications_run w)
    as (w' & cs & -> & _ & _ & _ & _ & Hlast).
  simpl. apply Hlast.
Qed.

End SetupFacts.

Section TapFacts.

Context {World : Type} {P : Platform World}.

(** ** Notification taps *)

Lemma data_taskId_of_data_of (req : NotificationRequestInput) :
  data_taskId_of (data_of req) = JsString (data_taskId req).
Proof. reflexivity. Qed.

Lemma find_task_present (tasks : list Task) (t : Task) :
  In t tasks -> exists u, find_task tasks (id t) = Some u.
Proof.
  intros Hin. unfold find_task.
  destruct (find (fun u => String.eqb (id u) (id t)) tasks) as [u|] eqn:E;
    [eauto|].
  pose proof (find_none _ _ E t Hin) as Hno. simpl in Hno.
  rewrite String.eqb_refl in Hno. discriminate.
Qed.

(** X18.  When no task has an empty identifier, every request a pass
    hands to the scheduler leads back to its task when the notification is
    tapped: the listener of [setupNotificationTapHandler] calls
    [onNotificationTap] with the identifier of the task, and the listener
    of the home screen, given the same task list, opens that task. *)
Theorem scheduled_notification_tap_leads_to_task
    (tasks : list Task) (st : State World) :
  (forall t, In t tasks -> truthy (id t) = true) ->
  Forall
    (fun req =>
       tapHandler (data_of req) = Some (data_taskId req)
       /\ homeScreenTapListener tasks (data_of req) = Some (data_taskId req)
       /\ exists t, In t tasks /\ id t = data_taskId req)
    (schedule_requests (calls_of (syncNotifications tasks st))).
Proof.
  intros Hids.
  destruct (syncNotifications_facts tasks st)
    as (w1 & m1 & c1 & Hrun & _ & _ & Hreq & _).
  destruct (first_loop_run tasks st)
    as (w0 & m0 & c0 & Hrun0 & _ & _ & Hfor & _).
  rewrite Hrun in Hrun0. inversion Hrun0; subst w0 m0 c0.
  rewrite Hreq. apply Forall_forall. intros req Hin.
  destruct (Hfor req Hin) as (t & Ht & _ & Hid & _).
  unfold tapHandler, homeScreenTapListener.
  rewrite data_taskId_of_data_of. simpl truthy_string.
  rewrite Hid, (Hids t Ht).
  destruct (find_task_present tasks t Ht) as (u & Hu).
  unfold find_task in Hu. rewrite Hu. eauto.
Qed.

(** X19.  The listener of the home screen opens a task exactly when the
    tapped notification carries a non-empty string as [taskId] and a task
    of the list has it as identifier; so the tap on a notification of a
    task that is no longer in the list does nothing. *)
Theorem home_screen_tap_opens_present_tasks_only
    (tasks : list Task) (data : NotificationData) (k : string) :
  (homeScreenTapListener tasks data = Some k
   <-> data_taskId_of data = JsString k /\ truthy k = true
       /\ In k (map id tasks))
  /\ forall req, ~ In (data_taskId req) (map id tasks) ->
       homeScreenTapListener tasks (data_of req) = None.
Proof.
  split.
  - unfold homeScreenTapListener, truthy_string.
    destruct (data_taskId_of data) as [| |b|n|s|]; try (split; [discriminate|]);
      try (intros (H & _); discriminate).
    destruct (truthy s) eqn:Hs.
    + destruct (find (fun t => String.eqb (id t) s) tasks) as [t|] eqn:E.
      * split.
        -- intros [= <-]. repeat split; auto.
           apply find_some in E. destruct E as (Hin & Heq).
           apply String.eqb_eq in Heq. rewrite <- Heq. apply in_map. exact Hin.
        -- intros ([= ->] & _). reflexivity.
      * split; [discriminate|]. intros ([= ->] & _ & Hin).
        apply in_map_iff in Hin. destruct Hin as (t & Hid & Hin).
        pose proof (find_none _ _ E t Hin) as Hno. simpl in Hno.
        rewrite Hid, String.eqb_refl in Hno. discriminate.
    + split; [discriminate|]. intros ([= ->] & Hk & _). congruence.
  - intros req Hnot. unfold homeScreenTapListener.
    rewrite data_taskId_of_data_of. simpl.
    destruct (truthy (data_taskId req)); [|reflexivity].
    destruct (find _ tasks) as [t|] eqn:E; [|reflexivity].
    apply find_some in E. destruct E as (Hin & Heq).
    apply String.eqb_eq in Heq. exfalso. apply Hnot.
    rewrite <- Heq. apply in_map. exact Hin.
Qed.

(** ** The reducer and the passes it causes *)

Import TaskContext.

Lemma findIndex_some {A} (p : A -> bool) (l : list A) (i : nat) :
  findIndex p l = Some i ->
  exists y, nth_error l i = Some y /\ p y = true.
Proof.
  revert i. induction l as [|x l IH]; intros i; simpl; [discriminate|].
  destruct (p x) eqn:Hp.
  - intros [= <-]. exists x. auto.
  - destruct (findIndex p l) as [j|]; simpl; [|discriminate].
    intros [= <-]. apply IH. reflexivity.
Qed.

Lemma findIndex_none {A} (p : A -> bool) (l : list A) :
  findIndex p l = None -> forall x, In x l -> p x = false.
Proof.
  induction l as [|y l IH]; simpl; [intros _ x []|].
  destruct (p y) eqn:Hp; [discriminate|].
  destruct (findIndex p l); simpl; [discriminate|].
  intros _ x [<-|Hin]; auto.
Qed.

(** [findIndex] gives the first place where the test holds. *)
Lemma findIndex_first {A} (p : A -> bool) (l : list A) (i : nat) :
  findIndex p l = Some i ->
  forall j y, (j < i)%nat -> nth_error l j = Some y -> p y = false.
Proof.
  revert i. induction l as [|x l IH]; intros i; simpl; [discriminate|].
  destruct (p x) eqn:Hp.
  - intros [= <-] j y Hj. lia.
  - destruct (findIndex p l) as [k|] eqn:E; simpl; [|discriminate].
    intros [= <-] j y Hj. destruct j as [|j]; simpl.
    + intros [= <-]. exact Hp.
    + apply (IH k eq_refl). lia.
Qed.

Lemma map_assign {A B} (f : A -> B) (l : list A) (i : nat) (x y : A) :
  nth_error l i = Some y -> f x = f y -> map f (assign l i x) = map f l.
Proof.
  revert i. induction l as [|z l IH]; intros i; simpl.
  - destruct i; discriminate.
  - destruct i as [|i]; simpl.
    + intros [= ->] ->. reflexivity.
    + intros Hn Hf. rewrite (IH i Hn Hf). reflexivity.
Qed.

Lemma delete_keeps_distinct (k : string) (l : list FullTask) :
  NoDup (map (fun t => id (core t)) l) ->
  NoDup
    (map (fun t => id (core t))
       (filter (fun t => negb (String.eqb (id (core t)) k)) l)).
Proof.
  intros Hnd. induction l as [|x l IH]; simpl; [constructor|].
  simpl in Hnd. apply NoDup_cons_iff in Hnd. destruct Hnd as (Hfresh & Hnd).
  destruct (String.eqb (id (core x)) k); simpl; [exact (IH Hnd)|].
  apply NoDup_cons; [|exact (IH Hnd)].
  rewrite in_map_iff. intros (y & Hy & Hf).
  apply filter_In in Hf. destruct Hf as (Hf & _).
  apply Hfresh. rewrite <- Hy. apply (in_map (fun t => id (core t))).
  exact Hf.
Qed.

Lemma reminders_ids (s : TaskState) :
  map id (reminders s) = map (fun t => id (core t)) (tasks s).
Proof. unfold reminders. apply map_map. Qed.

(** The identifiers of the tasks after [UPDATE_TASK] and [TOGGLE_TASK]. *)
Lemma update_keeps_ids (s : TaskState) (payload : FullTask) :
  map id (reminders (taskReducer s (UPDATE_TASK payload)))
  = map id (reminders s).
Proof.
  simpl.
  destruct (findIndex _ (tasks s)) as [i|] eqn:E; [|reflexivity].
  destruct (findIndex_some _ _ _ E) as (y & Hy & Hp).
  apply String.eqb_eq in Hp.
  rewrite !reminders_ids. simpl.
  apply (map_assign (fun t => id (core t)) _ _ _ y Hy). auto.
Qed.

Lemma toggle_keeps_reminders (s : TaskState) (k : string) :
  reminders (taskReducer s (TOGGLE_TASK k)) = reminders s.
Proof.
  simpl.
  destruct (findIndex _ (tasks s)) as [i|] eqn:E; [|reflexivity].
  destruct (nth_error (tasks s) i) as [t|] eqn:Hn; [|reflexivity].
  unfold reminders. simpl.
  apply (map_assign core _ _ _ t Hn). reflexivity.
Qed.

(** X20.  The reducer keeps the identifiers of the tasks distinct: if they
    are before an action, they are after it, provided [SET_TASKS] brings
    distinct identifiers and [ADD_TASK] an identifier that is not in
    use. *)
Theorem reducer_keeps_identifiers_distinct
    (s : TaskState) (a : TaskAction) :
  NoDup (map id (reminders s)) ->
  match a with
  | SET_TASKS payload => NoDup (map (fun t => id (core t)) payload)
  | ADD_TASK payload => ~ In (id (core payload)) (map id (reminders s))
  | _ => True
  end ->
  NoDup (map id (reminders (taskReducer s a))).
Proof.
  intros Hnd Ha. destruct a as [l|t|t|k|k|b|e|sel|].
  - rewrite reminders_ids. exact Ha.
  - rewrite reminders_ids. simpl. constructor.
    + rewrite <- reminders_ids. exact Ha.
    + rewrite <- reminders_ids. exact Hnd.
  - rewrite update_keeps_ids. exact Hnd.
  - rewrite reminders_ids in *. simpl. apply delete_keeps_distinct. exact Hnd.
  - rewrite toggle_keeps_reminders. exact Hnd.
  - exact Hnd.
  - exact Hnd.
  - exact Hnd.
  - exact Hnd.
Qed.

(** A key that is to be cancelled and holds an identifier: the pass asks
    for its cancellation and removes the entry. *)
Lemma pass_cancels_key (tasks : list Task) (st : State World)
    (k h : string) :
  toCancel tasks k = true ->
  JsMap.get (notificationMap st) k = Some h ->
  truthy h = true ->
  In h (cancel_requests (calls_of (syncNotifications tasks st)))
  /\ JsMap.get (ledger_of (syncNotifications tasks st)) k = None.
Proof.
  intros Hstale Hget Hh.
  destruct (syncNotifications_facts tasks st)
    as (w1 & m1 & c1 & Hrun & _ & Hled & _ & _ & Hcan & _).
  destruct (first_loop_run tasks st)
    as (w0 & m0 & c0 & Hrun0 & _ & Hkeep & _).
  rewrite Hrun in Hrun0. inversion Hrun0; subst w0 m0 c0.
  split.
  - rewrite Hcan. apply in_map_iff. exists (k, h). split; [reflexivity|].
    apply filter_In. split; [|exact Hstale].
    apply JsMapFacts.get_in. rewrite Hkeep; [exact Hget|].
    rewrite Hget. exact Hh.
  - rewrite Hled.
    rewrite (JsMapFacts.get_filter (fun k => negb (toCancel tasks k))).
    rewrite Hstale. reflexivity.
Qed.

(** X22.  After [DELETE_TASK] no task has the identifier deleted, and the
    pass over the tasks that remain asks for the cancellation of the
    identifier the map holds for it and removes the entry. *)
Theorem deleting_a_task_cancels_its_reminder
    (s : TaskState) (k h : string) (st : State World) :
  JsMap.get (notificationMap st) k = Some h ->
  truthy h = true ->
  ~ In k (map id (reminders (taskReducer s (DELETE_TASK k))))
  /\ In h
       (cancel_requests
          (calls_of
             (syncNotifications
                (reminders (taskReducer s (DELETE_TASK k))) st)))
  /\ JsMap.get
       (ledger_of
          (syncNotifications (reminders (taskReducer s (DELETE_TASK k))) st))
       k
     = None.
Proof.
  intros Hget Hh.
  assert (Hgone : ~ In k (map id (reminders (taskReducer s (DELETE_TASK k))))).
  { rewrite reminders_ids. simpl. intros Hin.
    apply in_map_iff in Hin. destruct Hin as (t & Hid & Hin).
    apply filter_In in Hin. destruct Hin as (_ & Hne).
    rewrite Hid, String.eqb_refl in Hne. discriminate. }
  split; [exact Hgone|].
  apply pass_cancels_key; auto. apply toCancel_absent. exact Hgone.
Qed.

(** After [UPDATE_TASK] for an identifier that a task has, the first task
    with that identifier is the payload. *)
Lemma update_lookup (s : TaskState) (payload : FullTask) :
  In (id (core payload)) (map id (reminders s)) ->
  find (fun t => String.eqb (id (core t)) (id (core payload)))
    (tasks (taskReducer s (UPDATE_TASK payload)))
  = Some payload.
Proof.
  intros Hin. simpl.
  destruct (findIndex _ (tasks s)) as [i|] eqn:E.
  - simpl. pose proof (findIndex_first _ _ _ E) as Hfirst.
    destruct (findIndex_some _ _ _ E) as (y & Hy & _).
    clear E Hin. revert i y Hy Hfirst.
    induction (tasks s) as [|x l IH]; intros i y Hy Hfirst.
    + destruct i; discriminate.
    + destruct i as [|i]; simpl.
      * rewrite String.eqb_refl. reflexivity.
      * rewrite (Hfirst 0%nat x) by (simpl; auto; lia).
        simpl in Hy. apply (IH i y Hy).
        intros j z Hj Hz. apply (Hfirst (S j) z); [lia | exact Hz].
  - exfalso. rewrite reminders_ids in Hin.
    apply in_map_iff in Hin. destruct Hin as (t & Hid & Hin).
    pose proof (findIndex_none _ _ E t Hin) as Hno. simpl in Hno.
    rewrite Hid, String.eqb_refl in Hno. discriminate.
Qed.

Lemma find_task_reminders (l : list FullTask) (k : string) :
  find_task (map core l) k
  = option_map core (find (fun t => String.eqb (id (core t)) k) l).
Proof.
  unfold find_task. induction l as [|x l IH]; simpl; [reflexivity|].
  destruct (String.eqb (id (core x)) k); [reflexivity | exact IH].
Qed.

(** X23.  [UPDATE_TASK] changes no identifier, in number or in order; for
    an identifier no task has it leaves the state as it is; for one that a
    task has, the first task with that identifier is the payload
    afterwards. *)
Theorem update_replaces_the_task (s : TaskState) (payload : FullTask) :
  map id (reminders (taskReducer s (UPDATE_TASK payload)))
  = map id (reminders s)
  /\ (~ In (id (core payload)) (map id (reminders s)) ->
      taskReducer s (UPDATE_TASK payload) = s)
  /\ (In (id (core payload)) (map id (reminders s)) ->
      find (fun t => String.eqb (id (core t)) (id (core payload)))
        (tasks (taskReducer s (UPDATE_TASK payload)))
      = Some payload).
Proof.
  split; [apply update_keeps_ids|]. split; [|apply update_lookup].
  intros Hnot. simpl.
  destruct (findIndex _ (tasks s)) as [i|] eqn:E; [|reflexivity].
  destruct (findIndex_some _ _ _ E) as (y & Hy & Hp).
  apply String.eqb_eq in Hp. exfalso. apply Hnot.
  rewrite reminders_ids, <- Hp.
  apply (in_map (fun t => id (core t))). eapply nth_error_In; eauto.
Qed.

(** X24.  When [UPDATE_TASK] brings a task without reminder for an
    identifier that a task has, the pass that follows asks for the
    cancellation of the identifier the map holds for it and removes the
    entry. *)
Theorem saving_without_reminder_cancels_it
    (s : TaskState) (payload : FullTask) (h : string) (st : State World) :
  In (id (core payload)) (map id (reminders s)) ->
  hasReminder (core payload) = false ->
  JsMap.get (notificationMap st) (id (core payload)) = Some h ->
  truthy h = true ->
  In h
    (cancel_requests
       (calls_of
          (syncNotifications
             (reminders (taskReducer s (UPDATE_TASK payload))) st)))
  /\ JsMap.get
       (ledger_of
          (syncNotifications
             (reminders (taskReducer s (UPDATE_TASK payload))) st))
       (id (core payload))
     = None.
Proof.
  intros Hin Hoff Hget Hh. apply pass_cancels_key; auto.
  rewrite toCancel_find. unfold reminders.
  rewrite find_task_reminders, (update_lookup s payload Hin). simpl.
  rewrite Hoff. reflexivity.
Qed.


End TapFacts.

Section OverlapFacts.

Context {World : Type} {P : Platform World}.

(** ** Passes that overlap *)

(** *** One pass under way alone is the pass of [syncNotifications] *)

Lemma bind_ext {A B} (m m' : M World A) (k k' : A -> M World B)
    (st : State World) :
  m st = m' st -> (forall a st1, k a st1 = k' a st1) ->
  bind m k st = bind m' k' st.
Proof.
  intros Hm Hk. unfold bind. rewrite Hm.
  destruct (m' st) as [[[a|] st1] c1]; [|reflexivity].
  rewrite Hk. reflexivity.
Qed.

Lemma try_catch_ext {A} (b b' h h' : M World A) (st : State World) :
  b st = b' st -> (forall st1, h st1 = h' st1) ->
  try_catch b h st = try_catch b' h' st.
Proof.
  intros Hb Hh. unfold try_catch. rewrite Hb.
  destruct (b' st) as [[[a|] st1] c1]; [reflexivity|].
  rewrite Hh. reflexivity.
Qed.

Lemma for_of_ext {X} (xs : list X) (body body' : X -> M World unit)
    (st : State World) :
  (forall x st1, body x st1 = body' x st1) ->
  for_of xs body st = for_of xs body' st.
Proof.
  intros Hb. revert st. induction xs as [|x xs IH]; intros st; simpl.
  - reflexivity.
  - apply bind_ext; auto.
Qed.

Lemma alone_bind {A B} (t : Async.Run World A) (k : A -> Async.Run World B)
    (st : State World) :
  Async.alone (Async.bind t k) st
  = bind (Async.alone t) (fun a => Async.alone (k a)) st.
Proof.
  revert st. induction t as [[a|]|X m k' IH|rest IH]; intros st; simpl.
  - unfold bind. simpl. destruct (Async.alone (k a) st) as [[r st2] c2].
    reflexivity.
  - reflexivity.
  - unfold bind in *. destruct (m st) as [[o st1] c1]. rewrite IH.
    destruct (Async.alone (k' o) st1) as [[[a|] st2] c2]; [|reflexivity].
    destruct (Async.alone (k a) st2) as [[r st3] c3].
    rewrite app_assoc. reflexivity.
  - apply IH.
Qed.

Lemma alone_try_catch {A} (body handler : Async.Run World A)
    (st : State World) :
  Async.alone (Async.try_catch body handler) st
  = try_catch (Async.alone body) (Async.alone handler) st.
Proof.
  revert st. induction body as [[a|]|X m k IH|rest IH]; intros st; simpl.
  - reflexivity.
  - unfold try_catch. simpl.
    destruct (Async.alone handler st) as [[r st2] c2]. reflexivity.
  - unfold try_catch in *. destruct (m st) as [[o st1] c1]. rewrite IH.
    destruct (Async.alone (k o) st1) as [[[a|] st2] c2]; [reflexivity|].
    destruct (Async.alone handler st2) as [[r st3] c3].
    rewrite app_assoc. reflexivity.
  - apply IH.
Qed.

Lemma alone_sync {A} (m : M World A) (st : State World) :
  Async.alone (Async.sync m) st = m st.
Proof.
  simpl. destruct (m st) as [[o st1] c1]. rewrite app_nil_r. reflexivity.
Qed.

Lemma alone_await {A} (m : M World A) (st : State World) :
  Async.alone (Async.await m) st = m st.
Proof.
  simpl. destruct (m st) as [[o st1] c1]. rewrite app_nil_r. reflexivity.
Qed.

Lemma alone_await_async {A} (t : Async.Run World A) (st : State World) :
  Async.alone (Async.await_async t) st = Async.alone t st.
Proof.
  revert st. induction t as [r|X m k IH|rest IH]; intros st; simpl.
  - reflexivity.
  - destruct (m st) as [[o st1] c1]. rewrite IH. reflexivity.
  - apply IH.
Qed.

Lemma alone_for_of {X} (xs : list X) (body : X -> Async.Run World unit)
    (body' : X -> M World unit) (st : State World) :
  (forall x st1, Async.alone (body x) st1 = body' x st1) ->
  Async.alone (Async.for_of xs body) st = for_of xs body' st.
Proof.
  intros Hb. revert st. induction xs as [|x xs IH]; intros st; simpl.
  - reflexivity.
  - rewrite alone_bind. apply bind_ext; auto.
Qed.

Lemma alone_checkNotificationPermission (st : State World) :
  Async.alone Async.checkNotificationPermission st
  = checkNotificationPermission st.
Proof.
  unfold Async.checkNotificationPermission, checkNotificationPermission.
  rewrite alone_try_catch. apply try_catch_ext; [|reflexivity].
  rewrite alone_bind. apply bind_ext; [apply alone_await|reflexivity].
Qed.

Lemma alone_schedule_step (req : NotificationRequestInput)
    (st : State World) :
  Async.alone
    (Async.bind (Async.await (await_scheduleNotificationAsync req))
       (fun _ => Async.ret tt)) st
  = (await_scheduleNotificationAsync req ;;; ret tt) st.
Proof.
  rewrite alone_bind. apply bind_ext; [apply alone_await|reflexivity].
Qed.

Lemma alone_scheduleTaskReminder (taskId taskTitle reminderTime : string)
    (st : State World) :
  Async.alone (Async.scheduleTaskReminder taskId taskTitle reminderTime) st
  = scheduleTaskReminder taskId taskTitle reminderTime st.
Proof.
  unfold Async.scheduleTaskReminder, scheduleTaskReminder.
  rewrite alone_try_catch. apply try_catch_ext; [|reflexivity].
  rewrite alone_bind. apply bind_ext.
  { rewrite alone_await_async. apply alone_checkNotificationPermission. }
  intros hasPermission st1. destruct (negb hasPermission); [reflexivity|].
  rewrite alone_bind. apply bind_ext; [apply alone_sync|].
  intros now st2.
  destruct (JsNumber.leb (Date_parse reminderTime) (Num now));
    [reflexivity|].
  rewrite alone_bind. apply bind_ext.
  { apply alone_for_of. intros x st3. apply alone_schedule_step. }
  intros _ st3. rewrite alone_bind. apply bind_ext; [apply alone_await|].
  intros notificationId st4. rewrite alone_bind. apply bind_ext.
  { apply alone_for_of. intros x st5. apply alone_schedule_step. }
  reflexivity.
Qed.

Lemma alone_cancelReminder (notificationId : string) (st : State World) :
  Async.alone (Async.cancelReminder notificationId) st
  = cancelReminder notificationId st.
Proof.
  unfold Async.cancelReminder, cancelReminder.
  rewrite alone_try_catch. apply try_catch_ext; [|reflexivity].
  apply alone_await.
Qed.

Lemma alone_schedule_if_new (task : Task) (st : State World) :
  Async.alone (Async.schedule_if_new task) st = schedule_if_new task st.
Proof.
  unfold Async.schedule_if_new, schedule_if_new.
  destruct (hasReminder task); [|reflexivity].
  destruct (reminderTime task) as [reminderTime_|]; [|reflexivity].
  rewrite alone_bind. apply bind_ext; [apply alone_sync|].
  intros existing st1. destruct (negb (truthy_opt existing)); [|reflexivity].
  rewrite alone_bind. apply bind_ext.
  { rewrite alone_await_async. apply alone_scheduleTaskReminder. }
  intros [notificationId_|] st2; [|reflexivity].
  destruct (truthy notificationId_); [apply alone_sync|reflexivity].
Qed.

(** A pass that meets no other and is awaited at once does what
    [syncNotifications] of the program above does. *)
Lemma alone_syncNotifications (tasks : list Task) (st : State World) :
  Async.alone (Async.syncNotifications tasks) st = syncNotifications tasks st.
Proof.
  unfold Async.syncNotifications, syncNotifications.
  rewrite alone_try_catch. apply try_catch_ext; [|reflexivity].
  rewrite alone_bind. apply bind_ext.
  { apply alone_for_of. intros x st1. apply alone_schedule_if_new. }
  intros _ st1. rewrite alone_bind. apply bind_ext; [apply alone_sync|].
  intros ids st2. apply alone_for_of. intros x st3.
  rewrite alone_await_async. apply alone_cancelReminder.
Qed.

End OverlapFacts.

Section OverlapInvariant.

Context {World : Type} {P : Platform World}.

(** *** What every interleaving keeps *)

Section Keeps.

Variable I : JsMap.t -> Prop.
Variable K : string -> Prop.

Hypothesis I_set :
  forall m k v, I m -> K k -> truthy v = true -> I (JsMap.set m k v).
Hypothesis I_filter : forall m f, I m -> I (filter f m).

Lemma keeps_bind {A B} (t : Async.Run World A) (k : A -> Async.Run World B) :
  Async.keeps I t -> (forall a, Async.keeps I (k a)) ->
  Async.keeps I (Async.bind t k).
Proof.
  intros Ht Hk. induction t as [[a|]|X m k' IH|rest IH]; simpl in *; auto.
  intros st Hst. destruct (Ht st Hst) as (H1 & H2). split; auto.
Qed.

Lemma keeps_try_catch {A} (body handler : Async.Run World A) :
  Async.keeps I body -> Async.keeps I handler ->
  Async.keeps I (Async.try_catch body handler).
Proof.
  intros Hb Hh. induction body as [[a|]|X m k IH|rest IH]; simpl in *; auto.
  intros st Hst. destruct (Hb st Hst) as (H1 & H2). split; auto.
Qed.

Lemma keeps_await_async {A} (t : Async.Run World A) :
  Async.keeps I t -> Async.keeps I (Async.await_async t).
Proof.
  intros Ht. induction t as [r|X m k IH|rest IH]; simpl in *; auto.
  intros st Hst. destruct (Ht st Hst) as (H1 & H2). split; auto.
Qed.

Lemma keeps_for_of {X} (xs : list X) (body : X -> Async.Run World unit) :
  (forall x, In x xs -> Async.keeps I (body x)) ->
  Async.keeps I (Async.for_of xs body).
Proof.
  induction xs as [|x xs IH]; intros Hb; simpl; [exact Logic.I|].
  apply keeps_bind; [apply Hb; left; reflexivity|].
  intros _. apply IH. intros y Hy. apply Hb. right. exact Hy.
Qed.

Lemma keeps_sync {A} (m : M World A) :
  (forall st, I (notificationMap st) -> I (ledger_of (m st))) ->
  Async.keeps I (Async.sync m).
Proof. intros Hm st Hst. split; [apply Hm; exact Hst|exact Logic.I]. Qed.

Lemma keeps_await {A} (m : M World A) :
  (forall st, I (notificationMap st) -> I (ledger_of (m st))) ->
  Async.keeps I (Async.await m).
Proof. intros Hm st Hst. split; [apply Hm; exact Hst|exact Logic.I]. Qed.

(** The calls of the platform do not touch the map. *)
Lemma getPermissions_map (st : State World) :
  ledger_of (await_getPermissionsAsync st) = notificationMap st.
Proof.
  unfold ledger_of, state_of, await_getPermissionsAsync.
  destruct (getPermissionsAsync (world st)). reflexivity.
Qed.

Lemma schedule_map (req : NotificationRequestInput) (st : State World) :
  ledger_of (await_scheduleNotificationAsync req st) = notificationMap st.
Proof.
  unfold ledger_of, state_of, await_scheduleNotificationAsync.
  destruct (scheduleNotificationAsync req (world st)). reflexivity.
Qed.

Lemma cancel_map (notificationId : string) (st : State World) :
  ledger_of (await_cancelScheduledNotificationAsync notificationId st)
  = notificationMap st.
Proof.
  unfold ledger_of, state_of, await_cancelScheduledNotificationAsync.
  destruct (cancelScheduledNotificationAsync notificationId (world st)).
  reflexivity.
Qed.

Lemma new_Date_map (st : State World) :
  ledger_of (new_Date st) = notificationMap st.
Proof.
  unfold ledger_of, state_of, new_Date.
  destruct (Date_now (world st)). reflexivity.
Qed.

Lemma keeps_schedule_step (req : NotificationRequestInput) :
  Async.keeps I
    (Async.bind (Async.await (await_scheduleNotificationAsync req))
       (fun _ => Async.ret tt)).
Proof.
  apply keeps_bind; [|intros; exact Logic.I].
  apply keeps_await. intros st Hst. rewrite schedule_map. exact Hst.
Qed.

Lemma keeps_scheduleTaskReminder (taskId taskTitle reminderTime : string) :
  Async.keeps I (Async.scheduleTaskReminder taskId taskTitle reminderTime).
Proof.
  unfold Async.scheduleTaskReminder, Async.checkNotificationPermission.
  apply keeps_try_catch; [|exact Logic.I].
  apply keeps_bind.
  { apply keeps_await_async, keeps_try_catch; [|exact Logic.I].
    apply keeps_bind; [|intros; exact Logic.I].
    apply keeps_await. intros st Hst. rewrite getPermissions_map. exact Hst. }
  intros hasPermission. destruct (negb hasPermission); [exact Logic.I|].
  apply keeps_bind.
  { apply keeps_sync. intros st Hst. rewrite new_Date_map. exact Hst. }
  intros now.
  destruct (JsNumber.leb (Date_parse reminderTime) (Num now));
    [exact Logic.I|].
  apply keeps_bind.
  { apply keeps_for_of. intros x _. apply keeps_schedule_step. }
  intros _. apply keeps_bind.
  { apply keeps_await. intros st Hst. rewrite schedule_map. exact Hst. }
  intros notificationId. apply keeps_bind; [|intros; exact Logic.I].
  apply keeps_for_of. intros x _. apply keeps_schedule_step.
Qed.

Lemma keeps_schedule_if_new (task : Task) :
  (hasReminder task = true -> K (id task)) ->
  Async.keeps I (Async.schedule_if_new task).
Proof.
  intros HK. unfold Async.schedule_if_new.
  destruct (hasReminder task); [|exact Logic.I].
  destruct (reminderTime task) as [reminderTime_|]; [|exact Logic.I].
  apply keeps_bind; [apply keeps_sync; intros st Hst; exact Hst|].
  intros existing. destruct (negb (truthy_opt existing)); [|exact Logic.I].
  apply keeps_bind;
    [apply keeps_await_async, keeps_scheduleTaskReminder|].
  intros [notificationId_|]; [|exact Logic.I].
  destruct (truthy notificationId_) eqn:Hid; [|exact Logic.I].
  apply keeps_sync. intros st Hst. simpl. apply I_set; auto.
Qed.

Lemma keeps_syncNotifications (tasks : list Task) :
  (forall t, In t tasks -> hasReminder t = true -> K (id t)) ->
  Async.keeps I (Async.syncNotifications tasks).
Proof.
  intros HK. unfold Async.syncNotifications, Async.cancelReminder.
  apply keeps_try_catch; [|exact Logic.I].
  apply keeps_bind.
  { apply keeps_for_of. intros t Ht. apply keeps_schedule_if_new. auto. }
  intros _. apply keeps_bind.
  { apply keeps_sync. intros st Hst.
    unfold ledger_of, state_of, notificationIdsToCancel.
    rewrite collect_cancellations_entries. simpl. apply I_filter. exact Hst. }
  intros ids. apply keeps_for_of. intros x _.
  apply keeps_await_async, keeps_try_catch; [|exact Logic.I].
  apply keeps_await. intros st Hst. rewrite cancel_map. exact Hst.
Qed.

Lemma advance_keeps {A} (t : Async.Run World A) (st : State World) :
  Async.keeps I t -> I (notificationMap st) ->
  I (notificationMap (snd (fst (Async.advance t st))))
  /\ Async.keeps I (fst (fst (Async.advance t st))).
Proof.
  revert st. induction t as [r|X m k IH|rest IH]; intros st Ht Hst; simpl.
  - auto.
  - simpl in Ht. destruct (Ht st Hst) as (H1 & H2).
    destruct (m st) as [[o st1] c1]. simpl in H1, H2.
    specialize (IH o st1 H2 H1).
    destruct (Async.advance (k o) st1) as [[t' st2] c2]. exact IH.
  - auto.
Qed.

End Keeps.

Lemma never_throws_try_catch {A} (body handler : Async.Run World A) :
  Async.never_throws handler ->
  Async.never_throws (Async.try_catch body handler).
Proof.
  intros Hh. induction body as [[a|]|X m k IH|rest IH]; simpl; auto.
Qed.

Lemma never_throws_syncNotifications (tasks : list Task) :
  Async.never_throws (Async.syncNotifications tasks : Async.Run World unit).
Proof. apply never_throws_try_catch. exact Logic.I. Qed.

Lemma advance_never_throws {A} (t : Async.Run World A) (st : State World) :
  Async.never_throws t ->
  Async.never_throws (fst (fst (Async.advance t st))).
Proof.
  revert st. induction t as [r|X m k IH|rest IH]; intros st Ht; simpl.
  - exact Ht.
  - destruct (m st) as [[o st1] c1]. specialize (IH o st1 (Ht o)).
    destruct (Async.advance (k o) st1) as [[t' st2] c2]. exact IH.
  - exact Ht.
Qed.

Lemma Forall_replace {X} (Q : X -> Prop) (l : list X) (i : nat) (x : X) :
  Forall Q l -> Q x -> Forall Q (Async.replace l i x).
Proof.
  intros Hl Hx. revert i. induction Hl as [|y l Hy Hl IH]; intros i; simpl.
  - constructor.
  - destruct i; constructor; auto.
Qed.

Lemma in_set (m : JsMap.t) (k v k' v' : string) :
  In (k', v') (JsMap.set m k v) -> In (k', v') m \/ (k' = k /\ v' = v).
Proof.
  induction m as [|[k0 v0] m IH]; simpl.
  - intros [[= <- <-]|[]]. auto.
  - destruct (String.eqb_spec k k0) as [->|Hne]; simpl.
    + intros [[= <- <-]|Hin]; auto.
    + intros [Heq|Hin]; auto. destruct (IH Hin); auto.
Qed.

(** The entries of the map once the events [es'] have happened. *)
Lemma interleave_invariant (I : JsMap.t -> Prop) (K : string -> Prop)
    (es : list (Async.Event World)) (h : Async.Hook World) :
  (forall m k v, I m -> K k -> truthy v = true -> I (JsMap.set m k v)) ->
  (forall m f, I m -> I (filter f m)) ->
  (forall tasks t, In (Async.Start tasks) es -> In t tasks ->
     hasReminder t = true -> K (id t)) ->
  Forall (fun t => Async.keeps I t /\ Async.never_throws t) (fst (fst h)) ->
  I (notificationMap (snd (fst h))) ->
  Forall (fun t => Async.keeps I t /\ Async.never_throws t)
    (fst (fst (fold_left Async.happen es h)))
  /\ I (notificationMap (snd (fst (fold_left Async.happen es h)))).
Proof.
  intros Hset Hfilter. revert h.
  induction es as [|e es IH]; intros h HK Hpasses Hst; simpl; [auto|].
  apply IH.
  - intros tasks t Hin. apply HK. right. exact Hin.
  - destruct h as [[passes st] cs]. simpl in *.
    destruct e as [tasks|index|change]; [| |exact Hpasses].
    + assert (Hkeeps : Async.keeps I (Async.syncNotifications tasks)).
      { apply (keeps_syncNotifications I K Hset Hfilter).
        intros t Ht Hrem. apply (HK tasks t); auto. }
      pose proof (advance_keeps I _ st Hkeeps Hst) as (_ & H2).
      pose proof (advance_never_throws _ st
                    (never_throws_syncNotifications tasks)) as H3.
      destruct (Async.advance (Async.syncNotifications tasks) st)
        as [[t' st'] c]. simpl in *.
      apply Forall_app. split; [exact Hpasses|]. repeat constructor; auto.
    + destruct (nth_error passes index) as [t|] eqn:Hnth; [|exact Hpasses].
      rewrite Forall_forall in Hpasses.
      destruct (Hpasses t (nth_error_In _ _ Hnth)) as (Hk & Hn).
      pose proof (advance_keeps I _ st Hk Hst) as (_ & H2).
      pose proof (advance_never_throws _ st Hn) as H3.
      destruct (Async.advance t st) as [[t' st'] c]. simpl in *.
      apply Forall_replace; [apply Forall_forall; exact Hpasses|auto].
  - destruct h as [[passes st] cs]. simpl in *.
    destruct e as [tasks|index|change]; [| |exact Hst].
    + assert (Hkeeps : Async.keeps I (Async.syncNotifications tasks)).
      { apply (keeps_syncNotifications I K Hset Hfilter).
        intros t Ht Hrem. apply (HK tasks t); auto. }
      pose proof (advance_keeps I _ st Hkeeps Hst) as (H1 & _).
      destruct (Async.advance (Async.syncNotifications tasks) st)
        as [[t' st'] c]. exact H1.
    + destruct (nth_error passes index) as [t|] eqn:Hnth; [|exact Hst].
      rewrite Forall_forall in Hpasses.
      destruct (Hpasses t (nth_error_In _ _ Hnth)) as (Hk & Hn).
      pose proof (advance_keeps I _ st Hk Hst) as (H1 & _).
      destruct (Async.advance t st) as [[t' st'] c]. exact H1.
Qed.

(** X13.  Passes that overlap.  Whatever task lists the hook is given and
    in whatever order the passes it starts go on at their [await]s, no pass
    settles with an error, a key occurs once in the map, no identifier in
    it is empty, and each key was in the map at the start or is the
    identifier of a task with a reminder of one of the lists. *)
Theorem overlapping_passes_keep_the_map_sound
    (es : list (Async.Event World)) (st : State World) :
  JsMap.wf (notificationMap st) ->
  (forall k v, In (k, v) (notificationMap st) -> truthy v = true) ->
  (forall r, In (Async.Settled r) (fst (fst (Async.interleave es st))) ->
     r = Val tt)
  /\ JsMap.wf (notificationMap (snd (fst (Async.interleave es st))))
  /\ forall k v,
       In (k, v) (notificationMap (snd (fst (Async.interleave es st)))) ->
       truthy v = true
       /\ (In k (JsMap.keys (notificationMap st))
           \/ exists tasks t,
                In (Async.Start tasks) es /\ In t tasks /\ id t = k
                /\ hasReminder t = true).
Proof.
  intros Hwf Htruthy.
  set (K := fun k =>
              In k (JsMap.keys (notificationMap st))
              \/ exists tasks t,
                   In (Async.Start tasks) es /\ In t tasks /\ id t = k
                   /\ hasReminder t = true).
  set (I := fun m : JsMap.t =>
              JsMap.wf m
              /\ forall k v, In (k, v) m -> truthy v = true /\ K k).
  destruct (interleave_invariant I K es ([], st, [])) as (Hpasses & Hw & Hm).
  - intros m k v (Hw & Hm) Hk Hv. split; [apply wf_set; exact Hw|].
    intros k' v' Hin. apply in_set in Hin.
    destruct Hin as [Hin|(-> & ->)]; auto.
  - intros m f (Hw & Hm). split; [apply wf_filter; exact Hw|].
    intros k v Hin. apply filter_In in Hin. apply Hm. tauto.
  - intros tasks t Hin Ht Hrem. right. exists tasks, t. auto.
  - constructor.
  - split; [exact Hwf|]. intros k v Hin. split; [eauto|].
    left. apply (in_map fst) in Hin. exact Hin.
  - split; [|split; [exact Hw | exact Hm]].
    intros r Hin. rewrite Forall_forall in Hpasses.
    destruct (Hpasses _ Hin) as (_ & Hn). simpl in Hn.
    destruct r as [[]|]; [reflexivity | contradiction].
Qed.

End OverlapInvariant.

Section InARow.

Context {World : Type} {P : Platform World}.

(** *** A pass that meets no other *)

(** A turn is the beginning of what the function does alone, and leaves
    fewer turns. *)
Lemma advance_then_alone {A} (t : Async.Run World A) (st : State World) :
  Async.alone t st
  = (value_of
       (Async.alone (fst (fst (Async.advance t st)))
          (snd (fst (Async.advance t st)))),
     state_of
       (Async.alone (fst (fst (Async.advance t st)))
          (snd (fst (Async.advance t st)))),
     snd (Async.advance t st)
     ++ calls_of
          (Async.alone (fst (fst (Async.advance t st)))
             (snd (fst (Async.advance t st)))))
  /\ (Async.turns_left (fst (fst (Async.advance t st)))
        (snd (fst (Async.advance t st)))
      <= pred (Async.turns_left t st))%nat.
Proof.
  revert st. induction t as [r|X m k IH|rest IH]; intros st; simpl.
  - split; [reflexivity | lia].
  - destruct (m st) as [[o st1] c1]. specialize (IH o st1).
    destruct (Async.advance (k o) st1) as [[t1 st2] c2]. simpl in *.
    destruct IH as (IH1 & IH2). rewrite IH1.
    unfold value_of, state_of, calls_of.
    destruct (Async.alone t1 st2) as [[r st3] c3]. simpl.
    rewrite app_assoc. split; [reflexivity | lia].
  - unfold value_of, state_of, calls_of.
    destruct (Async.alone rest st) as [[r st1] c1]. simpl.
    split; [reflexivity | lia].
Qed.

Lemma happen_resume (t : Async.Run World unit) (st : State World)
    (cs : list Call) :
  Async.happen ([t], st, cs) (Async.Resume 0)
  = ([fst (fst (Async.advance t st))], snd (fst (Async.advance t st)),
     cs ++ snd (Async.advance t st)).
Proof.
  simpl. destruct (Async.advance t st) as [[t1 st1] c1]. reflexivity.
Qed.

Lemma happen_start (tasks : list Task) (st : State World) :
  Async.happen ([], st, []) (Async.Start tasks)
  = ([fst (fst (Async.advance (Async.syncNotifications tasks) st))],
     snd (fst (Async.advance (Async.syncNotifications tasks) st)),
     snd (Async.advance (Async.syncNotifications tasks) st)).
Proof.
  simpl. destruct (Async.advance (Async.syncNotifications tasks) st)
    as [[t1 st1] c1]. reflexivity.
Qed.

(** The turns of one pass, one after the other, in a hook that holds it
    alone. *)
Lemma resume_alone (n : nat) (t : Async.Run World unit) (st : State World)
    (cs : list Call) :
  (Async.turns_left t st <= n)%nat ->
  fold_left Async.happen (repeat (Async.Resume 0) n) ([t], st, cs)
  = ([Async.Settled (value_of (Async.alone t st))],
     state_of (Async.alone t st),
     cs ++ calls_of (Async.alone t st)).
Proof.
  revert t st cs. induction n as [|n IH]; intros t st cs Hn.
  - destruct t as [r|X m k|rest]; simpl in Hn.
    + simpl. rewrite app_nil_r. reflexivity.
    + destruct (m st) as [[o st1] c1]. lia.
    + lia.
  - change (fold_left Async.happen (repeat (Async.Resume 0) (S n))
              ([t], st, cs))
      with (fold_left Async.happen (repeat (Async.Resume 0) n)
              (Async.happen ([t], st, cs) (Async.Resume 0))).
    rewrite happen_resume.
    destruct (advance_then_alone t st) as (Hal & Hturns).
    destruct (Async.advance t st) as [[t1 st1] c1]. simpl in *.
    rewrite IH by lia. rewrite Hal.
    unfold value_of, state_of, calls_of. simpl.
    rewrite app_assoc. reflexivity.
Qed.

(** X26.  A pass that meets no other.  When the hook starts a pass and
    nothing else happens until the pass has had its turns, the pass settles
    normally and has made the calls and left the state of
    [syncNotifications]: the passes that overlap and the pass run to its
    end are one program. *)
Theorem pass_in_a_row (tasks : list Task) (st : State World) :
  exists n, forall n', (n <= n')%nat ->
    Async.interleave (Async.Start tasks :: repeat (Async.Resume 0) n') st
    = ([Async.Settled (Val tt)],
       state_of (syncNotifications tasks st),
       calls_of (syncNotifications tasks st)).
Proof.
  destruct (advance_then_alone (Async.syncNotifications tasks) st)
    as (Hal & _).
  exists (Async.turns_left
            (fst (fst (Async.advance (Async.syncNotifications tasks) st)))
            (snd (fst (Async.advance (Async.syncNotifications tasks) st)))).
  intros n' Hn'. unfold Async.interleave.
  change (fold_left Async.happen
            (Async.Start tasks :: repeat (Async.Resume 0) n') ([], st, []))
    with (fold_left Async.happen (repeat (Async.Resume 0) n')
            (Async.happen ([], st, []) (Async.Start tasks))).
  rewrite happen_start.
  destruct (Async.advance (Async.syncNotifications tasks) st)
    as [[t1 st1] c1]. simpl in *.
  rewrite resume_alone by exact Hn'.
  rewrite alone_syncNotifications in Hal.
  destruct (syncNotifications_facts tasks st)
    as (w1 & m1 & c0 & _ & Hval & _).
  rewrite Hal. unfold value_of, state_of, calls_of in *. simpl.
  rewrite Hal in Hval. simpl in Hval. rewrite Hval. reflexivity.
Qed.

End InARow.

Section CompletionFacts.

Context {World : Type} {P : Platform World}.
Context {Disk : Type} {S : TaskStorage.AsyncStorage Disk}.

Import TaskContext.

(** ** Completing a task *)

Lemma findIndex_find {A} (p : A -> bool) (l : list A) (i : nat) (y : A) :
  findIndex p l = Some i -> nth_error l i = Some y -> find p l = Some y.
Proof.
  revert i. induction l as [|x l IH]; intros i; simpl; [discriminate|].
  destruct (p x).
  - intros [= <-]. simpl. intros [= <-]. reflexivity.
  - destruct (findIndex p l) as [j|]; [|discriminate].
    intros [= <-]. simpl. apply IH. reflexivity.
Qed.

(** [UPDATE_TASK] with a payload that has, in the fields the notification
    code reads, what the task it replaces has. *)
Lemma update_same_core (s : TaskState) (payload : FullTask) :
  (forall u,
     find (fun t => String.eqb (id (core t)) (id (core payload))) (tasks s)
     = Some u ->
     core u = core payload) ->
  reminders (taskReducer s (UPDATE_TASK payload)) = reminders s.
Proof.
  intros Hsame. unfold taskReducer.
  destruct (findIndex _ (tasks s)) as [index|] eqn:Hindex; [|reflexivity].
  destruct (findIndex_some _ _ _ Hindex) as (y & Hnth & _).
  unfold reminders. simpl.
  apply (map_assign core _ _ _ y Hnth). symmetry. apply Hsame.
  apply (findIndex_find _ _ _ _ Hindex Hnth).
Qed.

Lemma core_spread_isCompleted (t : FullTask) (b : bool) (now : string) :
  core
    (TaskStorage.spread t
       (TaskStorage.mkUpdateTaskPayload None None None None None None
          (Some b))
       now)
  = core t.
Proof. destruct t as [[i ti e r] n c p ca cr up]. reflexivity. Qed.

(** What [toggleTaskCompletion] of the storage gives when it gives a
    task: the task that [updateTask] found under the identifier, with
    [isCompleted] the opposite of what [getTaskById] read. *)
Lemma toggleTaskCompletion_result (k : string) (d d' : Disk)
    (updated : FullTask) :
  TaskStorage.toggleTaskCompletion k d = (Ok (Some updated), d') ->
  exists t1 tasks2 d2 t2 now,
    fst (TaskStorage.getTaskById k d) = Ok (Some t1)
    /\ TaskStorage.getAllTasks (snd (TaskStorage.getTaskById k d))
       = (Ok tasks2, d2)
    /\ find (fun t => String.eqb (id (core t)) k) tasks2 = Some t2
    /\ updated
       = TaskStorage.spread t2
           (TaskStorage.mkUpdateTaskPayload None None None None None None
              (Some (negb (isCompleted t1))))
           now.
Proof.
  unfold TaskStorage.toggleTaskCompletion, TaskStorage.try_catch,
    TaskStorage.bind, TaskStorage.throw.
  destruct (TaskStorage.getTaskById k d) as [[[t1|]|e] d1]; simpl;
    try discriminate.
  unfold TaskStorage.updateTask, TaskStorage.try_catch, TaskStorage.bind,
    TaskStorage.throw, TaskStorage.ret, TaskStorage.new_Date_toISOString.
  destruct (TaskStorage.getAllTasks d1) as [[tasks2|e] d2]; try discriminate.
  destruct (findIndex _ tasks2) as [index|] eqn:Hindex; try discriminate.
  destruct (nth_error tasks2 index) as [t2|] eqn:Hnth; try discriminate.
  destruct (TaskStorage.toISOString_now d2) as [now d3].
  destruct (TaskStorage.setItem _ _ d3) as [[u|e] d4]; try discriminate.
  intros [= <- <-].
  exists t1, tasks2, d2, t2, now. repeat split.
  apply (findIndex_find _ _ _ _ Hindex Hnth).
Qed.

(** The actions [toggleTaskCompletion] of the provider dispatches. *)
Lemma toggleTaskCompletionFn_actions (k : string) (d : Disk)
    (a : TaskAction) :
  In a (snd (TaskProvider.toggleTaskCompletionFn k d)) ->
  (exists payload, a = SET_ERROR payload)
  \/ exists updated d',
       a = UPDATE_TASK updated
       /\ TaskStorage.toggleTaskCompletion k d = (Ok (Some updated), d').
Proof.
  unfold TaskProvider.toggleTaskCompletionFn,
    TaskRepository.toggleTaskCompletion.
  destruct (TaskStorage.toggleTaskCompletion k d) as [[[updated|]|e] d'];
    simpl; intros Hin.
  - destruct Hin as [<-|[<-|[]]]; eauto.
  - destruct Hin as [<-|[]]; eauto.
  - destruct Hin as [<-|[<-|[]]]; eauto.
Qed.

(** X21.  Completing a task keeps its reminder.  The check box calls
    [toggleTaskCompletion] of the provider, which dispatches [UPDATE_TASK]
    with the task the storage gives back.  When the task that
    [updateTask] finds in the storage under the identifier has, in the
    fields the notification code reads, what the task of the state under
    that identifier has, every action dispatched leaves the list the hook
    is given as it was, so the pass that follows is the pass over the tasks
    as they were; the task dispatched has the identifier asked for and the
    opposite of the [isCompleted] that was read. *)
Theorem completing_a_task_keeps_its_reminder
    (k : string) (d : Disk) (s : TaskState) (st : State World)
    (a : TaskAction) :
  In a (snd (TaskProvider.toggleTaskCompletionFn k d)) ->
  (forall tasks2 d2 t2 u,
     TaskStorage.getAllTasks (snd (TaskStorage.getTaskById k d))
     = (Ok tasks2, d2) ->
     find (fun t => String.eqb (id (core t)) k) tasks2 = Some t2 ->
     find (fun t => String.eqb (id (core t)) k) (tasks s) = Some u ->
     core u = core t2) ->
  reminders (taskReducer s a) = reminders s
  /\ syncNotifications (reminders (taskReducer s a)) st
     = syncNotifications (reminders s) st
  /\ forall updated, a = UPDATE_TASK updated ->
       id (core updated) = k
       /\ exists t1,
            fst (TaskStorage.getTaskById k d) = Ok (Some t1)
            /\ isCompleted updated = negb (isCompleted t1).
Proof.
  intros Hin Hagree.
  assert (Hsame : reminders (taskReducer s a) = reminders s).
  { destruct (toggleTaskCompletionFn_actions k d a Hin)
      as [(payload & ->)|(updated & d' & -> & Hrun)]; [reflexivity|].
    destruct (toggleTaskCompletion_result k d d' updated Hrun)
      as (t1 & tasks2 & d2 & t2 & now & _ & Hread & Hfind & ->).
    assert (Hk : id (core t2) = k).
    { apply find_some in Hfind. destruct Hfind as (_ & Heq).
      apply String.eqb_eq. exact Heq. }
    apply update_same_core. rewrite core_spread_isCompleted, Hk.
    intros u Hu. apply (Hagree tasks2 d2 t2 u Hread Hfind Hu). }
  split; [exact Hsame|]. split; [rewrite Hsame; reflexivity|].
  intros updated ->.
  destruct (toggleTaskCompletionFn_actions k d _ Hin)
    as [(payload & Heq)|(updated' & d' & [= <-] & Hrun)]; [discriminate|].
  destruct (toggleTaskCompletion_result k d d' updated Hrun)
    as (t1 & tasks2 & d2 & t2 & now & Hfirst & Hread & Hfind & ->).
  rewrite core_spread_isCompleted. split.
  - apply find_some in Hfind. destruct Hfind as (_ & Heq).
    apply String.eqb_eq. exact Heq.
  - exists t1. split; [exact Hfirst|]. destruct t2; reflexivity.
Qed.

End CompletionFacts.

(** * The further properties on the example platforms *)

(** X2 on the fresh device: the groceries reminder is three hours away,
    and six requests are handed over. *)
Lemma request_count_by_lead_witness :
  getPermissionsAsync (world (Device.start Device.fresh))
  = (Val granted, Device.fresh)
  /\ Date_now Device.fresh = (1705239000000, Device.fresh)
  /\ Date_parse "2024-01-14T16:30:00.000Z" = Num 1705249800000
  /\ 1705239000000 < 1705249800000
  /\ existsb threw
       (calls_of
          (scheduleTaskReminder "b2" "Groceries" "2024-01-14T16:30:00.000Z"
             (Device.start Device.fresh)))
     = false
  /\ List.length
       (schedule_requests
          (calls_of
             (scheduleTaskReminder "b2" "Groceries"
                "2024-01-14T16:30:00.000Z" (Device.start Device.fresh))))
     = 6%nat.
Proof.
  assert (H5 : existsb threw
                 (calls_of
                    (scheduleTaskReminder "b2" "Groceries"
                       "2024-01-14T16:30:00.000Z"
                       (Device.start Device.fresh)))
               = false) by (vm_compute; reflexivity).
  do 4 (split; [reflexivity|]). split; [exact H5|].
  exact (request_count_by_lead "b2" "Groceries" "2024-01-14T16:30:00.000Z"
           (Device.start Device.fresh) Device.fresh Device.fresh
           1705239000000 1705249800000 eq_refl eq_refl eq_refl eq_refl H5).
Defined.

(** X3 on the fresh device, for the dentist reminder. *)
Lemma requests_in_firing_order_witness :
  getPermissionsAsync (world (Device.start Device.fresh))
  = (Val granted, Device.fresh)
  /\ Date_now Device.fresh = (1705239000000, Device.fresh)
  /\ Date_parse "2024-01-15T14:30:00.000Z" = Num 1705329000000
  /\ 1705239000000 < 1705329000000
  /\ exists zs,
       map trigger_seconds
         (schedule_requests
            (calls_of
               (scheduleTaskReminder "a1" "Dentist"
                  "2024-01-15T14:30:00.000Z" (Device.start Device.fresh))))
       = map Num zs
       /\ StronglySorted Z.lt zs.
Proof.
  do 4 (split; [reflexivity|]).
  exact (requests_in_firing_order "a1" "Dentist" "2024-01-15T14:30:00.000Z"
           (Device.start Device.fresh) Device.fresh Device.fresh
           1705239000000 1705329000000 eq_refl eq_refl eq_refl eq_refl).
Defined.

(** X4 on the fresh device, for a date that does not parse. *)
Lemma invalid_date_scheduled_with_NaN_witness :
  getPermissionsAsync (world (Device.start Device.fresh))
  = (Val granted, Device.fresh)
  /\ Date_parse "tomorrow" = NaN
  /\ existsb threw
       (calls_of
          (scheduleTaskReminder "e5" "Call back" "tomorrow"
             (Device.start Device.fresh)))
     = false
  /\ schedule_requests
       (calls_of
          (scheduleTaskReminder "e5" "Call back" "tomorrow"
             (Device.start Device.fresh)))
     = mainRequest "e5" "Call back" NaN
       :: map (followUpRequest "e5" "Call back" NaN) followUpIntervals.
Proof.
  assert (H3 : existsb threw
                 (calls_of
                    (scheduleTaskReminder "e5" "Call back" "tomorrow"
                       (Device.start Device.fresh)))
               = false) by (vm_compute; reflexivity).
  do 2 (split; [reflexivity|]). split; [exact H3|].
  exact (proj1
    (invalid_date_scheduled_with_NaN "e5" "Call back" "tomorrow"
       (Device.start Device.fresh) Device.fresh eq_refl eq_refl H3)).
Defined.

(** X5 on the fresh device, for the stand-up reminder. *)
Lemma subsecond_lead_main_request_at_zero_witness :
  getPermissionsAsync (world (Device.start Device.fresh))
  = (Val granted, Device.fresh)
  /\ Date_now Device.fresh = (1705239000000, Device.fresh)
  /\ Date_parse "2024-01-14T13:30:00.500Z" = Num 1705239000500
  /\ 1705239000000 < 1705239000500 < 1705239000000 + 1000
  /\ exists r rest,
       calls_of
         (scheduleTaskReminder "c3" "Stand-up" "2024-01-14T13:30:00.500Z"
            (Device.start Device.fresh))
       = CallGetPermissions (Val granted)
         :: CallSchedule (mainRequest "c3" "Stand-up" (Num 0)) r :: rest.
Proof.
  assert (H4 : 1705239000000 < 1705239000500 < 1705239000000 + 1000)
    by (split; reflexivity).
  do 3 (split; [reflexivity|]). split; [exact H4|].
  exact (subsecond_lead_main_request_at_zero "c3" "Stand-up"
           "2024-01-14T13:30:00.500Z" (Device.start Device.fresh)
           Device.fresh Device.fresh 1705239000000 1705239000500
           eq_refl eq_refl eq_refl H4).
Defined.


(** X10 on the fresh device: [ntf-3] was returned in the pass. *)
Lemma pass_records_scheduler_identifiers_witness :
  JsMap.get
    (ledger_of (syncNotifications [dentist] (Device.start Device.fresh)))
    "a1"
  = Some "ntf-3"
  /\ (JsMap.get (notificationMap (Device.start Device.fresh)) "a1"
      = Some "ntf-3"
      \/ (truthy "ntf-3" = true
          /\ In "ntf-3"
               (returned_handles
                  (calls_of
                     (syncNotifications [dentist]
                        (Device.start Device.fresh)))))).
Proof.
  assert (H1 : JsMap.get
                 (ledger_of
                    (syncNotifications [dentist] (Device.start Device.fresh)))
                 "a1"
               = Some "ntf-3") by (vm_compute; reflexivity).
  split; [exact H1|].
  exact (pass_records_scheduler_identifiers [dentist]
           (Device.start Device.fresh) "a1" "ntf-3" H1).
Defined.

(** X12 on the state the pass over both tasks leaves, the groceries task
    being gone. *)
Lemma pass_cancels_stale_entries_witness :
  NoDup (map id [dentist])
  /\ cancel_requests
       (calls_of (syncNotifications [dentist] (state_of two_tasks_pass)))
     = ["ntf-9"].
Proof.
  assert (H1 : NoDup (map id [dentist])).
  { simpl. repeat constructor. simpl. tauto. }
  split; [exact H1|].
  exact (proj1
    (pass_cancels_stale_entries [dentist] (state_of two_tasks_pass) H1)).
Defined.

(** X13 on the fresh device, for the two passes over the dentist task that
    overlap. *)
Lemma overlapping_passes_keep_the_map_sound_witness :
  JsMap.wf (notificationMap (Device.start Device.fresh))
  /\ (forall k v, In (k, v) (notificationMap (Device.start Device.fresh)) ->
      truthy v = true)
  /\ JsMap.wf
       (notificationMap
          (snd (fst
             (Async.interleave
                (Async.Start [dentist] :: Async.Start [dentist]
                 :: turn_about 15)
                (Device.start Device.fresh))))).
Proof.
  assert (H1 : JsMap.wf (notificationMap (Device.start Device.fresh)))
    by constructor.
  assert (H2 : forall k v,
             In (k, v) (notificationMap (Device.start Device.fresh)) ->
             truthy v = true) by (intros k v []).
  split; [exact H1|]. split; [exact H2|].
  exact (proj1 (proj2
    (overlapping_passes_keep_the_map_sound
       (Async.Start [dentist] :: Async.Start [dentist] :: turn_about 15)
       (Device.start Device.fresh) H1 H2))).
Defined.


(** X15 on the device, after the pass over both tasks: every pending
    notification is cancelled, the map still holds both identifiers, and
    the next pass makes no call. *)
Lemma cancelAllReminders_then_pass_schedules_nothing_witness :
  (forall t, In t [dentist; groceries] -> hasReminder t = true ->
     truthy_opt
       (JsMap.get (notificationMap (state_of two_tasks_pass)) (id t))
     = true)
  /\ (forall k v, In (k, v) (notificationMap (state_of two_tasks_pass)) ->
      toCancel [dentist; groceries] k = false)
  /\ Device.pending
       (world (run_helper cancelAllReminders (state_of two_tasks_pass)))
     = []
  /\ syncNotifications [dentist; groceries]
       (run_helper cancelAllReminders (state_of two_tasks_pass))
     = (Val tt, run_helper cancelAllReminders (state_of two_tasks_pass), []).
Proof.
  assert (H1 : forall t, In t [dentist; groceries] -> hasReminder t = true ->
             truthy_opt
               (JsMap.get (notificationMap (state_of two_tasks_pass)) (id t))
             = true).
  { intros t [<-|[<-|[]]] _; vm_compute; reflexivity. }
  assert (H2 : forall k v,
             In (k, v) (notificationMap (state_of two_tasks_pass)) ->
             toCancel [dentist; groceries] k = false).
  { intros k v Hin. vm_compute in Hin.
    destruct Hin as [Hin|[Hin|[]]]; inversion Hin; vm_compute; reflexivity. }
  split; [exact H1|]. split; [exact H2|].
  split; [vm_compute; reflexivity|].
  exact (proj2 (proj2
    (cancelAllReminders_then_pass_schedules_nothing [dentist; groceries]
       (state_of two_tasks_pass) H1 H2))).
Defined.

(** X17 on the Android device whose channel cannot be set. *)
Lemma initializeNotifications_stops_at_failure_witness :
  snd (@initializeNotifications nat no_channel_expo 0%nat)
  = [CallSetNotificationHandler (Val tt)]
    ++ CallSetNotificationChannel Threw :: []
  /\ expo_threw (CallSetNotificationChannel Threw) = true
  /\ filter is_permission_request
       (snd (@initializeNotifications nat no_channel_expo 0%nat))
     = [].
Proof.
  do 2 (split; [reflexivity|]).
  exact (proj2
    (@initializeNotifications_stops_at_failure nat no_channel_expo 0%nat
       [CallSetNotificationHandler (Val tt)] []
       (CallSetNotificationChannel Threw) eq_refl eq_refl) eq_refl).
Defined.

(** X18 on the fresh device, for the pass over both tasks. *)
Lemma scheduled_notification_tap_leads_to_task_witness :
  (forall t, In t [dentist; groceries] -> truthy (id t) = true)
  /\ Forall
       (fun req =>
          tapHandler (data_of req) = Some (data_taskId req)
          /\ homeScreenTapListener [dentist; groceries] (data_of req)
             = Some (data_taskId req)
          /\ exists t, In t [dentist; groceries] /\ id t = data_taskId req)
       (schedule_requests
          (calls_of
             (syncNotifications [dentist; groceries]
                (Device.start Device.fresh)))).
Proof.
  assert (H1 : forall t, In t [dentist; groceries] -> truthy (id t) = true).
  { intros t [<-|[<-|[]]]; reflexivity. }
  split; [exact H1|].
  exact (scheduled_notification_tap_leads_to_task [dentist; groceries]
           (Device.start Device.fresh) H1).
Defined.

(** X20 on the home screen's two tasks: the stand-up task is added. *)
Lemma reducer_keeps_identifiers_distinct_witness :
  NoDup (map id (TaskContext.reminders home_state))
  /\ ~ In (id (TaskContext.core (full standup)))
         (map id (TaskContext.reminders home_state))
  /\ NoDup
       (map id
          (TaskContext.reminders
             (TaskContext.taskReducer home_state
                (TaskContext.ADD_TASK (full standup))))).
Proof.
  assert (H1 : NoDup (map id (TaskContext.reminders home_state))).
  { simpl. repeat constructor; simpl; intuition discriminate. }
  assert (H2 : ~ In (id (TaskContext.core (full standup)))
                 (map id (TaskContext.reminders home_state))).
  { simpl. intuition discriminate. }
  split; [exact H1|]. split; [exact H2|].
  exact (reducer_keeps_identifiers_distinct home_state
           (TaskContext.ADD_TASK (full standup)) H1 H2).
Defined.

(** X21 on the phone that stores the two tasks of the home screen: the
    groceries task is completed. *)
Lemma completing_a_task_keeps_its_reminder_witness :
  In (TaskContext.UPDATE_TASK groceries_completed)
    (snd (TaskProvider.toggleTaskCompletionFn "b2" Phone.two_tasks))
  /\ (forall tasks2 d2 t2 u,
        TaskStorage.getAllTasks
          (snd (TaskStorage.getTaskById "b2" Phone.two_tasks))
        = (Ok tasks2, d2) ->
        find (fun t => String.eqb (id (TaskContext.core t)) "b2") tasks2
        = Some t2 ->
        find (fun t => String.eqb (id (TaskContext.core t)) "b2")
          (TaskContext.tasks home_state)
        = Some u ->
        TaskContext.core u = TaskContext.core t2)
  /\ TaskContext.reminders
       (TaskContext.taskReducer home_state
          (TaskContext.UPDATE_TASK groceries_completed))
     = TaskContext.reminders home_state.
Proof.
  assert (H1 : In (TaskContext.UPDATE_TASK groceries_completed)
                 (snd (TaskProvider.toggleTaskCompletionFn "b2"
                         Phone.two_tasks))).
  { vm_compute. right. left. reflexivity. }
  assert (H2 : forall tasks2 d2 t2 u,
             TaskStorage.getAllTasks
               (snd (TaskStorage.getTaskById "b2" Phone.two_tasks))
             = (Ok tasks2, d2) ->
             find (fun t => String.eqb (id (TaskContext.core t)) "b2") tasks2
             = Some t2 ->
             find (fun t => String.eqb (id (TaskContext.core t)) "b2")
               (TaskContext.tasks home_state)
             = Some u ->
             TaskContext.core u = TaskContext.core t2).
  { intros tasks2 d2 t2 u Hread Hfind Hu.
    vm_compute in Hread. inversion Hread; subst tasks2 d2.
    vm_compute in Hfind. inversion Hfind; subst t2.
    vm_compute in Hu. inversion Hu; subst u. reflexivity. }
  split; [exact H1|]. split; [exact H2|].
  exact (proj1
    (completing_a_task_keeps_its_reminder "b2" Phone.two_tasks home_state
       (Device.start Device.fresh)
       (TaskContext.UPDATE_TASK groceries_completed) H1 H2)).
Defined.

(** X22 on the state the pass over both tasks leaves: the groceries task
    is deleted. *)
Lemma deleting_a_task_cancels_its_reminder_witness :
  JsMap.get (notificationMap (state_of two_tasks_pass)) "b2" = Some "ntf-9"
  /\ truthy "ntf-9" = true
  /\ In "ntf-9"
       (cancel_requests
          (calls_of
             (syncNotifications
                (TaskContext.reminders
                   (TaskContext.taskReducer home_state
                      (TaskContext.DELETE_TASK "b2")))
                (state_of two_tasks_pass)))).
Proof.
  assert (H1 : JsMap.get (notificationMap (state_of two_tasks_pass)) "b2"
               = Some "ntf-9") by (vm_compute; reflexivity).
  split; [exact H1|]. split; [reflexivity|].
  exact (proj1 (proj2
    (deleting_a_task_cancels_its_reminder home_state "b2" "ntf-9"
       (state_of two_tasks_pass) H1 eq_refl))).
Defined.

(** X24 on the same state: the groceries task is saved with its reminder
    off. *)
Lemma saving_without_reminder_cancels_it_witness :
  In (id (TaskContext.core (full (disable groceries))))
    (map id (TaskContext.reminders home_state))
  /\ hasReminder (TaskContext.core (full (disable groceries))) = false
  /\ JsMap.get (notificationMap (state_of two_tasks_pass))
       (id (TaskContext.core (full (disable groceries))))
     = Some "ntf-9"
  /\ truthy "ntf-9" = true
  /\ In "ntf-9"
       (cancel_requests
          (calls_of
             (syncNotifications
                (TaskContext.reminders
                   (TaskContext.taskReducer home_state
                      (TaskContext.UPDATE_TASK (full (disable groceries)))))
                (state_of two_tasks_pass)))).
Proof.
  assert (H1 : In (id (TaskContext.core (full (disable groceries))))
                 (map id (TaskContext.reminders home_state))).
  { simpl. right. left. reflexivity. }
  assert (H3 : JsMap.get (notificationMap (state_of two_tasks_pass))
                 (id (TaskContext.core (full (disable groceries))))
               = Some "ntf-9") by (vm_compute; reflexivity).
  split; [exact H1|]. split; [reflexivity|]. split; [exact H3|].
  split; [reflexivity|].
  exact (proj1
    (saving_without_reminder_cancels_it home_state
       (full (disable groceries)) "ntf-9" (state_of two_tasks_pass)
       H1 eq_refl H3 eq_refl)).
Defined.


(** ** Runs of overlapping passes *)

(** Two passes over the same list that overlap both find the dentist task
    without identifier: its nine requests are handed to the scheduler
    twice, the identifier of the second main request replaces that of the
    first in the map, and eighteen notifications are pending. *)
Example overlapping_passes_schedule_twice :
  fst (fst overlapping_dentist_passes)
  = [Async.Settled (Val tt); Async.Settled (Val tt)]
  /\ List.length (schedule_requests (snd overlapping_dentist_passes))
     = 18%nat
  /\ requests_of "a1" (schedule_requests (snd overlapping_dentist_passes))
     = schedule_requests (snd overlapping_dentist_passes)
  /\ notificationMap (snd (fst overlapping_dentist_passes))
     = [("a1", "ntf-7")]
  /\ List.length
       (Device.pending (world (snd (fst overlapping_dentist_passes))))
     = 18%nat.
Proof. repeat split; vm_compute; reflexivity. Qed.

(** A pass that goes on after a later one has ended records its
    identifier all the same: the last list the hook was given is empty,
    both passes are over, and the map holds an entry for the dentist task,
    whose nine notifications stay pending. *)
Example late_pass_records_deleted_task :
  fst (fst dentist_deleted_meanwhile)
  = [Async.Settled (Val tt); Async.Settled (Val tt)]
  /\ notificationMap (snd (fst dentist_deleted_meanwhile))
     = [("a1", "ntf-3")]
  /\ cancel_requests (snd dentist_deleted_meanwhile) = []
  /\ List.length
       (Device.pending (world (snd (fst dentist_deleted_meanwhile))))
     = 9%nat.
Proof. repeat split; vm_compute; reflexivity. Qed.

(** ** A run of the storage *)

(** Completing the groceries task on the phone: [UPDATE_TASK] is
    dispatched with the task completed, and the phone holds it. *)
Example groceries_completed_on_phone :
  TaskProvider.toggleTaskCompletionFn "b2" Phone.two_tasks
  = (Ok tt, Some "[a1-,b2+]",
     [TaskContext.SET_ERROR None;
      TaskContext.UPDATE_TASK groceries_completed])
  /\ fst (TaskStorage.getTaskById "b2" (Some "[a1-,b2+]"))
     = Ok (Some groceries_completed).
Proof. split; vm_compute; reflexivity. Qed.
